(** * Facets of datasette: a shallow embedding of [datasette/facets.py]

    The module computes, for a base query, the facets that are configured
    (from the table metadata and from the query string) and the facets that
    could be suggested.  Python functions become functions in an exception
    monad; the collaborators that live outside the module (the SQL executor,
    the URL helpers of [datasette.utils], [json.loads]) are interfaces. *)

From Stdlib Require Import ZArith Ascii String DecimalString.
From stdpp Require Import base option list strings gmap sorting.


(** ** Python exceptions and the exception monad *)

Inductive exn : Type :=
| AssertionError
| TypeError
| UnboundLocalError
| KeyError
| IndexError
| JSONDecodeError
| QueryInterrupted      (* datasette.utils.QueryInterrupted *)
| OperationalError.     (* sqlite3.OperationalError *)

Global Instance exn_eq_dec : EqDecision exn.
Proof. solve_decision. Defined.

Inductive result (A : Type) : Type :=
| Ok (a : A)
| Raise (e : exn).
Arguments Ok {A} a.
Arguments Raise {A} e.

Global Instance result_ret : MRet result := fun A a => Ok a.
Global Instance result_bind : MBind result := fun A B f m =>
  match m with
  | Ok a => f a
  | Raise e => Raise e
  end.

(** [for x in xs: body] over a state that the body may abort with an exception. *)
Fixpoint for_each {S A : Type} (body : S → A → result S) (s : S) (xs : list A) : result S :=
  match xs with
  | [] => Ok s
  | x :: xs' => s' ← body s x; for_each body s' xs'
  end.

(** ** Python strings and values *)

Definition startswith (s p : string) : bool := String.prefix p s.

(** [s[n:]] *)
Fixpoint str_from (n : nat) (s : string) : string :=
  match n, s with
  | O, _ => s
  | S n', String _ s' => str_from n' s'
  | S _, EmptyString => EmptyString
  end.

(** Values of a row of the SQL engine.  REAL and BLOB values are left out. *)
Inductive value : Type :=
| VNull
| VInt (z : Z)
| VText (s : string).

Global Instance value_eq_dec : EqDecision value.
Proof. solve_decision. Defined.

(** [str(v)] *)
Definition str (v : value) : string :=
  match v with
  | VNull => "None"
  | VInt z => NilZero.string_of_int (Z.to_int z)
  | VText s => s
  end.

(** Truthiness of a value, as [any(...)] and [if v] see it. *)
Definition truthy (v : value) : bool :=
  match v with
  | VNull => false
  | VInt z => negb (z =? 0)%Z
  | VText s => negb (String.eqb s "")
  end.

(** A row is read by position ([r[0]]) and by column name ([row["value"]]). *)
Definition row : Type := list (string * value).

Record Results : Type := mkResults {
  res_columns : list string;
  res_rows : list row
}.

(** [len(results)] is the number of rows. *)
Definition len_results (r : Results) : nat := length (res_rows r).

(** [row[name]]; sqlite3.Row raises IndexError on an unknown name. *)
Fixpoint row_get (r : row) (name : string) : result value :=
  match r with
  | [] => Raise IndexError
  | (k, v) :: r' => if decide (k = name) then Ok v else row_get r' name
  end.

(** [r[0]] *)
Definition row_first (r : row) : result value :=
  match r with
  | [] => Raise IndexError
  | (_, v) :: _ => Ok v
  end.

(** ** Requests and facet configurations *)

(** A request is seen through its path and through
    [urllib.parse.parse_qsl(request.query_string, keep_blank_values=True)]. *)
Record Request : Type := mkRequest {
  req_path : string;
  req_pairs : list (string * string)
}.

(** [urllib.parse.parse_qs]: the pairs grouped by key, keys in order of first
    occurrence, values in order of occurrence. *)
Fixpoint parse_qs_add (name val : string) (parsed : list (string * list string))
  : list (string * list string) :=
  match parsed with
  | [] => [(name, [val])]
  | (k, vs) :: rest =>
      if decide (k = name) then (k, vs ++ [val]) :: rest
      else (k, vs) :: parse_qs_add name val rest
  end.

Definition parse_qs (pairs : list (string * string)) : list (string * list string) :=
  foldl (fun parsed kv => parse_qs_add kv.1 kv.2 parsed) [] pairs.

(** A config is a JSON object; the values the module reads ("simple",
    "column") are strings. *)
Abbreviation config := (gmap string string).

Record source_and_config : Type := mkSC {
  sc_source : string;
  sc_config : config
}.

(** An entry of [table_metadata["facets"]]: a bare column name, or a dict
    [{type: config}] whose config is a column name or a structured config. *)
Inductive metadata_entry : Type :=
| MetaStr (column : string)
| MetaDict (items : list (string * (string + config))).

(** The functions imported from [datasette.utils] and from [json]. *)
Class Utils : Type := mkUtils {
  escape_sqlite : string → string;
  path_with_added_args : Request → list (string * value) → string;
  path_with_removed_args : Request → list (string * string) → string;
  json_loads : string → result config
}.

(** [d.items()[i]].  The module is Python 3 code ([async def],
    [urllib.parse]): [dict.items()] returns a view object, which has no
    [__getitem__], and subscripting it raises [TypeError] whatever the dict and
    the index. *)
Definition dict_items_getitem {K V : Type} (items : list (K * V)) (i : nat) : result (K * V) :=
  Raise TypeError.

(** [facet_configs.setdefault(type, []).append(entry)] *)
Definition setdefault_append (ty : string) (entry : source_and_config)
    (facet_configs : gmap string (list source_and_config))
  : gmap string (list source_and_config) :=
  <[ty := default [] (facet_configs !! ty) ++ [entry]]> facet_configs.

(** The local variables of [load_facet_configs] that live across iterations:
    [type] is unbound until an assignment reaches it. *)
Record lfc_locals : Type := mkLocals {
  loc_type : option string;
  loc_facet_configs : gmap string (list source_and_config)
}.

Definition read_type (l : lfc_locals) : result string :=
  match loc_type l with
  | Some ty => Ok ty
  | None => Raise UnboundLocalError
  end.

Section LoadFacetConfigs.
Context `{Utils}.

(** Body of [for metadata_config in metadata_facets]. *)
Definition metadata_body (l : lfc_locals) (metadata_config : metadata_entry)
  : result lfc_locals :=
  match metadata_config with
  | MetaStr s =>
      let ty := "column" in
      let cfg : config := {["simple" := s]} in
      Ok (mkLocals (Some ty)
            (setdefault_append ty (mkSC "metadata" cfg) (loc_facet_configs l)))
  | MetaDict items =>
      if negb (length items =? 1)%nat then Raise AssertionError
      else
        item ← dict_items_getitem items 0;
        let ty := item.1 in
        let cfg : config :=
          match item.2 with
          | inl s => {["simple" := s]}
          | inr c => c
          end in
        Ok (mkLocals (Some ty)
              (setdefault_append ty (mkSC "metadata" cfg) (loc_facet_configs l)))
  end.

(** Body of [for value in values]. *)
Definition value_body (l : lfc_locals) (val : string) : result lfc_locals :=
  cfg ← (if startswith val "{" then json_loads val
         else Ok ({["simple" := val]} : config));
  ty ← read_type l;
  Ok (mkLocals (loc_type l)
        (setdefault_append ty (mkSC "request" cfg) (loc_facet_configs l))).

(** The assignment to [type] at the head of the body for one key. *)
Definition assign_type (l : lfc_locals) (key : string) : lfc_locals :=
  if decide (key = "_facet") then mkLocals (Some "column") (loc_facet_configs l)
  else if startswith key "_facet_" then
    mkLocals (Some (str_from (String.length "_facet_") key)) (loc_facet_configs l)
  else l.

(** Body of [for key, values in qs_pairs.items()]. *)
Definition key_body (l : lfc_locals) (kv : string * list string) : result lfc_locals :=
  let '(key, values) := kv in
  if startswith key "_facet" then
    for_each value_body (assign_type l key) values
  else Ok l.

Definition load_facet_configs (request : Request)
    (table_metadata : option (list metadata_entry))
  : result (gmap string (list source_and_config)) :=
  let metadata_facets := default [] table_metadata in
  l ← for_each metadata_body (mkLocals None ∅) metadata_facets;
  let qs_pairs := parse_qs (req_pairs request) in
  l ← for_each key_body l qs_pairs;
  Ok (loc_facet_configs l).

End LoadFacetConfigs.

(** ** The collaborators reached through [self.ds] *)

(** One foreign key as [get_all_foreign_keys] reports it. *)
Record foreign_key : Type := mkFK {
  fk_other_table : string;
  fk_column : string;
  fk_other_column : string
}.

Record table_foreign_keys : Type := mkTFK {
  tfk_incoming : list foreign_key;
  tfk_outgoing : list foreign_key
}.

(** The engine answers as a function of the call: within one request the same
    query has the same outcome.  Sizes and time limits are non-negative
    integer settings. *)
Record Datasette : Type := mkDatasette {
  (** [ds.execute(database, sql, params, custom_time_limit=...)]; raises
      [QueryInterrupted] when the time budget runs out, and the exception of
      the engine ([sqlite3.OperationalError] for an SQL error) otherwise. *)
  ds_execute : string → string → list value → option nat → result Results;
  (** [ds.config(name)] for the integer settings the module reads. *)
  ds_config : string → nat;
  ds_absolute_url : Request → string → string;
  (** [ds.expand_foreign_keys(database, table, column, values)]: a dict from
      [(column, value)] to the label. *)
  ds_expand_foreign_keys :
    string → string → string → list value → list ((string * value) * value);
  (** [ds.databases[database].get_all_foreign_keys()] *)
  ds_get_all_foreign_keys : string → gmap string table_foreign_keys
}.

(** [try: body except cls: handler], for one exception class. *)
Definition try_except {A : Type} (body : result A) (cls : exn) (handler : result A)
  : result A :=
  match body with
  | Ok a => Ok a
  | Raise e => if decide (e = cls) then handler else Raise e
  end.

(** [try: body except (cls1, cls2): handler] *)
Definition try_except2 {A : Type} (body : result A) (cls1 cls2 : exn) (handler : result A)
  : result A :=
  match body with
  | Ok a => Ok a
  | Raise e => if decide (e = cls1 ∨ e = cls2) then handler else Raise e
  end.

(** [d[k]] on a config. *)
Definition dict_getitem (d : config) (k : string) : result string :=
  match d !! k with
  | Some v => Ok v
  | None => Raise KeyError
  end.

(** [config.get("column") or config["simple"]] *)
Definition config_column (c : config) : result string :=
  match c !! "column" with
  | Some col => if negb (String.eqb col "") then Ok col else dict_getitem c "simple"
  | None => dict_getitem c "simple"
  end.

(** [expanded.get(key, default)] *)
Fixpoint dict_get {K V : Type} `{EqDecision K} (d : list (K * V)) (k : K) (dflt : V) : V :=
  match d with
  | [] => dflt
  | (k', v) :: d' => if decide (k' = k) then v else dict_get d' k dflt
  end.

(** [str(n)] for a non-negative integer. *)
Definition str_nat (n : nat) : string := NilZero.string_of_uint (Nat.to_uint n).

(** One suggested facet; [ColumnFacet] gives no "type". *)
Record suggestion : Type := mkSuggestion {
  sug_name : string;
  sug_type : option string;
  sug_toggle_url : string
}.

(** One entry of the "results" list of a facet. *)
Record facet_value : Type := mkFacetValue {
  fv_value : value;
  fv_label : value;
  fv_count : value;
  fv_toggle_url : string;
  fv_selected : bool
}.

Record facet_result : Type := mkFacetResult {
  fr_name : string;
  fr_type : string;
  fr_hideable : bool;
  fr_toggle_url : string;
  fr_results : list facet_value;
  fr_truncated : bool
}.

(** [self] of a [Facet]. *)
Record Facet : Type := mkFacet {
  f_ds : Datasette;
  f_request : Request;
  f_database : string;
  f_table : option string;
  f_sql : string;
  f_params : list value;
  f_metadata : option (list metadata_entry);
  f_row_count : option value
}.

(** Truthiness of an optional string: [None] and the empty string are false. *)
Definition str_truthy (o : option string) : bool :=
  match o with
  | Some s => negb (String.eqb s "")
  | None => false
  end.

Module FacetBase.
Section FacetBase.
Context `{Utils}.

(** [Facet.__init__] *)
Definition init (ds : Datasette) (request : Request) (database : string)
    (sql table : option string) (params : option (list value))
    (metadata : option (list metadata_entry)) (row_count : option value)
  : result Facet :=
  if negb (str_truthy table || str_truthy sql) then Raise AssertionError
  else
    Ok (mkFacet ds request database table
          (if str_truthy sql then default "" sql
           else "select * from [" +:+ default "" table +:+ "]")
          (default [] params) metadata row_count).

Definition get_configs (self : Facet) (type : string)
  : result (list source_and_config) :=
  configs ← load_facet_configs (f_request self) (f_metadata self);
  Ok (default [] (configs !! type)).

Definition get_querystring_pairs (self : Facet) : list (string * string) :=
  req_pairs (f_request self).

Definition get_columns (self : Facet) (sql : string) (params : list value)
  : result (list string) :=
  r ← ds_execute (f_ds self) (f_database self)
        ("select * from (" +:+ sql +:+ ") limit 0") params None;
  Ok (res_columns r).

(** The count is cached in [self.row_count]; the cache is not modelled. *)
Definition get_row_count (self : Facet) : result value :=
  match f_row_count self with
  | Some n => Ok n
  | None =>
      r ← ds_execute (f_ds self) (f_database self)
            ("select count(*) from (" +:+ f_sql self +:+ ")") (f_params self) None;
      match res_rows r with
      | [] => Raise IndexError
      | r0 :: _ => row_first r0
      end
  end.

(** [already_enabled = [c["config"]["simple"] for c in self.get_configs()]] *)
Definition already_enabled (self : Facet) (type : string) : result (list string) :=
  configs ← get_configs self type;
  mapM (fun c => dict_getitem (sc_config c) "simple") configs.

End FacetBase.
End FacetBase.

(** [n < v] for an integer [n] and a value read from a row. *)
Definition int_lt_value (n : nat) (v : value) : result bool :=
  match v with
  | VInt z => Ok (Z.of_nat n <? z)%Z
  | _ => Raise TypeError
  end.

Module ColumnFacet.
Section ColumnFacet.
Context `{Utils}.

Definition type : string := "column".

(** The SQL texts are kept up to layout: runs of blanks and newlines of the
    triple-quoted templates are written as one blank. *)
Definition suggested_facet_sql (column sql : string) (limit : nat) : string :=
  "select distinct " +:+ escape_sqlite column +:+ " from ( " +:+ sql
    +:+ " ) where " +:+ escape_sqlite column +:+ " is not null limit "
    +:+ str_nat limit.

Definition facet_sql (column sql : string) (limit : nat) : string :=
  "select " +:+ escape_sqlite column +:+ " as value, count(*) as count from ( "
    +:+ sql +:+ " ) where " +:+ escape_sqlite column
    +:+ " is not null group by " +:+ escape_sqlite column
    +:+ " order by count desc limit " +:+ str_nat limit.

(** The test that guards [suggested_facets.append]; [and] short-circuits. *)
Definition suggest_test (num_distinct_values facet_size : nat) (row_count : value)
  : result bool :=
  if negb (num_distinct_values =? 0)
     && (1 <? num_distinct_values)
     && (num_distinct_values <=? facet_size)
  then int_lt_value num_distinct_values row_count
  else Ok false.

(** Body of [for column in columns] in [suggest]. *)
Definition suggest_body (self : Facet) (row_count : value) (facet_size : nat)
    (enabled : list string) (suggested_facets : list suggestion) (column : string)
  : result (list suggestion) :=
  if bool_decide (column ∈ enabled) then Ok suggested_facets
  else
    try_except
      (distinct_values ←
         ds_execute (f_ds self) (f_database self)
           (suggested_facet_sql column (f_sql self) (facet_size + 1))
           (f_params self)
           (Some (ds_config (f_ds self) "facet_suggest_time_limit_ms"));
       let num_distinct_values := len_results distinct_values in
       ok ← suggest_test num_distinct_values facet_size row_count;
       if ok : bool then
         Ok (suggested_facets ++
               [mkSuggestion column None
                  (ds_absolute_url (f_ds self) (f_request self)
                     (path_with_added_args (f_request self)
                        [("_facet", VText column)]))])
       else Ok suggested_facets)
      QueryInterrupted
      (Ok suggested_facets).

Definition suggest (self : Facet) : result (list suggestion) :=
  row_count ← FacetBase.get_row_count self;
  columns ← FacetBase.get_columns self (f_sql self) (f_params self);
  let facet_size := ds_config (f_ds self) "default_facet_size" in
  enabled ← FacetBase.already_enabled self type;
  for_each (suggest_body self row_count facet_size enabled) [] columns.

(** Body of [for row in facet_rows] in [facet_results]. *)
Definition row_entry (self : Facet) (qs_pairs : list (string * string))
    (expanded : list ((string * value) * value)) (column : string) (r : row)
  : result facet_value :=
  v ← row_get r "value";
  let selected := bool_decide ((column, str v) ∈ qs_pairs) in
  let toggle_path :=
    if selected then path_with_removed_args (f_request self) [(column, str v)]
    else path_with_added_args (f_request self) [(column, v)] in
  c ← row_get r "count";
  Ok (mkFacetValue v (dict_get expanded (column, v) v) c
        (ds_absolute_url (f_ds self) (f_request self) toggle_path) selected).

(** What follows [ds.execute] inside the [try] of [facet_results].  The
    dict entry shares its "results" list with the loop that fills it; as
    nothing below raises an exception that the [except] clause catches,
    the entry is written here with the list complete. *)
Definition shape_result (self : Facet) (qs_pairs : list (string * string))
    (facet_size : nat) (source column : string) (facet_rows_results : Results)
  : result facet_result :=
  let truncated := bool_decide (facet_size < len_results facet_rows_results) in
  let facet_rows := take facet_size (res_rows facet_rows_results) in
  expanded ←
    (if str_truthy (f_table self) then
       values ← mapM (fun r => row_get r "value") facet_rows;
       Ok (ds_expand_foreign_keys (f_ds self) (f_database self)
             (default "" (f_table self)) column values)
     else Ok []);
  facet_results_values ← mapM (row_entry self qs_pairs expanded column) facet_rows;
  Ok (mkFacetResult column type
        (negb (String.eqb source "metadata"))
        (path_with_removed_args (f_request self) [("_facet", column)])
        facet_results_values truncated).

(** Body of [for source_and_config in self.get_configs()]; the state is
    [(facet_results, facets_timed_out)]. *)
Definition facet_results_body (self : Facet) (qs_pairs : list (string * string))
    (facet_size : nat) (st : gmap string facet_result * list string)
    (sc : source_and_config)
  : result (gmap string facet_result * list string) :=
  let '(facet_results, facets_timed_out) := st in
  let config := sc_config sc in
  let source := sc_source sc in
  column ← config_column config;
  try_except
    (facet_rows_results ←
       ds_execute (f_ds self) (f_database self)
         (facet_sql column (f_sql self) (facet_size + 1))
         (f_params self)
         (Some (ds_config (f_ds self) "facet_time_limit_ms"));
     fr ← shape_result self qs_pairs facet_size source column facet_rows_results;
     Ok (<[column := fr]> facet_results, facets_timed_out))
    QueryInterrupted
    (Ok (facet_results, facets_timed_out ++ [column])).

Definition facet_results (self : Facet)
  : result (gmap string facet_result * list string) :=
  let qs_pairs := FacetBase.get_querystring_pairs self in
  let facet_size := ds_config (f_ds self) "default_facet_size" in
  configs ← FacetBase.get_configs self type;
  for_each (facet_results_body self qs_pairs facet_size) (∅, []) configs.

End ColumnFacet.
End ColumnFacet.

(** ** JSON text of a dict of strings

    [json.dumps(d, separators=(",", ":"), sort_keys=True)] for a dict [d]
    whose keys and values are strings, with the default [ensure_ascii=True].
    A character of a [string] stands for the code point of its number, so
    the strings covered are those over U+0000..U+00FF. *)
Module Json.

Definition quote : ascii := "034"%char.
Definition backslash : ascii := "092"%char.

(** One digit of [format(n, "04x")]. *)
Definition hex_digit (d : N) : ascii :=
  ascii_of_N (if (d <? 10)%N then 48 + d else 87 + d).

(** ["{0:04x}".format(n)] for [n < 0x10000]. *)
Definition hex4 (n : N) : string :=
  String (hex_digit ((n / 4096) mod 16))
    (String (hex_digit ((n / 256) mod 16))
       (String (hex_digit ((n / 16) mod 16))
          (String (hex_digit (n mod 16)) EmptyString))).

(** [replace] of [encode_basestring_ascii]: the table [ESCAPE_DCT], then
    [\uXXXX] for what is outside [' '..'~']. *)
Definition replace (c : ascii) : string :=
  if Ascii.eqb c backslash then String backslash (String backslash EmptyString)
  else if Ascii.eqb c quote then String backslash (String quote EmptyString)
  else if Ascii.eqb c "008"%char then String backslash "b"
  else if Ascii.eqb c "012"%char then String backslash "f"
  else if Ascii.eqb c "010"%char then String backslash "n"
  else if Ascii.eqb c "013"%char then String backslash "r"
  else if Ascii.eqb c "009"%char then String backslash "t"
  else
    let n := N_of_ascii c in
    if ((32 <=? n) && (n <=? 126))%N then String c EmptyString
    else String backslash (String "u" (hex4 n)).

Fixpoint escape (s : string) : string :=
  match s with
  | EmptyString => EmptyString
  | String c s' => replace c +:+ escape s'
  end.

Definition encode_basestring_ascii (s : string) : string :=
  String quote (escape s +:+ String quote EmptyString).

(** [sorted(d.items())]: insertion by key, keys compared by code point. *)
Fixpoint insert_item (kv : string * string) (l : list (string * string))
  : list (string * string) :=
  match l with
  | [] => [kv]
  | kv' :: l' =>
      if String.ltb kv.1 kv'.1 then kv :: l else kv' :: insert_item kv l'
  end.

Definition sort_items (items : list (string * string)) : list (string * string) :=
  foldr insert_item [] items.

Definition dumps_item (kv : string * string) : string :=
  encode_basestring_ascii kv.1 +:+ ":" +:+ encode_basestring_ascii kv.2.

Definition dumps (d : list (string * string)) : string :=
  "{" +:+ String.concat "," (dumps_item <$> sort_items d) +:+ "}".

(** *** Reading the text back *)

Definition hex_val (c : ascii) : option N :=
  let n := N_of_ascii c in
  if ((48 <=? n) && (n <=? 57))%N then Some (n - 48)%N
  else if ((97 <=? n) && (n <=? 102))%N then Some (n - 87)%N
  else if ((65 <=? n) && (n <=? 70))%N then Some (n - 55)%N
  else None.

Definition unhex4 (a b c d : ascii) : option N :=
  x3 ← hex_val a; x2 ← hex_val b; x1 ← hex_val c; x0 ← hex_val d;
  Some (x3 * 4096 + x2 * 256 + x1 * 16 + x0)%N.

(** The character named by the letter after a backslash. *)
Definition unescape (e : ascii) : option ascii :=
  if Ascii.eqb e quote then Some quote
  else if Ascii.eqb e backslash then Some backslash
  else if Ascii.eqb e "/"%char then Some "/"%char
  else if Ascii.eqb e "b"%char then Some "008"%char
  else if Ascii.eqb e "f"%char then Some "012"%char
  else if Ascii.eqb e "n"%char then Some "010"%char
  else if Ascii.eqb e "r"%char then Some "013"%char
  else if Ascii.eqb e "t"%char then Some "009"%char
  else None.

Definition cons_char (c : ascii) (r : option (string * string))
  : option (string * string) :=
  match r with
  | Some (t, rest) => Some (String c t, rest)
  | None => None
  end.

(** Modelled from the spec: the reader of the [_through] token is not part
    of [facets.py]; it is [json.loads] on the token.  [scan_string] reads a
    JSON string after its opening quote and returns the string and the
    text after the closing quote; code points above U+00FF are outside the
    strings covered here. *)
Fixpoint scan_string (s : string) : option (string * string) :=
  match s with
  | EmptyString => None
  | String c s' =>
      if Ascii.eqb c quote then Some (EmptyString, s')
      else if Ascii.eqb c backslash then
        match s' with
        | EmptyString => None
        | String e s'' =>
            if Ascii.eqb e "u"%char then
              match s'' with
              | String h3 (String h2 (String h1 (String h0 r))) =>
                  match unhex4 h3 h2 h1 h0 with
                  | Some n =>
                      if (n <? 256)%N then cons_char (ascii_of_N n) (scan_string r)
                      else None
                  | None => None
                  end
              | _ => None
              end
            else
              match unescape e with
              | Some ch => cons_char ch (scan_string s'')
              | None => None
              end
        end
      else if (N_of_ascii c <? 32)%N then None
      else cons_char c (scan_string s')
  end.

Definition is_ws (c : ascii) : bool :=
  Ascii.eqb c " "%char || Ascii.eqb c "009"%char
  || Ascii.eqb c "010"%char || Ascii.eqb c "013"%char.

Fixpoint skip_ws (s : string) : string :=
  match s with
  | EmptyString => EmptyString
  | String c s' => if is_ws c then skip_ws s' else s
  end.

Definition parse_str (s : string) : option (string * string) :=
  match s with
  | String c s' => if Ascii.eqb c quote then scan_string s' else None
  | EmptyString => None
  end.

(** One [key:value] member; returns the pair and the text after it. *)
Definition parse_member (s : string) : option ((string * string) * string) :=
  '(k, s1) ← parse_str (skip_ws s);
  match skip_ws s1 with
  | String c s2 =>
      if Ascii.eqb c ":"%char then
        '(v, s3) ← parse_str (skip_ws s2);
        Some ((k, v), skip_ws s3)
      else None
  | EmptyString => None
  end.

Fixpoint parse_members (fuel : nat) (s : string) (acc : list (string * string))
  : option (list (string * string) * string) :=
  match fuel with
  | O => None
  | S fuel' =>
      '(kv, s1) ← parse_member s;
      match s1 with
      | String c s2 =>
          if Ascii.eqb c ","%char then parse_members fuel' s2 (acc ++ [kv])
          else if Ascii.eqb c "}"%char then Some (acc ++ [kv], s2)
          else None
      | EmptyString => None
      end
  end.

(** Modelled from the spec: [json.loads] on the text of an object whose
    members are strings; the members come back in order of appearance. *)
Definition loads (s : string) : option (list (string * string)) :=
  match skip_ws s with
  | String c s1 =>
      if Ascii.eqb c "{"%char then
        match skip_ws s1 with
        | String c' s2 =>
            if Ascii.eqb c' "}"%char then
              match skip_ws s2 with
              | EmptyString => Some []
              | _ => None
              end
            else
              '(items, rest) ← parse_members (String.length s) (String c' s2) [];
              match skip_ws rest with
              | EmptyString => Some items
              | _ => None
              end
        | EmptyString => None
        end
      else None
  | EmptyString => None
  end.

(** [d[k]] on the dict built from the members: the last member named [k]. *)
Fixpoint getitem (items : list (string * string)) (k : string) : option string :=
  match items with
  | [] => None
  | (k', v) :: items' =>
      match getitem items' k with
      | Some v' => Some v'
      | None => if decide (k' = k) then Some v else None
      end
  end.

End Json.

Module ArrayFacet.
Section ArrayFacet.
Context `{Utils}.

Definition type : string := "array".

Definition suggested_facet_sql (column sql : string) : string :=
  "select distinct json_type(" +:+ escape_sqlite column +:+ ") from (" +:+ sql +:+ ")".

Definition facet_sql (column sql : string) (limit : nat) : string :=
  "select j.value as value, count(*) as count from ( " +:+ sql
    +:+ " ) join json_each(" +:+ escape_sqlite column
    +:+ ") j group by j.value order by count desc limit " +:+ str_nat limit.

(** [types in (("array",), ("array", None))] *)
Definition types_test (types : list value) : bool :=
  bool_decide (types = [VText "array"] ∨ types = [VText "array"; VNull]).

(** Body of [for column in columns] in [suggest]. *)
Definition suggest_body (self : Facet) (enabled : list string)
    (suggested_facets : list suggestion) (column : string)
  : result (list suggestion) :=
  if bool_decide (column ∈ enabled) then Ok suggested_facets
  else
    try_except2
      (results ←
         ds_execute (f_ds self) (f_database self)
           (suggested_facet_sql column (f_sql self))
           (f_params self)
           (Some (ds_config (f_ds self) "facet_suggest_time_limit_ms"));
       types ← mapM row_first (res_rows results);
       if types_test types then
         Ok (suggested_facets ++
               [mkSuggestion column (Some "array")
                  (ds_absolute_url (f_ds self) (f_request self)
                     (path_with_added_args (f_request self)
                        [("_facet_array", VText column)]))])
       else Ok suggested_facets)
      QueryInterrupted OperationalError
      (Ok suggested_facets).

Definition suggest (self : Facet) : result (list suggestion) :=
  columns ← FacetBase.get_columns self (f_sql self) (f_params self);
  enabled ← FacetBase.already_enabled self type;
  for_each (suggest_body self enabled) [] columns.

Definition arraycontains (column : string) : string := column +:+ "__arraycontains".

Definition row_entry (self : Facet) (pairs : list (string * string))
    (column : string) (r : row) : result facet_value :=
  v ← row_get r "value";
  let val := str v in
  let selected := bool_decide ((arraycontains column, val) ∈ pairs) in
  let toggle_path :=
    if selected then
      path_with_removed_args (f_request self) [(arraycontains column, val)]
    else
      path_with_added_args (f_request self) [(arraycontains column, VText val)] in
  c ← row_get r "count";
  Ok (mkFacetValue (VText val) (VText val) c
        (ds_absolute_url (f_ds self) (f_request self) toggle_path) selected).

Definition shape_result (self : Facet) (facet_size : nat) (source column : string)
    (facet_rows_results : Results) : result facet_result :=
  let truncated := bool_decide (facet_size < len_results facet_rows_results) in
  let facet_rows := take facet_size (res_rows facet_rows_results) in
  let pairs := FacetBase.get_querystring_pairs self in
  facet_results_values ← mapM (row_entry self pairs column) facet_rows;
  Ok (mkFacetResult column type
        (negb (String.eqb source "metadata"))
        (path_with_removed_args (f_request self) [("_facet_array", column)])
        facet_results_values truncated).

Definition facet_results_body (self : Facet) (facet_size : nat)
    (st : gmap string facet_result * list string) (sc : source_and_config)
  : result (gmap string facet_result * list string) :=
  let '(facet_results, facets_timed_out) := st in
  let config := sc_config sc in
  let source := sc_source sc in
  column ← config_column config;
  try_except
    (facet_rows_results ←
       ds_execute (f_ds self) (f_database self)
         (facet_sql column (f_sql self) (facet_size + 1))
         (f_params self)
         (Some (ds_config (f_ds self) "facet_time_limit_ms"));
     fr ← shape_result self facet_size source column facet_rows_results;
     Ok (<[column := fr]> facet_results, facets_timed_out))
    QueryInterrupted
    (Ok (facet_results, facets_timed_out ++ [column])).

Definition facet_results (self : Facet)
  : result (gmap string facet_result * list string) :=
  let facet_size := ds_config (f_ds self) "default_facet_size" in
  configs ← FacetBase.get_configs self type;
  for_each (facet_results_body self facet_size) (∅, []) configs.

End ArrayFacet.
End ArrayFacet.

Module DateFacet.
Section DateFacet.
Context `{Utils}.

Definition type : string := "date".

Definition suggested_facet_sql (column sql : string) : string :=
  "select date(" +:+ escape_sqlite column +:+ ") from ( " +:+ sql +:+ " ) where "
    +:+ escape_sqlite column +:+ " glob "
    +:+ String Json.quote ("????-??-*" +:+ String Json.quote " limit 100;").

Definition facet_sql (column sql : string) (limit : nat) : string :=
  "select date(" +:+ escape_sqlite column +:+ ") as value, count(*) as count from ( "
    +:+ sql +:+ " ) where date(" +:+ escape_sqlite column
    +:+ ") is not null group by date(" +:+ escape_sqlite column
    +:+ ") order by count desc limit " +:+ str_nat limit.

(** Body of [for column in columns] in [suggest]. *)
Definition suggest_body (self : Facet) (enabled : list string)
    (suggested_facets : list suggestion) (column : string)
  : result (list suggestion) :=
  if bool_decide (column ∈ enabled) then Ok suggested_facets
  else
    try_except2
      (results ←
         ds_execute (f_ds self) (f_database self)
           (suggested_facet_sql column (f_sql self))
           (f_params self)
           (Some (ds_config (f_ds self) "facet_suggest_time_limit_ms"));
       values ← mapM row_first (res_rows results);
       if existsb truthy values then
         Ok (suggested_facets ++
               [mkSuggestion column (Some "date")
                  (ds_absolute_url (f_ds self) (f_request self)
                     (path_with_added_args (f_request self)
                        [("_facet_date", VText column)]))])
       else Ok suggested_facets)
      QueryInterrupted OperationalError
      (Ok suggested_facets).

Definition suggest (self : Facet) : result (list suggestion) :=
  columns ← FacetBase.get_columns self (f_sql self) (f_params self);
  enabled ← FacetBase.already_enabled self type;
  for_each (suggest_body self enabled) [] columns.

Definition date_key (column : string) : string := column +:+ "__date".

(** [str(args.get(key))] for [args = dict(pairs)]: the last pair of a key
    wins, and a missing key gives [str(None)]. *)
Fixpoint str_args_get (pairs : list (string * string)) (key : string) : string :=
  match pairs with
  | [] => "None"
  | (k, v) :: pairs' =>
      if bool_decide (key ∈ pairs'.*1) then str_args_get pairs' key
      else if decide (k = key) then v
      else "None"
  end.

Definition row_entry (self : Facet) (pairs : list (string * string))
    (column : string) (r : row) : result facet_value :=
  v ← row_get r "value";
  let selected := String.eqb (str_args_get pairs (date_key column)) (str v) in
  let toggle_path :=
    if selected then path_with_removed_args (f_request self) [(date_key column, str v)]
    else path_with_added_args (f_request self) [(date_key column, v)] in
  c ← row_get r "count";
  Ok (mkFacetValue v v c
        (ds_absolute_url (f_ds self) (f_request self) toggle_path) selected).

Definition shape_result (self : Facet) (pairs : list (string * string))
    (facet_size : nat) (source column : string) (facet_rows_results : Results)
  : result facet_result :=
  let truncated := bool_decide (facet_size < len_results facet_rows_results) in
  let facet_rows := take facet_size (res_rows facet_rows_results) in
  facet_results_values ← mapM (row_entry self pairs column) facet_rows;
  Ok (mkFacetResult column type
        (negb (String.eqb source "metadata"))
        (path_with_removed_args (f_request self) [("_facet_date", column)])
        facet_results_values truncated).

Definition facet_results_body (self : Facet) (pairs : list (string * string))
    (facet_size : nat) (st : gmap string facet_result * list string)
    (sc : source_and_config)
  : result (gmap string facet_result * list string) :=
  let '(facet_results, facets_timed_out) := st in
  let config := sc_config sc in
  let source := sc_source sc in
  column ← config_column config;
  try_except
    (facet_rows_results ←
       ds_execute (f_ds self) (f_database self)
         (facet_sql column (f_sql self) (facet_size + 1))
         (f_params self)
         (Some (ds_config (f_ds self) "facet_time_limit_ms"));
     fr ← shape_result self pairs facet_size source column facet_rows_results;
     Ok (<[column := fr]> facet_results, facets_timed_out))
    QueryInterrupted
    (Ok (facet_results, facets_timed_out ++ [column])).

Definition facet_results (self : Facet)
  : result (gmap string facet_result * list string) :=
  let args := FacetBase.get_querystring_pairs self in
  let facet_size := ds_config (f_ds self) "default_facet_size" in
  configs ← FacetBase.get_configs self type;
  for_each (facet_results_body self args facet_size) (∅, []) configs.

End DateFacet.
End DateFacet.

(** A loop body either goes on with the next iteration or returns from the
    enclosing function. *)
Inductive flow (S R : Type) : Type :=
| Next (s : S)
| Return (r : R).
Arguments Next {S R} s.
Arguments Return {S R} r.

Fixpoint for_each_flow {S A R : Type} (body : S → A → result (flow S R))
    (s : S) (xs : list A) : result (flow S R) :=
  match xs with
  | [] => Ok (Next s)
  | x :: xs' =>
      fl ← body s x;
      match fl with
      | Next s' => for_each_flow body s' xs'
      | Return r => Ok (Return r)
      end
  end.

(** [l[0]] *)
Definition list_first {A : Type} (l : list A) : result A :=
  match l with
  | [] => Raise IndexError
  | x :: _ => Ok x
  end.

Module ManyToManyFacet.
Section ManyToManyFacet.
Context `{Utils}.

Definition type : string := "m2m".

(** [all_foreign_keys.get(self.table)] *)
Definition fk_get (all_foreign_keys : gmap string table_foreign_keys)
    (table : option string) : option table_foreign_keys :=
  t ← table; all_foreign_keys !! t.

(** [all_foreign_keys[other_table]["outgoing"]] *)
Definition outgoing_of (all_foreign_keys : gmap string table_foreign_keys)
    (other_table : string) : result (list foreign_key) :=
  match all_foreign_keys !! other_table with
  | Some e => Ok (tfk_outgoing e)
  | None => Raise KeyError
  end.

(** Body of [for fk in incoming] in [suggest]. *)
Definition suggest_body (self : Facet)
    (all_foreign_keys : gmap string table_foreign_keys)
    (args : list (string * string))
    (suggested_facets : list suggestion) (fk : foreign_key)
  : result (list suggestion) :=
  let other_table := fk_other_table fk in
  other_table_outgoing_foreign_keys ← outgoing_of all_foreign_keys other_table;
  if (length other_table_outgoing_foreign_keys =? 2)%nat then
    t ← list_first
           (filter (fun t => Some (fk_other_table t) ≠ f_table self)
              other_table_outgoing_foreign_keys);
    let destination_table := fk_other_table t in
    if bool_decide (("_facet_m2m", destination_table) ∈ args) then Ok suggested_facets
    else
      Ok (suggested_facets ++
            [mkSuggestion destination_table (Some "m2m")
               (ds_absolute_url (f_ds self) (f_request self)
                  (path_with_added_args (f_request self)
                     [("_facet_m2m", VText destination_table)]))])
  else Ok suggested_facets.

Definition suggest (self : Facet) : result (list suggestion) :=
  let all_foreign_keys := ds_get_all_foreign_keys (f_ds self) (f_database self) in
  match fk_get all_foreign_keys (f_table self) with
  | None => Ok []
  | Some entry =>
      let args := FacetBase.get_querystring_pairs self in
      let incoming := tfk_incoming entry in
      for_each (suggest_body self all_foreign_keys args) [] incoming
  end.

(** The [for fk in incoming] of [facet_results], left by [break]:
    [(fks, middle_table)], or [None] when the loop runs to its end. *)
Fixpoint find_middle (all_foreign_keys : gmap string table_foreign_keys)
    (destination_table : string) (incoming : list foreign_key)
  : result (option (list foreign_key * string)) :=
  match incoming with
  | [] => Ok None
  | fk :: incoming' =>
      let other_table := fk_other_table fk in
      other_table_outgoing_foreign_keys ← outgoing_of all_foreign_keys other_table;
      if existsb (fun o => bool_decide (fk_other_table o = destination_table))
           other_table_outgoing_foreign_keys
         && (length other_table_outgoing_foreign_keys =? 2)%nat
      then Ok (Some (other_table_outgoing_foreign_keys, other_table))
      else find_middle all_foreign_keys destination_table incoming'
  end.

(** [column_to_table], [table_pk], [column_to_destination] *)
Record junction_columns : Type := mkJC {
  column_to_table : option string;
  table_pk : option string;
  column_to_destination : option string
}.

(** Body of [for fk in fks]. *)
Definition columns_body (self : Facet) (destination_table : string)
    (jc : junction_columns) (fk : foreign_key) : junction_columns :=
  if bool_decide (Some (fk_other_table fk) = f_table self) then
    mkJC (Some (fk_column fk)) (Some (fk_other_column fk)) (column_to_destination jc)
  else if bool_decide (fk_other_table fk = destination_table) then
    mkJC (column_to_table jc) (table_pk jc) (Some (fk_column fk))
  else jc.

Definition facet_sql (middle_table column_to_destination column_to_table table_pk
    sql : string) (limit : nat) : string :=
  "select " +:+ escape_sqlite middle_table +:+ "." +:+ escape_sqlite column_to_destination
    +:+ " as value, count(distinct " +:+ escape_sqlite middle_table +:+ "."
    +:+ escape_sqlite column_to_table +:+ ") as count from "
    +:+ escape_sqlite middle_table +:+ " where " +:+ escape_sqlite middle_table
    +:+ "." +:+ escape_sqlite column_to_table +:+ " in ( select "
    +:+ escape_sqlite table_pk +:+ " from (" +:+ sql +:+ ") ) group by "
    +:+ escape_sqlite middle_table +:+ "." +:+ escape_sqlite column_to_destination
    +:+ " order by count desc limit " +:+ str_nat limit.

(** The [_through] token of one value. *)
Definition through (middle_table column_to_destination val : string) : string :=
  Json.dumps [("table", middle_table);
              ("column", column_to_destination);
              ("value", val)].

Definition row_entry (self : Facet) (args : list (string * string))
    (expanded : list ((string * value) * value))
    (middle_table column_to_destination : string) (r : row) : result facet_value :=
  v ← row_get r "value";
  let tok := through middle_table column_to_destination (str v) in
  let selected := bool_decide (("_through", tok) ∈ args) in
  let toggle_path :=
    if selected then path_with_removed_args (f_request self) [("_through", tok)]
    else path_with_added_args (f_request self) [("_through", VText tok)] in
  c ← row_get r "count";
  Ok (mkFacetValue v (dict_get expanded (column_to_destination, v) v) c
        (ds_absolute_url (f_ds self) (f_request self) toggle_path) selected).

Definition shape_result (self : Facet) (args : list (string * string))
    (facet_size : nat) (source destination_table middle_table
    column_to_destination : string) (facet_rows_results : Results)
  : result facet_result :=
  let truncated := bool_decide (facet_size < len_results facet_rows_results) in
  let facet_rows := take facet_size (res_rows facet_rows_results) in
  values ← mapM (fun r => row_get r "value") facet_rows;
  let expanded :=
    ds_expand_foreign_keys (f_ds self) (f_database self)
      middle_table column_to_destination values in
  facet_results_values ←
    mapM (row_entry self args expanded middle_table column_to_destination) facet_rows;
  Ok (mkFacetResult destination_table type
        (negb (String.eqb source "metadata"))
        (path_with_removed_args (f_request self) [("_facet_m2m", destination_table)])
        facet_results_values truncated).

(** Body of [for source_and_config in self.get_configs()]. *)
Definition facet_results_body (self : Facet)
    (all_foreign_keys : gmap string table_foreign_keys)
    (incoming : list foreign_key) (args : list (string * string)) (facet_size : nat)
    (st : gmap string facet_result * list string) (sc : source_and_config)
  : result (flow (gmap string facet_result * list string)
                 (gmap string facet_result * list string)) :=
  let '(facet_results, facets_timed_out) := st in
  let config := sc_config sc in
  let source := sc_source sc in
  destination_table ← config_column config;
  found ← find_middle all_foreign_keys destination_table incoming;
  match found with
  | None => Ok (Return (∅, []))
  | Some (fks, middle_table) =>
      let jc := foldl (columns_body self destination_table) (mkJC None None None) fks in
      if negb (str_truthy (column_to_table jc) && str_truthy (table_pk jc)
               && str_truthy (column_to_destination jc))
      then Raise AssertionError
      else
        let c_to_table := default "" (column_to_table jc) in
        let pk := default "" (table_pk jc) in
        let c_to_dest := default "" (column_to_destination jc) in
        st' ←
          try_except
            (facet_rows_results ←
               ds_execute (f_ds self) (f_database self)
                 (facet_sql middle_table c_to_dest c_to_table pk (f_sql self)
                    (facet_size + 1))
                 (f_params self)
                 (Some (ds_config (f_ds self) "facet_time_limit_ms"));
             fr ← shape_result self args facet_size source destination_table
                    middle_table c_to_dest facet_rows_results;
             Ok (<[destination_table := fr]> facet_results, facets_timed_out))
            QueryInterrupted
            (Ok (facet_results, facets_timed_out ++ [destination_table]));
        Ok (Next st')
  end.

Definition facet_results (self : Facet)
  : result (gmap string facet_result * list string) :=
  let args := FacetBase.get_querystring_pairs self in
  let facet_size := ds_config (f_ds self) "default_facet_size" in
  let all_foreign_keys := ds_get_all_foreign_keys (f_ds self) (f_database self) in
  match fk_get all_foreign_keys (f_table self) with
  | None => Ok (∅, [])
  | Some entry =>
      let incoming := tfk_incoming entry in
      configs ← FacetBase.get_configs self type;
      fl ← for_each_flow
             (facet_results_body self all_foreign_keys incoming args facet_size)
             (∅, []) configs;
      match fl with
      | Next st => Ok st
      | Return r => Ok r
      end
  end.

End ManyToManyFacet.
End ManyToManyFacet.


(** ** The reader of the [_through] token *)
Module Through.

(** Modelled from the spec: the function that reads a [_through] token back
    is not part of [facets.py]; it parses the token with [json.loads] and
    takes the members "table", "column" and "value". *)
Definition parse_through (token : string) : option (string * string * string) :=
  items ← Json.loads token;
  table ← Json.getitem items "table";
  column ← Json.getitem items "column";
  val ← Json.getitem items "value";
  Some (table, column, val).

(** A JSON string [s] written out, followed by [rest]. *)
Definition qstr (s rest : string) : string :=
  String Json.quote (Json.escape s +:+ String Json.quote rest).

End Through.

(** * Vocabulary of the statements *)

(** ** The loop shared by the [facet_results] of the column facets

    [ColumnFacet], [ArrayFacet] and [DateFacet] run the same loop over their
    configs; [exec] is the query of a column and [shape] what follows it
    inside the [try]. *)
Section FacetLoopBody.
Variable exec : string → result Results.
Variable shape : string → string → Results → result facet_result.

(** One iteration: run the query of the facet, shape its rows, and record a
    timeout. *)
Definition loop_body (st : gmap string facet_result * list string)
    (sc : source_and_config) : result (gmap string facet_result * list string) :=
  let '(facet_results, facets_timed_out) := st in
  column ← config_column (sc_config sc);
  try_except
    (facet_rows_results ← exec column;
     fr ← shape (sc_source sc) column facet_rows_results;
     Ok (<[column := fr]> facet_results, facets_timed_out))
    QueryInterrupted
    (Ok (facet_results, facets_timed_out ++ [column])).

(** Every entry of the mapping is the shaped answer of its query. *)
Definition shaped (res : gmap string facet_result) : Prop :=
  ∀ column fr, res !! column = Some fr →
    ∃ source r, exec column = Ok r ∧ shape source column r = Ok fr.

End FacetLoopBody.

(** The facet classes whose [facet_results] run one query per column. *)
Inductive facet_class : Type := Column | Array | Date.

Section Vocabulary.
Context `{Utils}.

Definition facet_size (self : Facet) : nat :=
  ds_config (f_ds self) "default_facet_size".

(** *** Suggestions *)

(** The probe of [ColumnFacet.suggest] for one column. *)
Definition column_probe (self : Facet) (column : string) : result Results :=
  ds_execute (f_ds self) (f_database self)
    (ColumnFacet.suggested_facet_sql column (f_sql self)
       (ds_config (f_ds self) "default_facet_size" + 1))
    (f_params self)
    (Some (ds_config (f_ds self) "facet_suggest_time_limit_ms")).


Definition column_suggestion (self : Facet) (column : string) : suggestion :=
  mkSuggestion column None
    (ds_absolute_url (f_ds self) (f_request self)
       (path_with_added_args (f_request self) [("_facet", VText column)])).

(** The probe of [ArrayFacet.suggest] for one column. *)
Definition array_probe (self : Facet) (column : string) : result Results :=
  ds_execute (f_ds self) (f_database self)
    (ArrayFacet.suggested_facet_sql column (f_sql self))
    (f_params self)
    (Some (ds_config (f_ds self) "facet_suggest_time_limit_ms")).

(** The probe of [DateFacet.suggest] for one column. *)
Definition date_probe (self : Facet) (column : string) : result Results :=
  ds_execute (f_ds self) (f_database self)
    (DateFacet.suggested_facet_sql column (f_sql self))
    (f_params self)
    (Some (ds_config (f_ds self) "facet_suggest_time_limit_ms")).

(** An SQL failure of a probe: a timeout or an error of the engine. *)
Definition probe_failed (p : result Results) : Prop :=
  p = Raise QueryInterrupted ∨ p = Raise OperationalError.

Definition array_suggestion (self : Facet) (column : string) : suggestion :=
  mkSuggestion column (Some "array")
    (ds_absolute_url (f_ds self) (f_request self)
       (path_with_added_args (f_request self) [("_facet_array", VText column)])).

(** The kinds that the probe of [ArrayFacet.suggest] lists, in the order of
    its rows. *)
Definition observed_kinds (r : Results) : result (list value) :=
  mapM row_first (res_rows r).

Definition m2m_suggestion (self : Facet) (destination_table : string) : suggestion :=
  mkSuggestion destination_table (Some "m2m")
    (ds_absolute_url (f_ds self) (f_request self)
       (path_with_added_args (f_request self)
          [("_facet_m2m", VText destination_table)])).

(** The edges of [out] that do not target the base table. *)
Definition other_edges (base : option string) (out : list foreign_key)
  : list foreign_key :=
  filter (fun t => Some (fk_other_table t) ≠ base) out.

(** [out] has exactly two edges, one towards the base table and the other
    towards [dest]. *)
Definition junction_towards (base : option string) (out : list foreign_key)
    (dest : string) : Prop :=
  ∃ a b, (out = [a; b] ∨ out = [b; a])
         ∧ Some (fk_other_table a) = base ∧ fk_other_table b = dest.

(** *** Results *)

Definition class_type (c : facet_class) : string :=
  match c with
  | Column => ColumnFacet.type
  | Array => ArrayFacet.type
  | Date => DateFacet.type
  end.

Definition class_facet_results (c : facet_class) (self : Facet)
  : result (gmap string facet_result * list string) :=
  match c with
  | Column => ColumnFacet.facet_results self
  | Array => ArrayFacet.facet_results self
  | Date => DateFacet.facet_results self
  end.

(** The query that [facet_results] runs for one column. *)
Definition class_query (c : facet_class) (self : Facet) (column : string)
  : result Results :=
  ds_execute (f_ds self) (f_database self)
    (match c with
     | Column => ColumnFacet.facet_sql column (f_sql self) (facet_size self + 1)
     | Array => ArrayFacet.facet_sql column (f_sql self) (facet_size self + 1)
     | Date => DateFacet.facet_sql column (f_sql self) (facet_size self + 1)
     end)
    (f_params self)
    (Some (ds_config (f_ds self) "facet_time_limit_ms")).

(** What follows the query inside the [try] of [facet_results]. *)
Definition class_shape (c : facet_class) (self : Facet)
  : string → string → Results → result facet_result :=
  match c with
  | Column =>
      ColumnFacet.shape_result self (FacetBase.get_querystring_pairs self)
        (facet_size self)
  | Array => ArrayFacet.shape_result self (facet_size self)
  | Date =>
      DateFacet.shape_result self (FacetBase.get_querystring_pairs self)
        (facet_size self)
  end.

(** The "value" of an entry, from the value of its row. *)
Definition class_value (c : facet_class) (v : value) : value :=
  match c with
  | Array => VText (str v)
  | _ => v
  end.

(** The query of [ManyToManyFacet.facet_results] for one junction. *)
Definition m2m_query (self : Facet) (middle_table c_to_dest c_to_table pk : string)
  : result Results :=
  ds_execute (f_ds self) (f_database self)
    (ManyToManyFacet.facet_sql middle_table c_to_dest c_to_table pk (f_sql self)
       (facet_size self + 1))
    (f_params self)
    (Some (ds_config (f_ds self) "facet_time_limit_ms")).

(** *** Configurations *)

(** The config of one value of the query string. *)
Definition request_config (val : string) : result config :=
  if startswith val "{" then json_loads val
  else Ok ({["simple" := val]} : config).

End Vocabulary.

(** * A small database to run the functions on

    Table [books(id, genre)] with 10 rows and three genres, and a table
    [posts(id, tags)] whose column [tags] holds JSON arrays; the SQL engine
    is a table of answers. *)
Module Example.

(** [urllib.parse.urlencode(pairs)], without the percent-encoding. *)
Fixpoint urlencode (pairs : list (string * string)) : string :=
  match pairs with
  | [] => ""
  | [(k, v)] => k +:+ "=" +:+ v
  | (k, v) :: rest => k +:+ "=" +:+ v +:+ "&" +:+ urlencode rest
  end.

Definition with_query (path : string) (pairs : list (string * string)) : string :=
  match pairs with
  | [] => path
  | _ => path +:+ "?" +:+ urlencode pairs
  end.

Definition utils : Utils := {|
  escape_sqlite := fun s => "[" +:+ s +:+ "]";
  path_with_added_args := fun request args =>
    with_query (req_path request)
      (req_pairs request ++ (prod_map id str <$> args));
  path_with_removed_args := fun request args =>
    with_query (req_path request)
      (filter (fun kv => kv ∉ args) (req_pairs request));
  json_loads := fun s =>
    match Json.loads s with
    | Some items => Ok (list_to_map items)
    | None => Raise JSONDecodeError
    end
|}.

(** An engine that answers from a table of SQL texts, and with no rows for
    any other text. *)
Definition engine (answers : list (string * result Results))
    (database sql : string) (params : list value) (limit : option nat)
  : result Results :=
  dict_get answers sql (Ok (mkResults [] [])).

Definition datasette (answers : list (string * result Results))
    (fks : gmap string table_foreign_keys) : Datasette := {|
  ds_execute := engine answers;
  ds_config := fun name => if decide (name = "default_facet_size") then 5 else 50;
  ds_absolute_url := fun _ path => "http://localhost" +:+ path;
  ds_expand_foreign_keys := fun _ _ _ _ => [];
  ds_get_all_foreign_keys := fun _ => fks
|}.

(** *** books *)

Definition books_sql : string := "select * from [books]".

Definition genre_row (genre : string) (count : Z) : row :=
  [("value", VText genre); ("count", VInt count)].

(** The three genres with their counts: the answer to the facet query. *)
Definition genres : Results :=
  mkResults ["value"; "count"]
    [genre_row "fiction" 5; genre_row "bio" 3; genre_row "poetry" 2].

(** The answer to the probe of [ColumnFacet.suggest] on [genre]. *)
Definition genre_probe : Results :=
  mkResults ["genre"]
    [[("genre", VText "fiction")]; [("genre", VText "bio")]; [("genre", VText "poetry")]].

(** The answers about [books]; [probe] answers the probe on [genre] and
    [facet] the facet query on [genre]. *)
Definition books_answers (probe facet : result Results)
  : list (string * result Results) :=
  [("select * from (" +:+ books_sql +:+ ") limit 0", Ok (mkResults ["id"; "genre"] []));
   ("select count(*) from (" +:+ books_sql +:+ ")",
    Ok (mkResults ["count(*)"] [[("count(*)", VInt 10)]]));
   (@ColumnFacet.suggested_facet_sql utils "genre" books_sql 6, probe);
   (@ColumnFacet.suggested_facet_sql utils "id" books_sql 6,
    Ok (mkResults ["id"] ((fun n => [("id", VInt n)]) <$> [1; 2; 3; 4; 5; 6])%Z));
   (@ColumnFacet.facet_sql utils "genre" books_sql 6, facet)].

(** [book_tags] is a junction between [books] and [tags]. *)
Definition foreign_keys : gmap string table_foreign_keys :=
  list_to_map
    [("books", mkTFK [mkFK "book_tags" "id" "book_id"] []);
     ("tags", mkTFK [mkFK "book_tags" "id" "tag_id"] []);
     ("book_tags", mkTFK [] [mkFK "books" "book_id" "id";
                             mkFK "tags" "tag_id" "id"])].

(** With [sequels(book_id -> books.id, sequel_id -> books.id)], a junction
    from [books] to [books], added. *)
Definition foreign_keys_sequels : gmap string table_foreign_keys :=
  list_to_map
    [("books", mkTFK [mkFK "book_tags" "id" "book_id";
                      mkFK "sequels" "id" "book_id";
                      mkFK "sequels" "id" "sequel_id"] []);
     ("tags", mkTFK [mkFK "book_tags" "id" "tag_id"] []);
     ("book_tags", mkTFK [] [mkFK "books" "book_id" "id";
                             mkFK "tags" "tag_id" "id"]);
     ("sequels", mkTFK [] [mkFK "books" "book_id" "id";
                           mkFK "books" "sequel_id" "id"])].

Definition books (probe facet : result Results)
    (fks : gmap string table_foreign_keys) (pairs : list (string * string))
    (metadata : option (list metadata_entry)) : Facet :=
  mkFacet (datasette (books_answers probe facet) fks)
    (mkRequest "/db/books" pairs) "db" (Some "books") books_sql [] metadata None.

(** [books] with every query answered. *)
Definition books_ok (pairs : list (string * string)) : Facet :=
  books (Ok genre_probe) (Ok genres) foreign_keys pairs None.

(** The result of a function that returned, and [dflt] otherwise. *)
Definition returned {A : Type} (dflt : A) (r : result A) : A :=
  match r with
  | Ok a => a
  | Raise _ => dflt
  end.

Definition no_result : facet_result := mkFacetResult "" "" false "" [] false.

(** [books] with the facet [genre] and the filter [(genre, fiction)] in the
    query string, and the result of its facet. *)
Definition books_filtered : Facet :=
  books_ok [("_facet", "genre"); ("genre", "fiction")].

Definition books_genre_results : gmap string facet_result * list string :=
  returned (∅, []) (@ColumnFacet.facet_results utils books_filtered).

Definition books_genre_result : facet_result :=
  default no_result (books_genre_results.1 !! "genre").

(** [books] whose facet query on [genre] fails with [e]. *)
Definition books_facet_fails (e : exn) : Facet :=
  books (Ok genre_probe) (Raise e) foreign_keys [("_facet", "genre")] None.

(** [books] whose suggestion probe on [genre] fails with [e]. *)
Definition books_probe_fails (e : exn) : Facet :=
  books (Raise e) (Ok genres) foreign_keys [] None.

(** *** posts *)

Definition posts_sql : string := "select * from [posts]".

(** The answers about [posts]; [kinds] are the rows of the probe of
    [ArrayFacet.suggest] on [tags]. *)
Definition posts_answers (kinds : list value) : list (string * result Results) :=
  [("select * from (" +:+ posts_sql +:+ ") limit 0", Ok (mkResults ["id"; "tags"] []));
   (@ArrayFacet.suggested_facet_sql utils "id" posts_sql,
    Ok (mkResults ["json_type(id)"] [[("json_type(id)", VText "integer")]]));
   (@ArrayFacet.suggested_facet_sql utils "tags" posts_sql,
    Ok (mkResults ["json_type(tags)"] ((fun k => [("json_type(tags)", k)]) <$> kinds)))].

Definition posts (kinds : list value) : Facet :=
  mkFacet (datasette (posts_answers kinds) ∅)
    (mkRequest "/db/posts" []) "db" (Some "posts") posts_sql [] None None.

End Example.


(** A pair of the query string whose key [load_facet_configs] reads. *)
Definition facet_key (kv : string * string) : Prop := startswith kv.1 "_facet" = true.

Global Instance facet_key_dec kv : Decision (facet_key kv).
Proof. unfold facet_key. apply _. Defined.

(** The entry of a bare column name of the metadata. *)
Definition metadata_column (n : string) : source_and_config :=
  mkSC "metadata" {["simple" := n]}.

(** The entry of a config of the query string. *)
Definition request_entry (cfg : config) : source_and_config := mkSC "request" cfg.

(** [entries] appended, one by one, to the list of [ty]. *)
Definition file_all (ty : string) (entries : list source_and_config)
    (fc : gmap string (list source_and_config)) : gmap string (list source_and_config) :=
  foldl (fun fc e => setdefault_append ty e fc) fc entries.

(** ** The loop shared by the [suggest] of the column facets

    [probe] is the query of a column, [test] what the [try] computes from its
    rows, [catches] the exceptions of the [except] clause and [mk] the
    suggestion of a column. *)
Section SuggestLoopBody.
Variable probe : string → result Results.
Variable test : Results → result bool.
Variable catches : exn → bool.
Variable mk : string → suggestion.
Variable enabled : list string.

Definition suggest_loop_body (acc : list suggestion) (column : string)
  : result (list suggestion) :=
  if bool_decide (column ∈ enabled) then Ok acc
  else
    match (r ← probe column; test r) with
    | Ok true => Ok (acc ++ [mk column])
    | Ok false => Ok acc
    | Raise e => if catches e then Ok acc else Raise e
    end.

(** The columns that the loop proposes. *)
Definition proposed (column : string) : bool :=
  negb (bool_decide (column ∈ enabled))
  && match (r ← probe column; test r) with
     | Ok true => true
     | _ => false
     end.
End SuggestLoopBody.

Section SuggestClasses.
Context `{Utils}.

Definition class_suggest (c : facet_class) (self : Facet) : result (list suggestion) :=
  match c with
  | Column => ColumnFacet.suggest self
  | Array => ArrayFacet.suggest self
  | Date => DateFacet.suggest self
  end.

Definition class_probe (c : facet_class) (self : Facet) : string → result Results :=
  match c with
  | Column => column_probe self
  | Array => array_probe self
  | Date => date_probe self
  end.

(** What the [try] of [suggest] computes from the rows of the probe;
    [row_count] matters to [ColumnFacet] only. *)
Definition class_test (c : facet_class) (self : Facet) (row_count : value)
    (r : Results) : result bool :=
  match c with
  | Column => ColumnFacet.suggest_test (len_results r) (facet_size self) row_count
  | Array => types ← mapM row_first (res_rows r); Ok (ArrayFacet.types_test types)
  | Date => values ← mapM row_first (res_rows r); Ok (existsb truthy values)
  end.

Definition class_catches (c : facet_class) (e : exn) : bool :=
  match c with
  | Column => bool_decide (e = QueryInterrupted)
  | _ => bool_decide (e = QueryInterrupted ∨ e = OperationalError)
  end.

Definition date_suggestion (self : Facet) (column : string) : suggestion :=
  mkSuggestion column (Some "date")
    (ds_absolute_url (f_ds self) (f_request self)
       (path_with_added_args (f_request self) [("_facet_date", VText column)])).

Definition class_suggestion (c : facet_class) (self : Facet) : string → suggestion :=
  match c with
  | Column => column_suggestion self
  | Array => array_suggestion self
  | Date => date_suggestion self
  end.

(** The row count that [suggest] reads: [ColumnFacet] alone asks for it. *)
Definition class_row_count (c : facet_class) (self : Facet) : result value :=
  match c with
  | Column => FacetBase.get_row_count self
  | _ => Ok VNull
  end.
End SuggestClasses.

(** A query that ran out of its time budget. *)
Definition interrupted (p : result Results) : bool :=
  match p with
  | Raise QueryInterrupted => true
  | _ => false
  end.

(** The key of the query string that enables a facet of the class. *)
Definition class_key (c : facet_class) : string :=
  match c with
  | Column => "_facet"
  | Array => "_facet_array"
  | Date => "_facet_date"
  end.

(** A row with the two columns that [facet_results] reads. *)
Definition facet_row (rw : row) : Prop :=
  (∃ v, row_get rw "value" = Ok v) ∧ (∃ n, row_get rw "count" = Ok n).

(** [args.get(key)] for [args = dict(pairs)]: the value of the last pair of
    the key. *)
Definition last_value (pairs : list (string * string)) (key : string) : option string :=
  last (filter (fun kv => kv.1 = key) pairs).*2.

(** [out] are the outgoing edges of a junction towards [dest]: exactly two
    edges, one of them to [dest]; this is the test of the loop that looks for
    the middle table. *)
Definition junction_of (dest : string) (out : list foreign_key) : Prop :=
  length out = 2 ∧ Exists (fun o => fk_other_table o = dest) out.

Global Instance junction_of_dec dest out : Decision (junction_of dest out).
Proof. unfold junction_of. apply _. Defined.

(** * More of the example database

    A table [events(id, day, tags)] whose column [day] holds dates and whose
    column [tags] holds JSON arrays, and the junction [book_tags] of [books]
    queried by [ManyToManyFacet]. *)
Module Events.

Definition events_sql : string := "select * from [events]".

Definition value_row (v : value) (count : Z) : row :=
  [("value", v); ("count", VInt count)].

(** The answer to the facet query of [DateFacet] on [day]. *)
Definition days : Results :=
  mkResults ["value"; "count"]
    [value_row (VText "2019-05-01") 4; value_row (VText "2019-05-02") 1].

(** The answer to the facet query of [ArrayFacet] on [tags]: the array
    elements are texts and numbers. *)
Definition tag_counts : Results :=
  mkResults ["value"; "count"]
    [value_row (VText "music") 3; value_row (VText "art") 2; value_row (VInt 7) 1].

Definition answers : list (string * result Results) :=
  [("select * from (" +:+ events_sql +:+ ") limit 0",
    Ok (mkResults ["id"; "day"; "tags"] []));
   (@DateFacet.suggested_facet_sql Example.utils "day" events_sql,
    Ok (mkResults ["date([day])"]
          [[("date([day])", VText "2019-05-01")]; [("date([day])", VText "2019-05-02")]]));
   (@ArrayFacet.suggested_facet_sql Example.utils "id" events_sql,
    Ok (mkResults ["json_type([id])"] [[("json_type([id])", VText "integer")]]));
   (@ArrayFacet.suggested_facet_sql Example.utils "day" events_sql,
    Ok (mkResults ["json_type([day])"] [[("json_type([day])", VText "text")]]));
   (@ArrayFacet.suggested_facet_sql Example.utils "tags" events_sql,
    Ok (mkResults ["json_type([tags])"] [[("json_type([tags])", VText "array")]]));
   (@DateFacet.facet_sql Example.utils "day" events_sql 6, Ok days);
   (@ArrayFacet.facet_sql Example.utils "tags" events_sql 6, Ok tag_counts)].

Definition events (pairs : list (string * string)) : Facet :=
  mkFacet (Example.datasette answers ∅)
    (mkRequest "/db/events" pairs) "db" (Some "events") events_sql [] None None.

(** [events] faceted by the dates of [day], with one date selected. *)
Definition by_day : Facet :=
  events [("_facet_date", "day"); ("day__date", "2019-05-01")].

Definition by_day_results : gmap string facet_result * list string :=
  Example.returned (∅, []) (@DateFacet.facet_results Example.utils by_day).

Definition by_day_result : facet_result :=
  default Example.no_result (by_day_results.1 !! "day").

(** [events] faceted by the elements of [tags], with the number 7 selected. *)
Definition by_tag : Facet :=
  events [("_facet_array", "tags"); ("tags__arraycontains", "7")].

Definition by_tag_results : gmap string facet_result * list string :=
  Example.returned (∅, []) (@ArrayFacet.facet_results Example.utils by_tag).

Definition by_tag_result : facet_result :=
  default Example.no_result (by_tag_results.1 !! "tags").

(** The facet on [day] given as a structured object, [{"column": "day"}]. *)
Definition by_day_object : Facet :=
  events [("_facet_date", Json.dumps [("column", "day")])].

End Events.

Module Tagging.

(** The answer to the facet query through [book_tags]: the keys of two
    tags with the number of their books. *)
Definition tag_books : Results :=
  mkResults ["value"; "count"]
    [Events.value_row (VInt 1) 4; Events.value_row (VInt 2) 2].

Definition answers : list (string * result Results) :=
  [(@ManyToManyFacet.facet_sql Example.utils "book_tags" "tag_id" "book_id" "id"
      Example.books_sql 6,
    Ok tag_books)].

Definition books (fks : gmap string table_foreign_keys)
    (pairs : list (string * string)) : Facet :=
  mkFacet (Example.datasette answers fks)
    (mkRequest "/db/books" pairs) "db" (Some "books") Example.books_sql [] None None.

(** [books] faceted by its tags, with the tag 2 selected. *)
Definition by_tag : Facet :=
  books Example.foreign_keys
    [("_facet_m2m", "tags");
     ("_through", ManyToManyFacet.through "book_tags" "tag_id" "2")].

Definition by_tag_results : gmap string facet_result * list string :=
  Example.returned (∅, []) (@ManyToManyFacet.facet_results Example.utils by_tag).

Definition by_tag_result : facet_result :=
  default Example.no_result (by_tag_results.1 !! "tags").

(** [books] faceted by its tags and then by [authors], a table that no
    junction reaches. *)
Definition by_tag_and_author : Facet :=
  books Example.foreign_keys [("_facet_m2m", "tags"); ("_facet_m2m", "authors")].

(** What the loop holds for [tags] when it turns to [authors]. *)
Definition by_tag_and_author_first : facet_result :=
  Example.returned Example.no_result
    (@ManyToManyFacet.shape_result Example.utils by_tag_and_author
       (req_pairs (f_request by_tag_and_author)) 5 "request" "tags" "book_tags" "tag_id"
       tag_books).

(** [books] faceted by [books] itself, with the junction [sequels] in the
    database. *)
Definition by_sequel : Facet :=
  books Example.foreign_keys_sequels [("_facet_m2m", "books")].

End Tagging.

(** [books] with [genre] enabled both by the metadata and by the query
    string. *)
Definition books_genre_twice : Facet :=
  Example.books (Ok Example.genre_probe) (Ok Example.genres) Example.foreign_keys
    [("_facet", "genre")] (Some [MetaStr "genre"]).

Definition books_genre_twice_results : gmap string facet_result * list string :=
  Example.returned (∅, []) (@ColumnFacet.facet_results Example.utils books_genre_twice).

(** * The SQL of the facet queries

    The module talks to the engine in SQL texts.  What such a text asks for
    is fixed by SQL and not by the module: [Sql] gives the fragment in use
    its syntax, its text, and its meaning over the rows of the base query. *)

(** The two SQLite functions of the fragment: [date(v)], and the elements
    that [json_each(v)] lists for a cell. *)
Class SqlFunctions : Type := mkSqlFunctions {
  sql_date : value → value;
  sql_json_each : value → list value
}.

Module Sql.
Section Sql.
Context `{Utils} `{SqlFunctions}.

(** What a query reads from the rows of the base query: a column, the
    date of a column, or the elements of the arrays of a column. *)
Inductive expr : Type :=
| Col (column : string)
| DateOf (column : string)
| Element (column : string).

Inductive query : Type :=
(** [select distinct e from ( sql ) where e is not null limit n] *)
| Distinct (column sql : string) (limit : nat)
(** [select e as value, count( * ) as count from ( sql ) ... group by e
    order by count desc limit n] *)
| Counts (e : expr) (sql : string) (limit : nat).

(** *** The text of a query *)

Definition expr_text (e : expr) : string :=
  match e with
  | Col c => escape_sqlite c
  | DateOf c => "date(" +:+ escape_sqlite c +:+ ")"
  | Element _ => "j.value"
  end.

(** The rows the expression is read from: the base query, without the
    rows where the expression is null, or joined with the elements of the
    array. *)
Definition from_text (e : expr) (sql : string) : string :=
  match e with
  | Element c => "( " +:+ sql +:+ " ) join json_each(" +:+ escape_sqlite c +:+ ") j"
  | _ => "( " +:+ sql +:+ " ) where " +:+ expr_text e +:+ " is not null"
  end.

Definition render (q : query) : string :=
  match q with
  | Distinct c sql n =>
      "select distinct " +:+ expr_text (Col c) +:+ " from " +:+ from_text (Col c) sql
        +:+ " limit " +:+ str_nat n
  | Counts e sql n =>
      "select " +:+ expr_text e +:+ " as value, count(*) as count from "
        +:+ from_text e sql +:+ " group by " +:+ expr_text e
        +:+ " order by count desc limit " +:+ str_nat n
  end.

(** *** The meaning of a query over the rows of the base query *)

(** The cell of a row; the engine rejects a query on a column that the
    rows do not have, so the choice for a missing column is immaterial. *)
Definition cell (column : string) (rw : row) : value :=
  match row_get rw column with
  | Ok v => v
  | Raise _ => VNull
  end.

(** The values the query reads, one per row that passes [is not null], or
    one per element of an array. *)
Definition selected_values (e : expr) (rows : list row) : list value :=
  match e with
  | Col c => filter (fun v => v ≠ VNull) (cell c <$> rows)
  | DateOf c => filter (fun v => v ≠ VNull) ((fun rw => sql_date (cell c rw)) <$> rows)
  | Element c => rows ≫= (fun rw => sql_json_each (cell c rw))
  end.

Definition distinct_values (e : expr) (rows : list row) : list value :=
  remove_dups (selected_values e rows).

(** [count( * )] of the group of [v]. *)
Definition occurrences (e : expr) (rows : list row) (v : value) : nat :=
  length (filter (fun w => w = v) (selected_values e rows)).

(** [group by e]: one group per distinct value, with its count. *)
Definition groups (e : expr) (rows : list row) : list (value * nat) :=
  (fun v => (v, occurrences e rows v)) <$> distinct_values e rows.

Definition group_row (g : value * nat) : row :=
  [("value", g.1); ("count", VInt (Z.of_nat g.2))].

(** [order by count desc] *)
Definition count_descending (gs : list (value * nat)) : Prop :=
  StronglySorted (fun a b => b.2 ≤ a.2) gs.

(** [r] is an answer to [q] when the base query has the rows [rows].  SQL
    leaves open the order of distinct values and of groups with equal
    counts: any listing will do. *)
Definition answers (q : query) (rows : list row) (r : Results) : Prop :=
  match q with
  | Distinct c _ n =>
      ∃ vs, vs ≡ₚ distinct_values (Col c) rows
            ∧ mapM row_first (res_rows r) = Ok (take n vs)
  | Counts e _ n =>
      ∃ gs, gs ≡ₚ groups e rows
            ∧ count_descending gs
            ∧ res_rows r = group_row <$> take n gs
  end.

(** The engine, asked through [execute], answers the text of [q] as SQL
    means it whenever it answers. *)
Definition implements (execute : string → result Results) (rows : list row)
    (q : query) : Prop :=
  ∀ r, execute (render q) = Ok r → answers q rows r.

End Sql.
End Sql.

Section SqlVocabulary.
Context `{Utils} `{SqlFunctions}.


(** [ds.execute] as [facet_results] calls it. *)
Definition facet_execute (self : Facet) (sql : string) : result Results :=
  ds_execute (f_ds self) (f_database self) sql (f_params self)
    (Some (ds_config (f_ds self) "facet_time_limit_ms")).


(** What the facet query of a class groups. *)
Definition class_expr (c : facet_class) (column : string) : Sql.expr :=
  match c with
  | Column => Sql.Col column
  | Array => Sql.Element column
  | Date => Sql.DateOf column
  end.

(** The facet query of a class as a query. *)
Definition facet_query (c : facet_class) (self : Facet) (column : string) : Sql.query :=
  Sql.Counts (class_expr c column) (f_sql self) (facet_size self + 1).
End SqlVocabulary.

Section ManyToManyVocabulary.
Context `{Utils}.

(** The junction that [ManyToManyFacet.facet_results] works out for a
    destination: the middle table of the search, and the three columns
    read from its foreign keys. *)
Definition junction (self : Facet) (all : gmap string table_foreign_keys)
    (incoming : list foreign_key) (dest : string)
    (middle c_to_table pk c_to_dest : string) : Prop :=
  ∃ fks, ManyToManyFacet.find_middle all dest incoming = Ok (Some (fks, middle))
    ∧ foldl (ManyToManyFacet.columns_body self dest)
        (ManyToManyFacet.mkJC None None None) fks
      = ManyToManyFacet.mkJC (Some c_to_table) (Some pk) (Some c_to_dest).

(** An entry of the mapping of [ManyToManyFacet.facet_results] is the
    shaped answer of the query of the junction of its destination. *)
Definition m2m_shaped (self : Facet) (all : gmap string table_foreign_keys)
    (incoming : list foreign_key) (res : gmap string facet_result) : Prop :=
  ∀ dest fr, res !! dest = Some fr →
    ∃ source middle c_to_table pk c_to_dest r,
      junction self all incoming dest middle c_to_table pk c_to_dest
      ∧ m2m_query self middle c_to_dest c_to_table pk = Ok r
      ∧ ManyToManyFacet.shape_result self (FacetBase.get_querystring_pairs self)
          (facet_size self) source dest middle c_to_dest r = Ok fr.
End ManyToManyVocabulary.

(** * The rows of [books]

    The ten rows behind the answers of the example engine, to read the
    answers against what SQL asks for. *)
Module Library.

Definition book (id : Z) (genre : string) : row :=
  [("id", VInt id); ("genre", VText genre)].

Definition rows : list row :=
  [book 1 "fiction"; book 2 "fiction"; book 3 "fiction"; book 4 "fiction";
   book 5 "fiction"; book 6 "bio"; book 7 "bio"; book 8 "bio";
   book 9 "poetry"; book 10 "poetry"].

(** [books] holds neither dates nor arrays: [date] of its cells is null
    and [json_each] lists nothing. *)
Definition functions : SqlFunctions := {|
  sql_date := fun _ => VNull;
  sql_json_each := fun _ => []
|}.

(** The answer to the facet query on [id], limited to six rows. *)
Definition id_counts : Results :=
  mkResults ["value"; "count"]
    ((fun n => [("value", VInt n); ("count", VInt 1)]) <$> [1; 2; 3; 4; 5; 6])%Z.

(** [books] faceted by [id]: ten distinct values for a display size of
    five. *)
Definition by_id : Facet :=
  mkFacet
    (Example.datasette
       (Example.books_answers (Ok Example.genre_probe) (Ok Example.genres)
          ++ [(@ColumnFacet.facet_sql Example.utils "id" Example.books_sql 6,
               Ok id_counts)])
       Example.foreign_keys)
    (mkRequest "/db/books" [("_facet", "id")]) "db" (Some "books")
    Example.books_sql [] None None.

Definition by_id_results : gmap string facet_result * list string :=
  Example.returned (∅, []) (@ColumnFacet.facet_results Example.utils by_id).




End Library.

(** * Properties *)

(** ** Loops *)

Lemma for_each_app {S A : Type} (body : S → A → result S) (s : S) (xs ys : list A) :
  for_each body s (xs ++ ys) = (s' ← for_each body s xs; for_each body s' ys).
Proof.
  revert s. induction xs as [|x xs IH]; intros s; simpl; [reflexivity|].
  destruct (body s x) as [s'|e]; simpl; [apply IH | reflexivity].
Qed.

Lemma for_each_ext {S A : Type} (body body' : S → A → result S) (s : S) (xs : list A) :
  (∀ s x, body s x = body' s x) → for_each body s xs = for_each body' s xs.
Proof.
  intros Hext. revert s. induction xs as [|x xs IH]; intros s; simpl; [reflexivity|].
  rewrite Hext. destruct (body' s x); simpl; [apply IH | reflexivity].
Qed.

Lemma mapM_result_length {A B : Type} (f : A → result B) (l : list A) (k : list B) :
  mapM f l = Ok k → length k = length l.
Proof.
  revert k. induction l as [|x l IH]; intros k; simpl.
  - intros [= <-]. reflexivity.
  - destruct (f x) as [y|e]; simpl; [|discriminate].
    destruct (mapM f l) as [k'|e]; simpl; [|discriminate].
    intros [= <-]. simpl. f_equal. apply IH. reflexivity.
Qed.

Lemma mapM_result_Forall2 {A B : Type} (f : A → result B) (l : list A) (k : list B) :
  mapM f l = Ok k → Forall2 (fun x y => f x = Ok y) l k.
Proof.
  revert k. induction l as [|x l IH]; intros k; simpl.
  - intros [= <-]. constructor.
  - destruct (f x) as [y|e] eqn:Hfx; simpl; [|discriminate].
    destruct (mapM f l) as [k'|e]; simpl; [|discriminate].
    intros [= <-]. constructor; [assumption | apply IH; reflexivity].
Qed.

Lemma for_each_cons {S A : Type} (body : S → A → result S) (s : S) (x : A) (xs : list A) :
  for_each body s (x :: xs) = (s' ← body s x; for_each body s' xs).
Proof. reflexivity. Qed.

(** ** ColumnFacet.suggest *)
Section ColumnFacetSuggest.
Context `{Utils}.





End ColumnFacetSuggest.

(** ** The loop of [ColumnFacet], [ArrayFacet] and [DateFacet] *)
Section FacetLoop.
Variable exec : string → result Results.
Variable shape : string → string → Results → result facet_result.

Local Abbreviation body := (loop_body exec shape).
Local Abbreviation shaped_res := (shaped exec shape).

Hypothesis shape_not_interrupted :
  ∀ source column r, shape source column r ≠ Raise QueryInterrupted.

Lemma loop_body_ok res timed sc column r :
  config_column (sc_config sc) = Ok column →
  exec column = Ok r →
  body (res, timed) sc
  = (fr ← shape (sc_source sc) column r; Ok (<[column := fr]> res, timed)).
Proof.
  intros Hc Hr. unfold loop_body. rewrite Hc. simpl. rewrite Hr. simpl.
  destruct (shape (sc_source sc) column r) as [fr|e] eqn:Hs; simpl; [reflexivity|].
  destruct (decide (e = QueryInterrupted)) as [->|]; [|reflexivity].
  by apply shape_not_interrupted in Hs.
Qed.

Lemma loop_body_interrupted res timed sc column :
  config_column (sc_config sc) = Ok column →
  exec column = Raise QueryInterrupted →
  body (res, timed) sc = Ok (res, timed ++ [column]).
Proof. intros Hc Hr. unfold loop_body. rewrite Hc. simpl. by rewrite Hr. Qed.


Lemma loop_body_inv st st' sc :
  body st sc = Ok st' →
  ∃ column, config_column (sc_config sc) = Ok column ∧
    ((∃ r fr, exec column = Ok r ∧ shape (sc_source sc) column r = Ok fr ∧
              st' = (<[column := fr]> st.1, st.2))
     ∨ (exec column = Raise QueryInterrupted ∧ st' = (st.1, st.2 ++ [column]))).
Proof.
  destruct st as [res timed]. unfold loop_body.
  destruct (config_column (sc_config sc)) as [column|e]; simpl; [|discriminate].
  intros Hst. exists column. split; [reflexivity|].
  destruct (exec column) as [r|e] eqn:Hr; simpl in Hst.
  - destruct (shape (sc_source sc) column r) as [fr|e] eqn:Hs; simpl in Hst.
    + injection Hst as <-. left. eauto.
    + destruct (decide (e = QueryInterrupted)) as [->|]; [|discriminate].
      by apply shape_not_interrupted in Hs.
  - destruct (decide (e = QueryInterrupted)) as [->|]; [|discriminate].
    injection Hst as <-. right. done.
Qed.

Lemma loop_spec cfgs : ∀ st st',
  for_each body st cfgs = Ok st' →
  (shaped_res st.1 → shaped_res st'.1)
  ∧ (∀ column, is_Some (st.1 !! column) → is_Some (st'.1 !! column))
  ∧ (∀ sc column r, sc ∈ cfgs → config_column (sc_config sc) = Ok column →
       exec column = Ok r → is_Some (st'.1 !! column))
  ∧ (∀ column, column ∈ st'.2 ↔
       column ∈ st.2 ∨
       ∃ sc, sc ∈ cfgs ∧ config_column (sc_config sc) = Ok column ∧
             exec column = Raise QueryInterrupted).
Proof.
  induction cfgs as [|sc cfgs IH]; intros st st'.
  - intros [= <-]. split_and!; try done.
    + intros ??? Hin. by apply elem_of_nil in Hin.
    + intros column. split; [auto|]. intros [?|(?&Hin&_)]; [done|].
      by apply elem_of_nil in Hin.
  - rewrite for_each_cons.
    destruct (body st sc) as [st1|e] eqn:Hstep; simpl; [|discriminate].
    intros Hrest. destruct (IH _ _ Hrest) as (IH1&IH2&IH3&IH4).
    apply loop_body_inv in Hstep as (col&Hcol&Hcase).
    assert (Hsh : shaped_res st.1 → shaped_res st1.1).
    { intros Hsh. destruct Hcase as [(r&fr&Hr&Hs&->)|(_&->)]; [|done].
      intros c fr'. simpl. rewrite lookup_insert.
      case_decide as Hc; [|by apply Hsh]. subst c. intros [= <-]. eauto. }
    assert (Hdom : ∀ c, is_Some (st.1 !! c) → is_Some (st1.1 !! c)).
    { intros c Hc. destruct Hcase as [(r&fr&Hr&Hs&->)|(_&->)]; [|done].
      simpl. rewrite lookup_insert. by case_decide. }
    split_and!.
    + auto.
    + auto.
    + intros sc' c r Hin Hc Hr. apply elem_of_cons in Hin as [->|Hin]; [|eauto].
      apply IH2. rewrite Hcol in Hc. injection Hc as ->.
      destruct Hcase as [(r'&fr&Hr'&Hs&->)|(Hq&->)].
      * simpl. by rewrite lookup_insert_eq.
      * rewrite Hr in Hq. discriminate.
    + intros c. rewrite IH4. split.
      * intros [Hc|(sc'&Hin&?&?)].
        -- destruct Hcase as [(r&fr&Hr&Hs&->)|(Hq&->)]; [by left|].
           simpl in Hc. apply elem_of_app in Hc as [?|Hc]; [by left|].
           apply list_elem_of_singleton in Hc as ->. right. exists sc.
           split; [apply list_elem_of_here|done].
        -- right. exists sc'. split; [by apply list_elem_of_further|done].
      * intros [Hc|(sc'&Hin&Hc&Hq)].
        -- left. destruct Hcase as [(r&fr&Hr&Hs&->)|(_&->)]; [done|].
           simpl. apply elem_of_app. by left.
        -- apply elem_of_cons in Hin as [->|Hin]; [|right; eauto].
           left. rewrite Hcol in Hc. injection Hc as ->.
           destruct Hcase as [(r&fr&Hr&Hs&->)|(_&->)].
           ++ rewrite Hr in Hq. discriminate.
           ++ simpl. apply elem_of_app. right. by apply list_elem_of_singleton.
Qed.




End FacetLoop.

(** ** Exceptions of the row accessors *)

Lemma row_get_raise (r : row) (name : string) (e : exn) :
  row_get r name = Raise e → e = IndexError.
Proof.
  induction r as [|[k v] r IH]; simpl.
  - by intros [= <-].
  - case_decide; [discriminate | exact IH].
Qed.

Lemma mapM_result_raise {A B : Type} (f : A → result B) (l : list A) (e : exn) :
  mapM f l = Raise e → ∃ x, x ∈ l ∧ f x = Raise e.
Proof.
  induction l as [|x l IH]; simpl; [discriminate|].
  destruct (f x) as [y|e'] eqn:Hfx; simpl.
  - destruct (mapM f l) as [k|e'']; simpl; [discriminate|].
    intros [= ->]. destruct IH as (x'&Hin&Hx'); [reflexivity|].
    exists x'. split; [by apply list_elem_of_further | exact Hx'].
  - intros [= ->]. exists x. split; [apply list_elem_of_here | exact Hfx].
Qed.

Section FacetClasses.
Context `{Utils}.

Lemma class_facet_results_loop (c : facet_class) (self : Facet) :
  class_facet_results c self
  = (configs ← FacetBase.get_configs self (class_type c);
     for_each (loop_body (class_query c self) (class_shape c self)) (∅, []) configs).
Proof.
  destruct c; simpl;
    unfold ColumnFacet.facet_results, ArrayFacet.facet_results, DateFacet.facet_results;
    destruct (FacetBase.get_configs self _) as [configs|e]; simpl; try reflexivity;
    apply for_each_ext; intros [res timed] sc; reflexivity.
Qed.

Lemma column_row_entry_inv self pairs expanded column r fv :
  ColumnFacet.row_entry self pairs expanded column r = Ok fv →
  ∃ v c, row_get r "value" = Ok v ∧ row_get r "count" = Ok c ∧
    fv = mkFacetValue v (dict_get expanded (column, v) v) c
           (ds_absolute_url (f_ds self) (f_request self)
              (if bool_decide ((column, str v) ∈ pairs)
               then path_with_removed_args (f_request self) [(column, str v)]
               else path_with_added_args (f_request self) [(column, v)]))
           (bool_decide ((column, str v) ∈ pairs)).
Proof.
  unfold ColumnFacet.row_entry.
  destruct (row_get r "value") as [v|e]; simpl; [|discriminate].
  destruct (row_get r "count") as [c|e]; simpl; [|discriminate].
  intros [= <-]. eauto.
Qed.

(** An entry of a result is built from the "value" and the "count" of its
    row, and fails only if the row lacks one of them. *)
Ltac entry_raises :=
  let x := fresh "x" in
  let e := fresh "e" in
  intros x e;
  destruct (row_get x "value") eqn:?; simpl;
  [|intros [= <-]; by eapply row_get_raise];
  destruct (row_get x "count") eqn:?; simpl;
  [discriminate | intros [= <-]; by eapply row_get_raise].

Lemma column_row_entry_raise self pairs expanded column r e :
  ColumnFacet.row_entry self pairs expanded column r = Raise e → e = IndexError.
Proof. revert r e. unfold ColumnFacet.row_entry. entry_raises. Qed.

Lemma array_row_entry_raise self pairs column r e :
  ArrayFacet.row_entry self pairs column r = Raise e → e = IndexError.
Proof. revert r e. unfold ArrayFacet.row_entry. entry_raises. Qed.

Lemma date_row_entry_raise self pairs column r e :
  DateFacet.row_entry self pairs column r = Raise e → e = IndexError.
Proof. revert r e. unfold DateFacet.row_entry. entry_raises. Qed.

Lemma mapM_index_error {A B : Type} (f : A → result B) (l : list A) :
  (∀ x e, f x = Raise e → e = IndexError) →
  mapM f l ≠ Raise QueryInterrupted.
Proof.
  intros Hf Hm. apply mapM_result_raise in Hm as (x&_&Hx).
  apply Hf in Hx. discriminate.
Qed.

(** What follows the query raises no exception that the [except] clause
    catches. *)
Lemma class_shape_not_interrupted c self source column r :
  class_shape c self source column r ≠ Raise QueryInterrupted.
Proof.
  intros Hs. destruct c; simpl in Hs.
  - unfold ColumnFacet.shape_result in Hs.
    destruct (if str_truthy (f_table self) then _ else _) as [expanded|e] eqn:Hex;
      simpl in Hs.
    + destruct (mapM _ _) as [k|e] eqn:Hm in Hs; simpl in Hs; [discriminate|].
      injection Hs as ->. revert Hm. apply mapM_index_error.
      intros x e. apply column_row_entry_raise.
    + injection Hs as ->. destruct (str_truthy (f_table self)); [|discriminate].
      destruct (mapM _ _) as [values|e] eqn:Hv in Hex; simpl in Hex; [discriminate|].
      injection Hex as ->. revert Hv. apply mapM_index_error.
      intros x e. apply row_get_raise.
  - unfold ArrayFacet.shape_result in Hs.
    destruct (mapM _ _) as [k|e] eqn:Hm in Hs; simpl in Hs; [discriminate|].
    injection Hs as ->. revert Hm. apply mapM_index_error.
    intros x e. apply array_row_entry_raise.
  - unfold DateFacet.shape_result in Hs.
    destruct (mapM _ _) as [k|e] eqn:Hm in Hs; simpl in Hs; [discriminate|].
    injection Hs as ->. revert Hm. apply mapM_index_error.
    intros x e. apply date_row_entry_raise.
Qed.

(** What a shaped result keeps of the rows of its query. *)
Lemma class_shape_inv c self source column r fr :
  class_shape c self source column r = Ok fr →
  fr_name fr = column
  ∧ fr_truncated fr = bool_decide (facet_size self < len_results r)
  ∧ Forall2 (fun rw fv => ∃ v, row_get rw "value" = Ok v
                               ∧ row_get rw "count" = Ok (fv_count fv)
                               ∧ fv_value fv = class_value c v)
      (take (facet_size self) (res_rows r)) (fr_results fr).
Proof.
  assert (Hgen : ∀ (f : row → result facet_value) l k,
            (∀ x y, f x = Ok y → ∃ v, row_get x "value" = Ok v
                                     ∧ row_get x "count" = Ok (fv_count y)
                                     ∧ fv_value y = class_value c v) →
            mapM f l = Ok k →
            Forall2 (fun rw fv => ∃ v, row_get rw "value" = Ok v
                                       ∧ row_get rw "count" = Ok (fv_count fv)
                                       ∧ fv_value fv = class_value c v) l k).
  { intros f l k Hf Hm. apply mapM_result_Forall2 in Hm.
    eapply Forall2_impl; [exact Hm|]. intros x y Hxy. by apply Hf. }
  destruct c; simpl.
  - unfold ColumnFacet.shape_result.
    destruct (if str_truthy (f_table self) then _ else _) as [expanded|e];
      simpl; [|discriminate].
    destruct (mapM _ _) as [k|e] eqn:Hm; simpl; [|discriminate].
    intros [= <-]. simpl. split_and!; try reflexivity.
    eapply Hgen; [|exact Hm]. intros x y Hy.
    apply column_row_entry_inv in Hy as (v&cn&Hv&Hc&->). simpl. eauto.
  - unfold ArrayFacet.shape_result.
    destruct (mapM _ _) as [k|e] eqn:Hm; simpl; [|discriminate].
    intros [= <-]. simpl. split_and!; try reflexivity.
    eapply Hgen; [|exact Hm]. intros x y. unfold ArrayFacet.row_entry.
    destruct (row_get x "value") as [v|e]; simpl; [|discriminate].
    destruct (row_get x "count") as [cn|e]; simpl; [|discriminate].
    intros [= <-]. simpl. eauto.
  - unfold DateFacet.shape_result.
    destruct (mapM _ _) as [k|e] eqn:Hm; simpl; [|discriminate].
    intros [= <-]. simpl. split_and!; try reflexivity.
    eapply Hgen; [|exact Hm]. intros x y. unfold DateFacet.row_entry.
    destruct (row_get x "value") as [v|e]; simpl; [|discriminate].
    destruct (row_get x "count") as [cn|e]; simpl; [|discriminate].
    intros [= <-]. simpl. eauto.
Qed.

End FacetClasses.

(** ** Results of the configured facets *)
Section FacetResults.
Context `{Utils}.

Lemma class_results_inv c self res timed :
  class_facet_results c self = Ok (res, timed) →
  ∃ configs, FacetBase.get_configs self (class_type c) = Ok configs
    ∧ for_each (loop_body (class_query c self) (class_shape c self)) (∅, []) configs
      = Ok (res, timed).
Proof.
  rewrite class_facet_results_loop.
  destruct (FacetBase.get_configs self (class_type c)) as [configs|e];
    simpl; [eauto | discriminate].
Qed.

Lemma class_results_shaped c self res timed :
  class_facet_results c self = Ok (res, timed) →
  shaped (class_query c self) (class_shape c self) res.
Proof.
  intros (configs&_&Hloop)%class_results_inv.
  destruct (loop_spec _ _ (class_shape_not_interrupted c self) _ _ _ Hloop) as (Hsh&_).
  apply Hsh. intros column fr. simpl. by rewrite lookup_empty.
Qed.

(** C3: every entry of a column facet is selected exactly when the pair
    [(column, str(value))] is among the pairs of the query string; the
    toggle URL of a selected entry is the path with that pair removed, the
    one of another entry the path with the pair of the column and the value
    added. *)
Theorem column_entry_selected (self : Facet)
    (res : gmap string facet_result) (timed : list string) :
  ColumnFacet.facet_results self = Ok (res, timed) →
  ∀ column fr,
    res !! column = Some fr →
    ∃ r, class_query Column self column = Ok r
      ∧ Forall2 (fun rw fv =>
           row_get rw "value" = Ok (fv_value fv)
           ∧ (fv_selected fv = true ↔
                (column, str (fv_value fv)) ∈ req_pairs (f_request self))
           ∧ fv_toggle_url fv
             = ds_absolute_url (f_ds self) (f_request self)
                 (if fv_selected fv
                  then path_with_removed_args (f_request self)
                         [(column, str (fv_value fv))]
                  else path_with_added_args (f_request self)
                         [(column, fv_value fv)]))
          (take (facet_size self) (res_rows r)) (fr_results fr).
Proof.
  intros Hres column fr Hfr.
  pose proof (class_results_shaped Column _ _ _ Hres) as Hsh.
  destruct (Hsh _ _ Hfr) as (source&r&Hr&Hshape).
  exists r. split; [exact Hr|].
  simpl in Hshape. unfold ColumnFacet.shape_result in Hshape.
  destruct (if str_truthy (f_table self) then _ else _) as [expanded|e];
    simpl in Hshape; [|discriminate].
  destruct (mapM _ _) as [k|e] eqn:Hm; simpl in Hshape; [|discriminate].
  injection Hshape as <-. simpl.
  apply mapM_result_Forall2 in Hm.
  eapply Forall2_impl; [exact Hm|]. intros rw fv Hfv.
  apply column_row_entry_inv in Hfv as (v&cn&Hv&_&->). simpl.
  split_and!; [exact Hv | apply bool_decide_eq_true | reflexivity].
Qed.

End FacetResults.

(** ** Suggestion probes that fail *)
Section SuggestProbes.
Context `{Utils}.

Lemma array_suggest_body_failed self enabled acc column :
  probe_failed (array_probe self column) →
  ArrayFacet.suggest_body self enabled acc column = Ok acc.
Proof.
  unfold ArrayFacet.suggest_body. fold (array_probe self column).
  case_bool_decide; [reflexivity|]. by intros [-> | ->].
Qed.

Lemma date_suggest_body_failed self enabled acc column :
  probe_failed (date_probe self column) →
  DateFacet.suggest_body self enabled acc column = Ok acc.
Proof.
  unfold DateFacet.suggest_body. fold (date_probe self column).
  case_bool_decide; [reflexivity|]. by intros [-> | ->].
Qed.

Lemma column_suggest_body_raise self rc enabled acc column e :
  column ∉ enabled →
  column_probe self column = Raise e →
  ColumnFacet.suggest_body self rc (facet_size self) enabled acc column
  = if decide (e = QueryInterrupted) then Ok acc else Raise e.
Proof.
  intros Hen He. unfold ColumnFacet.suggest_body, facet_size.
  fold (column_probe self column).
  rewrite bool_decide_eq_false_2 by done. by rewrite He.
Qed.

(** C5, as the code has it: a probe of [ArrayFacet.suggest] or of
    [DateFacet.suggest] that times out or fails with an SQL error leaves the
    column out and the loop goes on with the remaining columns; a probe of
    [ColumnFacet.suggest] is skipped in that way only when it times out, and
    any other exception of the probe leaves [suggest]. *)
Theorem suggest_probe_failure (self : Facet) (enabled cols : list string)
    (acc : list suggestion) (column : string) :
  column ∉ enabled →
  (probe_failed (array_probe self column) →
   for_each (ArrayFacet.suggest_body self enabled) acc (column :: cols)
   = for_each (ArrayFacet.suggest_body self enabled) acc cols)
  ∧ (probe_failed (date_probe self column) →
     for_each (DateFacet.suggest_body self enabled) acc (column :: cols)
     = for_each (DateFacet.suggest_body self enabled) acc cols)
  ∧ (∀ rc,
       column_probe self column = Raise QueryInterrupted →
       for_each (ColumnFacet.suggest_body self rc (facet_size self) enabled) acc
         (column :: cols)
       = for_each (ColumnFacet.suggest_body self rc (facet_size self) enabled) acc cols)
  ∧ (∀ rc e,
       column_probe self column = Raise e → e ≠ QueryInterrupted →
       for_each (ColumnFacet.suggest_body self rc (facet_size self) enabled) acc
         (column :: cols)
       = Raise e).
Proof.
  intros Hen. split_and!.
  - intros Hf. by rewrite for_each_cons, array_suggest_body_failed.
  - intros Hf. by rewrite for_each_cons, date_suggest_body_failed.
  - intros rc Hq. by rewrite for_each_cons, (column_suggest_body_raise _ _ _ _ _ _ Hen Hq).
  - intros rc e He Hne.
    rewrite for_each_cons, (column_suggest_body_raise _ _ _ _ _ _ Hen He).
    by destruct (decide (e = QueryInterrupted)).
Qed.

(** ** ArrayFacet.suggest *)

(** A column that is not facet-configured is proposed exactly when the
    rows of the probe are ["array"], or ["array"] followed by a null. *)
Lemma array_suggest_body_rows self enabled acc column r types :
  column ∉ enabled →
  array_probe self column = Ok r →
  observed_kinds r = Ok types →
  ArrayFacet.suggest_body self enabled acc column
  = Ok (if bool_decide (types = [VText "array"] ∨ types = [VText "array"; VNull])
        then acc ++ [array_suggestion self column] else acc).
Proof.
  intros Hen Hr Ht. unfold ArrayFacet.suggest_body. fold (array_probe self column).
  rewrite bool_decide_eq_false_2 by done. rewrite Hr. simpl.
  unfold observed_kinds in Ht. rewrite Ht. simpl.
  unfold ArrayFacet.types_test. by case_bool_decide.
Qed.

End SuggestProbes.

Lemma result_bind_ok {A B : Type} (a : A) (f : A → result B) : (Ok a ≫= f) = f a.
Proof. reflexivity. Qed.

Lemma result_bind_raise {A B : Type} (e : exn) (f : A → result B) :
  (Raise e ≫= f) = Raise e.
Proof. reflexivity. Qed.

(** ** load_facet_configs *)

Lemma parse_qs_add_head name val k vs rest :
  ∃ vs' rest', parse_qs_add name val ((k, vs) :: rest) = (k, vs ++ vs') :: rest'.
Proof.
  simpl. case_decide.
  - by exists [val], rest.
  - exists [], (parse_qs_add name val rest). by rewrite app_nil_r.
Qed.

Lemma parse_qs_add_fresh name val parsed :
  name ∉ parsed.*1 → parse_qs_add name val parsed = parsed ++ [(name, [val])].
Proof.
  induction parsed as [|[k vs] parsed IH]; intros Hn; [reflexivity|].
  cbn [parse_qs_add]. rewrite fmap_cons, not_elem_of_cons in Hn.
  destruct Hn as [Hk Hn]. simpl in Hk.
  destruct (decide (k = name)) as [->|_]; [done|]. by rewrite IH.
Qed.

Lemma parse_qs_add_keys_subseteq name val parsed k :
  k ∈ (parse_qs_add name val parsed).*1 → k = name ∨ k ∈ parsed.*1.
Proof.
  induction parsed as [|[k' vs] parsed IH]; cbn [parse_qs_add].
  - rewrite fmap_cons, elem_of_cons, elem_of_nil. intros [->|[]]. by left.
  - destruct (decide (k' = name)) as [->|_]; rewrite !fmap_cons, !elem_of_cons; simpl.
    + tauto.
    + intros [->|Hk]; [tauto|]. destruct (IH Hk); tauto.
Qed.

Lemma parse_qs_foldl_keys pairs : ∀ parsed k,
  k ∈ (foldl (fun parsed kv => parse_qs_add kv.1 kv.2 parsed) parsed pairs).*1 →
  k ∈ parsed.*1 ∨ k ∈ pairs.*1.
Proof.
  induction pairs as [|[name val] pairs IH]; intros parsed k; cbn [foldl fst snd].
  - by left.
  - intros Hk. rewrite fmap_cons, elem_of_cons. simpl.
    destruct (IH _ _ Hk) as [Hk'|Hk']; [|tauto].
    destruct (parse_qs_add_keys_subseteq _ _ _ _ Hk'); tauto.
Qed.

Lemma parse_qs_add_middle name val A k vs B :
  ∃ A' vs' B', parse_qs_add name val (A ++ (k, vs) :: B) = A' ++ (k, vs ++ vs') :: B'
               ∧ A'.*1 = A.*1.
Proof.
  induction A as [|[k' vs0] A IH].
  - rewrite app_nil_l. destruct (parse_qs_add_head name val k vs B) as (vs'&B'&->).
    by exists [], vs', B'.
  - cbn [app parse_qs_add]. destruct (decide (k' = name)) as [->|_].
    + exists ((name, vs0 ++ [val]) :: A), [], B. by rewrite app_nil_r.
    + destruct IH as (A'&vs'&B'&->&HA). exists ((k', vs0) :: A'), vs', B'.
      split; [done|]. by rewrite !fmap_cons, HA.
Qed.

Lemma parse_qs_foldl_middle pairs : ∀ A k vs B,
  ∃ A' vs' B',
    foldl (fun parsed kv => parse_qs_add kv.1 kv.2 parsed) (A ++ (k, vs) :: B) pairs
    = A' ++ (k, vs ++ vs') :: B'
    ∧ A'.*1 = A.*1.
Proof.
  induction pairs as [|[name val] pairs IH]; intros A k vs B; cbn [foldl fst snd].
  - exists A, [], B. by rewrite app_nil_r.
  - destruct (parse_qs_add_middle name val A k vs B) as (A1&vs1&B1&->&HA1).
    destruct (IH A1 k (vs ++ vs1) B1) as (A2&vs2&B2&->&HA2).
    exists A2, (vs1 ++ vs2), B2. rewrite app_assoc. split; [done|]. congruence.
Qed.

(** The groups of [parse_qs] that come before the group of a key are those
    of the keys before its first occurrence. *)
Lemma parse_qs_first_occurrence pre k v post :
  k ∉ pre.*1 →
  ∃ before vs after,
    parse_qs (pre ++ (k, v) :: post) = before ++ (k, v :: vs) :: after
    ∧ (∀ k', k' ∈ before.*1 → k' ∈ pre.*1).
Proof.
  intros Hk. unfold parse_qs. rewrite foldl_app. cbn [foldl fst snd].
  set (X := foldl (fun parsed kv => parse_qs_add kv.1 kv.2 parsed) [] pre).
  assert (HX : ∀ k', k' ∈ X.*1 → k' ∈ pre.*1).
  { intros k' Hk'. apply parse_qs_foldl_keys in Hk' as [Hnil|?]; [|done].
    by apply elem_of_nil in Hnil. }
  rewrite parse_qs_add_fresh by (intros Hin; by apply Hk, HX).
  destruct (parse_qs_foldl_middle post X k [v] []) as (A'&vs'&B'&->&HA).
  exists A', vs', B'. split; [done|]. intros k'. rewrite HA. apply HX.
Qed.

Section LoadFacetConfigsSpec.
Context `{Utils}.

(** A bare column name of the metadata is filed under "column" with the
    source "metadata". *)
Lemma metadata_body_str l s :
  metadata_body l (MetaStr s)
  = Ok (mkLocals (Some "column")
          (setdefault_append "column" (mkSC "metadata" {["simple" := s]})
             (loc_facet_configs l))).
Proof. reflexivity. Qed.

(** A dict of the metadata that is not a single-key mapping fails the
    assertion. *)
Lemma metadata_body_not_single l items :
  length items ≠ 1 → metadata_body l (MetaDict items) = Raise AssertionError.
Proof.
  intros Hlen. simpl. destruct (Nat.eqb_spec (length items) 1); [done | reflexivity].
Qed.

(** A single-key mapping passes the assertion and fails at [items()[0]]. *)
Lemma metadata_body_single l items :
  length items = 1 → metadata_body l (MetaDict items) = Raise TypeError.
Proof. intros Hlen. simpl. by rewrite Hlen. Qed.

(** A key that does not start with "_facet" is passed over. *)
Lemma key_body_skip l k vs :
  startswith k "_facet" = false → key_body l (k, vs) = Ok l.
Proof. intros Hk. unfold key_body. by rewrite Hk. Qed.

Lemma keys_loop_skip before : ∀ l,
  (∀ k, k ∈ before.*1 → startswith k "_facet" = false) →
  for_each key_body l before = Ok l.
Proof.
  induction before as [|[k vs] before IH]; intros l Hskip; [reflexivity|].
  rewrite for_each_cons, key_body_skip.
  - apply IH. intros k' Hk'. apply Hskip. rewrite fmap_cons. by apply list_elem_of_further.
  - apply Hskip. rewrite fmap_cons. apply list_elem_of_here.
Qed.

(** Bare column names followed by a single-key mapping: the call raises
    [TypeError], whatever the request and the entries that follow. *)
Lemma metadata_single_key_dict_raises request names items rest :
  length items = 1 →
  load_facet_configs request (Some ((MetaStr <$> names) ++ MetaDict items :: rest))
  = Raise TypeError.
Proof.
  intros Hlen. unfold load_facet_configs. cbn [default from_option id].
  rewrite for_each_app.
  assert (Hnames : ∀ l, ∃ l', for_each metadata_body l (MetaStr <$> names) = Ok l').
  { induction names as [|n names IH]; intros l; [by eexists|].
    rewrite fmap_cons, for_each_cons, metadata_body_str. apply IH. }
  destruct (Hnames (mkLocals None ∅)) as (l'&->).
  by rewrite result_bind_ok, for_each_cons, metadata_body_single.
Qed.

(** Bare column names alone: every entry comes out under "column" with the
    source "metadata", in the order of the metadata. *)
Lemma metadata_names_configs request names :
  (∀ kv, kv ∈ req_pairs request → startswith kv.1 "_facet" = false) →
  names ≠ [] →
  load_facet_configs request (Some (MetaStr <$> names))
  = Ok {["column" := (fun n => mkSC "metadata" {["simple" := n]}) <$> names]}.
Proof.
  intros Hreq Hne. unfold load_facet_configs. cbn [default from_option id].
  assert (Hloop : ∀ ns ty acc,
            for_each metadata_body
              (mkLocals ty {["column" := acc]}) (MetaStr <$> ns)
            = Ok (mkLocals (if ns is [] then ty else Some "column")
                    {["column" := acc ++ ((fun n => mkSC "metadata" {["simple" := n]}) <$> ns)]})).
  { induction ns as [|n ns IH]; intros ty acc.
    - by rewrite app_nil_r.
    - rewrite fmap_cons, for_each_cons, metadata_body_str, result_bind_ok.
      unfold setdefault_append. cbn [loc_facet_configs].
      rewrite lookup_singleton_eq, insert_singleton_eq. cbn [default from_option id].
      rewrite IH. rewrite fmap_cons, <- app_assoc. simpl. by destruct ns. }
  destruct names as [|n names]; [done|].
  rewrite fmap_cons, for_each_cons, metadata_body_str, result_bind_ok.
  unfold setdefault_append. cbn [loc_facet_configs].
  rewrite lookup_empty, insert_empty. cbn [default from_option id app].
  rewrite Hloop, result_bind_ok.
  rewrite keys_loop_skip; [reflexivity|].
  intros k Hk. apply list_elem_of_fmap in Hk as ([k' vs]&->&Hin).
  assert (Hk' : k' ∈ (req_pairs request).*1).
  { assert (Hin' : k' ∈ (parse_qs (req_pairs request)).*1)
      by (apply list_elem_of_fmap; by exists (k', vs)).
    unfold parse_qs in Hin'. apply parse_qs_foldl_keys in Hin' as [Hnil|?]; [|done].
    by apply elem_of_nil in Hnil. }
  apply list_elem_of_fmap in Hk' as (kv&->&Hkv). by apply Hreq.
Qed.

Lemma value_body_unbound l val cfg :
  request_config val = Ok cfg → loc_type l = None →
  value_body l val = Raise UnboundLocalError.
Proof.
  intros Hcfg Hty. unfold value_body. fold (request_config val).
  rewrite Hcfg. simpl. unfold read_type. by rewrite Hty.
Qed.

Lemma value_body_bound ty fc val cfg :
  request_config val = Ok cfg →
  value_body (mkLocals (Some ty) fc) val
  = Ok (mkLocals (Some ty) (setdefault_append ty (mkSC "request" cfg) fc)).
Proof.
  intros Hcfg. unfold value_body. fold (request_config val). by rewrite Hcfg.
Qed.

Lemma values_loop_bound ty values : ∀ fc cfgs,
  mapM request_config values = Ok cfgs →
  for_each value_body (mkLocals (Some ty) fc) values
  = Ok (mkLocals (Some ty)
          (foldl (fun fc cfg => setdefault_append ty (mkSC "request" cfg) fc) fc cfgs)).
Proof.
  induction values as [|val values IH]; intros fc cfgs.
  - by intros [= <-].
  - cbn [mapM]. rewrite for_each_cons.
    destruct (request_config val) as [cfg|e] eqn:Hcfg; simpl; [|discriminate].
    destruct (mapM request_config values) as [cfgs'|e] eqn:Hm; simpl; [|discriminate].
    intros [= <-]. rewrite (value_body_bound _ _ _ _ Hcfg). simpl. by apply IH.
Qed.

(** C10, as the code has it: a key that starts with "_facet" and is
    neither "_facet" nor prefixed by "_facet_" leaves the variable [type] as
    it is.  When nothing has assigned [type] before (no facet entry of the
    metadata, no earlier "_facet" or "_facet_..." key), filing the first
    value of the key raises the unbound-variable error; when [type] has been
    assigned, by the last facet entry of the metadata or by an earlier key,
    the configs of the key are filed under that type. *)
Theorem stray_facet_key (l : lfc_locals) (key : string) (values : list string) :
  startswith key "_facet" = true →
  key ≠ "_facet" →
  startswith key "_facet_" = false →
  assign_type l key = l
  ∧ (∀ val vals cfg,
       values = val :: vals → request_config val = Ok cfg → loc_type l = None →
       key_body l (key, values) = Raise UnboundLocalError)
  ∧ (∀ ty cfgs,
       loc_type l = Some ty → mapM request_config values = Ok cfgs →
       key_body l (key, values)
       = Ok (mkLocals (Some ty)
               (foldl (fun fc cfg => setdefault_append ty (mkSC "request" cfg) fc)
                  (loc_facet_configs l) cfgs)))
  ∧ (∀ request table_metadata pre val post cfg,
       default [] table_metadata = [] →
       req_pairs request = pre ++ (key, val) :: post →
       (∀ kv, kv ∈ pre → startswith kv.1 "_facet" = false) →
       request_config val = Ok cfg →
       load_facet_configs request table_metadata = Raise UnboundLocalError).
Proof.
  intros Hpre Hne Hpre'.
  assert (Hassign : ∀ l', assign_type l' key = l').
  { intros l'. unfold assign_type.
    destruct (decide (key = "_facet")); [done|]. by rewrite Hpre'. }
  assert (Hkey : ∀ l' vs, key_body l' (key, vs) = for_each value_body l' vs).
  { intros l' vs. unfold key_body. by rewrite Hpre, Hassign. }
  split_and!.
  - apply Hassign.
  - intros val vals cfg -> Hcfg Hty.
    by rewrite Hkey, for_each_cons, (value_body_unbound _ _ _ Hcfg Hty).
  - intros ty cfgs Hty Hm. rewrite Hkey.
    destruct l as [lty fc]. simpl in Hty. subst lty. by apply values_loop_bound.
  - intros request table_metadata pre val post cfg Hmeta Hpairs Hskip Hcfg.
    unfold load_facet_configs. rewrite Hmeta, Hpairs.
    destruct (parse_qs_first_occurrence pre key val post)
      as (before&vs&after&->&Hbefore).
    { intros (kv&Hk&Hin)%list_elem_of_fmap. apply Hskip in Hin.
      rewrite <- Hk, Hpre in Hin. discriminate. }
    cbn [for_each]. rewrite result_bind_ok, for_each_app.
    rewrite keys_loop_skip.
    2:{ intros k (kv&->&Hin)%Hbefore%list_elem_of_fmap. by apply Hskip. }
    rewrite result_bind_ok, for_each_cons, Hkey, for_each_cons.
    by rewrite (value_body_unbound _ _ cfg).
Qed.

End LoadFacetConfigsSpec.

(** ** ManyToManyFacet *)
Section ManyToMany.
Context `{Utils}.

Lemma m2m_suggest_body_step self all args acc fk out :
  ManyToManyFacet.outgoing_of all (fk_other_table fk) = Ok out →
  ManyToManyFacet.suggest_body self all args acc fk
  = if (length out =? 2)%nat then
      match list_first (other_edges (f_table self) out) with
      | Ok t =>
          if bool_decide (("_facet_m2m", fk_other_table t) ∈ args) then Ok acc
          else Ok (acc ++ [m2m_suggestion self (fk_other_table t)])
      | Raise e => Raise e
      end
    else Ok acc.
Proof.
  intros Hout. unfold ManyToManyFacet.suggest_body. rewrite Hout. simpl.
  destruct (length out =? 2)%nat; [|reflexivity].
  fold (other_edges (f_table self) out).
  by destruct (list_first (other_edges (f_table self) out)).
Qed.

(** A table that has not exactly two outgoing edges is skipped. *)
Lemma m2m_suggest_body_not_junction self all args acc fk out :
  ManyToManyFacet.outgoing_of all (fk_other_table fk) = Ok out →
  length out ≠ 2 →
  ManyToManyFacet.suggest_body self all args acc fk = Ok acc.
Proof.
  intros Hout Hlen. rewrite (m2m_suggest_body_step _ _ _ _ _ _ Hout).
  by destruct (Nat.eqb_spec (length out) 2).
Qed.

(** A junction whose two edges both target the base table has no "other"
    edge, and [[...][0]] raises. *)
Lemma m2m_suggest_body_self_junction self all args acc fk a b :
  ManyToManyFacet.outgoing_of all (fk_other_table fk) = Ok [a; b] →
  Some (fk_other_table a) = f_table self →
  Some (fk_other_table b) = f_table self →
  ManyToManyFacet.suggest_body self all args acc fk = Raise IndexError.
Proof.
  intros Hout Ha Hb. rewrite (m2m_suggest_body_step _ _ _ _ _ _ Hout). simpl.
  unfold other_edges. rewrite filter_cons_False by (intros Hn; by apply Hn).
  rewrite filter_cons_False by (intros Hn; by apply Hn). reflexivity.
Qed.

Lemma junction_towards_first base out dest :
  junction_towards base out dest → Some dest ≠ base →
  ∃ t, list_first (other_edges base out) = Ok t ∧ fk_other_table t = dest
       ∧ length out = 2.
Proof.
  intros (a&b&Hout&Ha&Hb) Hne. exists b. unfold other_edges.
  assert (Hb' : Some (fk_other_table b) ≠ base) by (by rewrite Hb).
  destruct Hout as [-> | ->].
  - rewrite filter_cons_False by (intros Hn; by apply Hn).
    by rewrite filter_cons_True.
  - by rewrite filter_cons_True.
Qed.

Lemma first_junction_towards base out t :
  length out = 2 →
  (∃ o, o ∈ out ∧ Some (fk_other_table o) = base) →
  list_first (other_edges base out) = Ok t →
  junction_towards base out (fk_other_table t) ∧ Some (fk_other_table t) ≠ base.
Proof.
  intros Hlen (o&Ho&Hbase) Hfirst.
  destruct out as [|x [|y [|z out]]]; try discriminate. unfold other_edges in Hfirst.
  destruct (decide (Some (fk_other_table x) = base)) as [Hx|Hx].
  - rewrite filter_cons_False in Hfirst by (intros Hn; by apply Hn).
    destruct (decide (Some (fk_other_table y) = base)) as [Hy|Hy].
    + rewrite filter_cons_False in Hfirst by (intros Hn; by apply Hn). discriminate.
    + rewrite filter_cons_True in Hfirst by done. injection Hfirst as <-.
      split; [|done]. exists x, y. eauto.
  - rewrite filter_cons_True in Hfirst by done. injection Hfirst as <-.
    split; [|done]. exists y, x. split; [by right|]. split; [|done].
    apply elem_of_cons in Ho as [->|Ho]; [done|].
    apply list_elem_of_singleton in Ho as ->. done.
Qed.

Lemma m2m_suggest_loop self all args incoming : ∀ acc L,
  for_each (ManyToManyFacet.suggest_body self all args) acc incoming = Ok L →
  ∀ dest, dest ∈ sug_name <$> L ↔
    dest ∈ sug_name <$> acc ∨
    ∃ fk out t, fk ∈ incoming
      ∧ ManyToManyFacet.outgoing_of all (fk_other_table fk) = Ok out
      ∧ length out = 2
      ∧ list_first (other_edges (f_table self) out) = Ok t
      ∧ fk_other_table t = dest
      ∧ ("_facet_m2m", dest) ∉ args.
Proof.
  induction incoming as [|fk incoming IH]; intros acc L.
  - intros [= <-] dest. split; [auto|]. intros [?|(?&?&?&Hin&_)]; [done|].
    by apply elem_of_nil in Hin.
  - rewrite for_each_cons.
    destruct (ManyToManyFacet.outgoing_of all (fk_other_table fk)) as [out|e] eqn:Hout.
    2:{ unfold ManyToManyFacet.suggest_body. rewrite Hout. discriminate. }
    rewrite (m2m_suggest_body_step _ _ _ _ _ _ Hout).
    destruct (Nat.eqb_spec (length out) 2) as [Hlen|Hlen].
    + destruct (list_first (other_edges (f_table self) out)) as [t|e] eqn:Ht;
        [|discriminate].
      case_bool_decide as Hsel; simpl; intros HL dest; rewrite (IH _ _ HL dest).
      * split.
        -- intros [?|(fk'&out'&t'&Hin&?)]; [by left|]. right.
           exists fk', out', t'. split; [by apply list_elem_of_further|done].
        -- intros [?|(fk'&out'&t'&Hin&Hout'&Hlen'&Ht'&Hd&Hns)]; [by left|].
           apply elem_of_cons in Hin as [->|Hin].
           ++ rewrite Hout in Hout'. injection Hout' as <-.
              rewrite Ht in Ht'. injection Ht' as <-. by subst dest.
           ++ right. exists fk', out', t'. done.
      * rewrite fmap_app, elem_of_app. simpl. rewrite list_elem_of_singleton. split.
        -- intros [[?| ->]|(fk'&out'&t'&Hin&?)]; [by left| |].
           ++ right. exists fk, out, t. split; [apply list_elem_of_here|done].
           ++ right. exists fk', out', t'. split; [by apply list_elem_of_further|done].
        -- intros [?|(fk'&out'&t'&Hin&Hout'&Hlen'&Ht'&Hd&Hns)]; [by left; left|].
           apply elem_of_cons in Hin as [->|Hin].
           ++ rewrite Hout in Hout'. injection Hout' as <-.
              rewrite Ht in Ht'. injection Ht' as <-. left. by right.
           ++ right. exists fk', out', t'. done.
    + simpl. intros HL dest. rewrite (IH _ _ HL dest). split.
      * intros [?|(fk'&out'&t'&Hin&?)]; [by left|]. right.
        exists fk', out', t'. split; [by apply list_elem_of_further|done].
      * intros [?|(fk'&out'&t'&Hin&Hout'&Hlen'&?)]; [by left|].
        apply elem_of_cons in Hin as [->|Hin].
        -- rewrite Hout in Hout'. injection Hout' as <-. done.
        -- right. exists fk', out', t'. done.
Qed.

(** A base table without an entry in the foreign-key graph gets no
    suggestion. *)
Lemma m2m_suggest_no_entry self :
  ManyToManyFacet.fk_get (ds_get_all_foreign_keys (f_ds self) (f_database self))
    (f_table self) = None →
  ManyToManyFacet.suggest self = Ok [].
Proof. intros Hget. unfold ManyToManyFacet.suggest. by rewrite Hget. Qed.

(** X19: when [suggest] returns, it proposes the tables behind the
    junctions of the base table, other than the base table itself, that
    the query string has not selected. *)
Lemma m2m_suggest_destinations self entry L :
  let all := ds_get_all_foreign_keys (f_ds self) (f_database self) in
  ManyToManyFacet.fk_get all (f_table self) = Some entry →
  (∀ fk out, fk ∈ tfk_incoming entry →
     ManyToManyFacet.outgoing_of all (fk_other_table fk) = Ok out →
     ∃ o, o ∈ out ∧ Some (fk_other_table o) = f_table self) →
  ManyToManyFacet.suggest self = Ok L →
  ∀ dest, dest ∈ sug_name <$> L ↔
    Some dest ≠ f_table self
    ∧ (("_facet_m2m", dest) ∉ req_pairs (f_request self))
    ∧ ∃ fk out, fk ∈ tfk_incoming entry
        ∧ ManyToManyFacet.outgoing_of all (fk_other_table fk) = Ok out
        ∧ junction_towards (f_table self) out dest.
Proof.
  intros all Hget Hcons. unfold ManyToManyFacet.suggest. fold all. rewrite Hget.
  intros HL dest. rewrite (m2m_suggest_loop _ _ _ _ _ _ HL dest). simpl. split.
  - intros [Hnil|(fk&out&t&Hin&Hout&Hlen&Ht&<-&Hns)]; [by apply elem_of_nil in Hnil|].
    destruct (first_junction_towards _ _ _ Hlen (Hcons _ _ Hin Hout) Ht) as (Hj&Hne).
    split; [done|]. split; [done|]. eauto.
  - intros (Hne&Hns&fk&out&Hin&Hout&Hj). right.
    destruct (junction_towards_first _ _ _ Hj Hne) as (t&Ht&Hd&Hlen).
    exists fk, out, t. done.
Qed.


End ManyToMany.

(** ** The [_through] token *)
Section ThroughToken.
Import Json Through.

Lemma scan_replace c tl :
  scan_string (replace c +:+ tl) = cons_char c (scan_string tl).
Proof. destruct c as [[] [] [] [] [] [] [] []]; reflexivity. Qed.

Lemma append_assoc' (a b c : string) : (a +:+ b) +:+ c = a +:+ (b +:+ c).
Proof.
  induction a as [|x a IH]; [reflexivity|].
  change (String x ((a +:+ b) +:+ c) = String x (a +:+ (b +:+ c))). by rewrite IH.
Qed.

Lemma app_String (x : ascii) (a b : string) : String x a +:+ b = String x (a +:+ b).
Proof. reflexivity. Qed.

Lemma app_Empty (b : string) : "" +:+ b = b.
Proof. reflexivity. Qed.

Lemma scan_escape s rest :
  scan_string (escape s +:+ String quote rest) = Some (s, rest).
Proof.
  induction s as [|c s IH]; [reflexivity|].
  cbn [escape]. by rewrite append_assoc', scan_replace, IH.
Qed.

Lemma enc_append s rest : encode_basestring_ascii s +:+ rest = qstr s rest.
Proof.
  unfold encode_basestring_ascii, qstr.
  by rewrite app_String, append_assoc', app_String, app_Empty.
Qed.

Lemma parse_str_qstr s rest : parse_str (qstr s rest) = Some (s, rest).
Proof. unfold qstr. simpl. apply scan_escape. Qed.

Lemma through_text t c v :
  ManyToManyFacet.through t c v
  = String "{" (qstr "column" (String ":" (qstr c (String ","
      (qstr "table" (String ":" (qstr t (String ","
         (qstr "value" (String ":" (qstr v "}"))))))))))).
Proof.
  unfold ManyToManyFacet.through, dumps.
  change (sort_items [("table", t); ("column", c); ("value", v)])
    with [("column", c); ("table", t); ("value", v)].
  cbn [fmap list_fmap String.concat dumps_item fst snd].
  unfold dumps_item. cbn [fst snd].
  rewrite !append_assoc', !enc_append. reflexivity.
Qed.

Lemma skip_ws_qstr s rest : skip_ws (qstr s rest) = qstr s rest.
Proof. reflexivity. Qed.

Lemma skip_ws_stop x rest : is_ws x = false → skip_ws (String x rest) = String x rest.
Proof. intros Hx. cbn [skip_ws]. by rewrite Hx. Qed.

Lemma parse_member_qstr k v x rest :
  is_ws x = false →
  parse_member (qstr k (String ":" (qstr v (String x rest))))
  = Some ((k, v), String x rest).
Proof.
  intros Hx. unfold parse_member.
  rewrite skip_ws_qstr, parse_str_qstr. cbn [mbind option_bind].
  rewrite (skip_ws_stop ":") by reflexivity.
  change (Ascii.eqb ":" ":") with true. cbn iota.
  rewrite skip_ws_qstr, parse_str_qstr. cbn [mbind option_bind].
  by rewrite (skip_ws_stop x).
Qed.

Lemma length_app_String a x b :
  String.length (a +:+ String x b) = S (String.length (a +:+ b)).
Proof.
  induction a as [|y a IH]; [reflexivity|].
  rewrite !app_String. cbn [String.length]. by rewrite IH.
Qed.

Lemma length_qstr s rest :
  String.length (qstr s rest) = S (S (String.length (escape s +:+ rest))).
Proof. unfold qstr. cbn [String.length]. by rewrite length_app_String. Qed.

(** The three members of a token, read with enough fuel. *)
Lemma parse_members_through fuel t c v :
  parse_members (S (S (S fuel)))
    (qstr "column" (String ":" (qstr c (String ","
       (qstr "table" (String ":" (qstr t (String ","
          (qstr "value" (String ":" (qstr v "}"))))))))))) []
  = Some ([("column", c); ("table", t); ("value", v)], "").
Proof.
  cbn [parse_members].
  rewrite parse_member_qstr by reflexivity. cbn [mbind option_bind].
  change (Ascii.eqb "," ",") with true. cbn iota.
  rewrite parse_member_qstr by reflexivity. cbn [mbind option_bind].
  change (Ascii.eqb "," ",") with true. cbn iota.
  rewrite parse_member_qstr by reflexivity. cbn [mbind option_bind].
  reflexivity.
Qed.

Lemma loads_object k rest :
  loads (String "{" (qstr k rest))
  = '(items, rest') ← parse_members (String.length (String "{" (qstr k rest)))
                        (qstr k rest) [];
    match skip_ws rest' with
    | EmptyString => Some items
    | _ => None
    end.
Proof. reflexivity. Qed.

Lemma loads_through t c v :
  loads (ManyToManyFacet.through t c v)
  = Some [("column", c); ("table", t); ("value", v)].
Proof.
  rewrite through_text, loads_object. cbn [String.length]. rewrite length_qstr.
  rewrite parse_members_through. reflexivity.
Qed.

Lemma through_roundtrip t c v :
  Through.parse_through (ManyToManyFacet.through t c v) = Some (t, c, v).
Proof. unfold Through.parse_through. by rewrite loads_through. Qed.

(** C8: the token of a triple is the object with the keys "column", "table"
    and "value" in this order and no blank between its parts; reading the
    token back gives the triple, and the tokens of two triples are equal
    only when the triples are, so two values never share a token. *)
Theorem through_token_roundtrip (t c v : string) :
  ManyToManyFacet.through t c v
  = String "{" (qstr "column" (String ":" (qstr c (String ","
      (qstr "table" (String ":" (qstr t (String ","
         (qstr "value" (String ":" (qstr v "}")))))))))))
  ∧ Through.parse_through (ManyToManyFacet.through t c v) = Some (t, c, v)
  ∧ (∀ t' c' v',
       ManyToManyFacet.through t c v = ManyToManyFacet.through t' c' v' →
       t = t' ∧ c = c' ∧ v = v').
Proof.
  split_and!.
  - apply through_text.
  - apply through_roundtrip.
  - intros t' c' v' Heq.
    pose proof (through_roundtrip t c v) as H1.
    rewrite Heq, through_roundtrip in H1. by injection H1 as -> -> ->.
Qed.

End ThroughToken.


(** * Further properties of the module *)

(** ** parse_qs and filters on keys *)
Section ParseQsFilter.
Variable P : string → Prop.
Context `{∀ k, Decision (P k)}.

Local Abbreviation keep := (filter (fun kv : string * list string => P kv.1)).

Lemma parse_qs_add_filter_in name val parsed :
  P name → keep (parse_qs_add name val parsed) = parse_qs_add name val (keep parsed).
Proof.
  intros HP. induction parsed as [|[k vs] parsed IH].
  - cbn [parse_qs_add]. by rewrite filter_cons_True.
  - cbn [parse_qs_add]. destruct (decide (k = name)) as [->|Hne].
    + rewrite !filter_cons_True by done. cbn [parse_qs_add].
      by rewrite decide_True.
    + destruct (decide (P k)) as [Hk|Hk].
      * rewrite !filter_cons_True by done. cbn [parse_qs_add].
        by rewrite decide_False, IH.
      * by rewrite !filter_cons_False.
Qed.

Lemma parse_qs_add_filter_out name val parsed :
  ¬ P name → keep (parse_qs_add name val parsed) = keep parsed.
Proof.
  intros HP. induction parsed as [|[k vs] parsed IH].
  - cbn [parse_qs_add]. by rewrite filter_cons_False.
  - cbn [parse_qs_add]. destruct (decide (k = name)) as [->|Hne].
    + by rewrite !filter_cons_False.
    + destruct (decide (P k)) as [Hk|Hk].
      * by rewrite !filter_cons_True, IH.
      * by rewrite !filter_cons_False.
Qed.

Lemma parse_qs_foldl_filter pairs : ∀ parsed,
  keep (foldl (fun parsed kv => parse_qs_add kv.1 kv.2 parsed) parsed pairs)
  = foldl (fun parsed kv => parse_qs_add kv.1 kv.2 parsed) (keep parsed)
      (filter (fun kv : string * string => P kv.1) pairs).
Proof.
  induction pairs as [|[name val] pairs IH]; intros parsed; [reflexivity|].
  cbn [foldl fst snd]. rewrite IH. destruct (decide (P name)) as [Hn|Hn].
  - rewrite filter_cons_True by done. cbn [foldl fst snd].
    by rewrite parse_qs_add_filter_in.
  - rewrite filter_cons_False by done. by rewrite parse_qs_add_filter_out.
Qed.

(** Grouping the pairs of the selected keys gives the selected groups. *)
Lemma parse_qs_filter pairs :
  parse_qs (filter (fun kv : string * string => P kv.1) pairs) = keep (parse_qs pairs).
Proof. unfold parse_qs. by rewrite parse_qs_foldl_filter. Qed.
End ParseQsFilter.

Section RequestKeys.
Context `{Utils}.

Lemma keys_loop_filter qs : ∀ l,
  for_each key_body l (filter (fun kv : string * list string => startswith kv.1 "_facet" = true) qs)
  = for_each key_body l qs.
Proof.
  induction qs as [|[k vs] qs IH]; intros l; [reflexivity|].
  destruct (startswith k "_facet") eqn:Hk.
  - rewrite filter_cons_True by done. rewrite !for_each_cons.
    destruct (key_body l (k, vs)); simpl; [apply IH | reflexivity].
  - rewrite filter_cons_False by (simpl; congruence).
    rewrite for_each_cons, key_body_skip by done. apply IH.
Qed.

Lemma load_facet_configs_filter (request : Request)
    (table_metadata : option (list metadata_entry)) :
  load_facet_configs request table_metadata
  = load_facet_configs
      (mkRequest (req_path request) (filter facet_key (req_pairs request)))
      table_metadata.
Proof.
  unfold load_facet_configs. cbn [req_pairs].
  destruct (for_each metadata_body _ _) as [l|e]; [|reflexivity].
  rewrite !result_bind_ok.
  assert (Hqs : parse_qs (filter facet_key (req_pairs request))
                = filter (fun kv : string * list string => startswith kv.1 "_facet" = true)
                    (parse_qs (req_pairs request)))
    by exact (parse_qs_filter (fun k => startswith k "_facet" = true) (req_pairs request)).
  by rewrite Hqs, keys_loop_filter.
Qed.

(** X1: the path of the request and the pairs of the query string whose key
    does not start with "_facet" play no part: two requests with the same
    "_facet..." pairs, in the same order, give the same configs or the same
    exception. *)
Theorem load_facet_configs_other_keys (request1 request2 : Request)
    (table_metadata : option (list metadata_entry)) :
  filter facet_key (req_pairs request1) = filter facet_key (req_pairs request2) →
  load_facet_configs request1 table_metadata
  = load_facet_configs request2 table_metadata.
Proof.
  intros Hsame.
  rewrite (load_facet_configs_filter request1), (load_facet_configs_filter request2).
  by rewrite Hsame.
Qed.
End RequestKeys.

Lemma file_all_lookup ty entries : ∀ fc,
  entries ≠ [] →
  file_all ty entries fc !! ty = Some (default [] (fc !! ty) ++ entries).
Proof.
  induction entries as [|e entries IH]; intros fc Hne; [done|].
  unfold file_all. cbn [foldl]. fold (file_all ty entries (setdefault_append ty e fc)).
  destruct entries as [|e' entries].
  - unfold file_all. cbn [foldl]. unfold setdefault_append. by rewrite lookup_insert_eq.
  - rewrite IH by done. unfold setdefault_append at 1. rewrite lookup_insert_eq.
    cbn [default from_option id]. by rewrite <- app_assoc.
Qed.

Lemma file_all_lookup_ne ty ty' entries : ∀ fc,
  ty' ≠ ty → file_all ty entries fc !! ty' = fc !! ty'.
Proof.
  induction entries as [|e entries IH]; intros fc Hne; [reflexivity|].
  unfold file_all. cbn [foldl]. fold (file_all ty entries (setdefault_append ty e fc)).
  rewrite IH by done. unfold setdefault_append. by rewrite lookup_insert_ne.
Qed.

Lemma file_all_singleton ty entries : ∀ xs,
  file_all ty entries {[ty := xs]} = {[ty := xs ++ entries]}.
Proof.
  induction entries as [|e entries IH]; intros xs.
  - by rewrite app_nil_r.
  - unfold file_all. cbn [foldl]. unfold setdefault_append at 2.
    rewrite lookup_singleton_eq, insert_singleton_eq. cbn [default from_option id].
    fold (file_all ty entries {[ty := xs ++ [e]]}). by rewrite IH, <- app_assoc.
Qed.

Lemma file_all_empty ty e entries :
  file_all ty (e :: entries) ∅ = {[ty := e :: entries]}.
Proof.
  unfold file_all. cbn [foldl]. unfold setdefault_append at 2.
  rewrite lookup_empty, insert_empty. cbn [default from_option id app].
  fold (file_all ty entries {[ty := [e]]}). by rewrite file_all_singleton.
Qed.

Lemma parse_qs_add_same k v vs :
  parse_qs_add k v [(k, vs)] = [(k, vs ++ [v])].
Proof. cbn [parse_qs_add]. by rewrite decide_True. Qed.

Lemma parse_qs_foldl_same k vals : ∀ vs,
  foldl (fun parsed kv => parse_qs_add kv.1 kv.2 parsed) [(k, vs)] ((fun v => (k, v)) <$> vals)
  = [(k, vs ++ vals)].
Proof.
  induction vals as [|v vals IH]; intros vs.
  - by rewrite app_nil_r.
  - rewrite fmap_cons. cbn [foldl fst snd]. rewrite parse_qs_add_same, IH.
    by rewrite <- app_assoc.
Qed.

(** The pairs of one key form one group, values in order. *)
Lemma parse_qs_same_key k v vals :
  parse_qs ((fun v => (k, v)) <$> (v :: vals)) = [(k, v :: vals)].
Proof.
  unfold parse_qs. rewrite fmap_cons. cbn [foldl fst snd parse_qs_add].
  by rewrite parse_qs_foldl_same.
Qed.

Lemma pairs_same_key (k : string) (pairs : list (string * string)) :
  (∀ kv, kv ∈ pairs → kv.1 = k) → pairs = (fun v => (k, v)) <$> pairs.*2.
Proof.
  induction pairs as [|[k' v] pairs IH]; intros Hk; [reflexivity|].
  rewrite !fmap_cons. cbn [snd]. f_equal.
  - f_equal. apply (Hk (k', v)), list_elem_of_here.
  - apply IH. intros kv Hin. by apply Hk, list_elem_of_further.
Qed.

Lemma typed_key_prefix ty : startswith ("_facet_" +:+ ty) "_facet" = true.
Proof. reflexivity. Qed.

Lemma typed_key_prefix' ty : startswith ("_facet_" +:+ ty) "_facet_" = true.
Proof. unfold startswith. cbn. by destruct ty. Qed.

Lemma typed_key_ne ty : "_facet_" +:+ ty ≠ "_facet".
Proof. discriminate. Qed.

Lemma typed_key_type ty : str_from (String.length "_facet_") ("_facet_" +:+ ty) = ty.
Proof. reflexivity. Qed.

Section ConfigOrder.
Context `{Utils}.

Lemma values_loop_file ty values fc cfgs :
  mapM request_config values = Ok cfgs →
  for_each value_body (mkLocals (Some ty) fc) values
  = Ok (mkLocals (Some ty) (file_all ty (request_entry <$> cfgs) fc)).
Proof.
  intros Hm. rewrite (values_loop_bound _ _ _ _ Hm). do 2 f_equal.
  unfold file_all. clear Hm. revert fc.
  induction cfgs as [|cfg cfgs IH]; intros fc; [reflexivity|].
  rewrite fmap_cons. cbn [foldl]. apply IH.
Qed.

Lemma metadata_names_loop names : ∀ ty fc,
  for_each metadata_body (mkLocals ty fc) (MetaStr <$> names)
  = Ok (mkLocals (if names is [] then ty else Some "column")
          (file_all "column" (metadata_column <$> names) fc)).
Proof.
  induction names as [|n names IH]; intros ty fc; [reflexivity|].
  rewrite fmap_cons, for_each_cons, metadata_body_str, result_bind_ok, IH.
  rewrite fmap_cons. unfold file_all at 2. cbn [foldl]. by destruct names.
Qed.

(** X2: the key "_facet" files its values under "column", and a key
    "_facet_<type>" under [<type>]: one config of source "request" per
    value, in the order of the values and after what the type holds
    already, repeated values included; the other types are left alone. *)
Theorem facet_key_files_values (l : lfc_locals) (key ty : string)
    (values : list string) (cfgs : list config) :
  (key = "_facet" ∧ ty = "column") ∨ key = "_facet_" +:+ ty →
  values ≠ [] →
  mapM request_config values = Ok cfgs →
  ∃ l', key_body l (key, values) = Ok l'
    ∧ loc_type l' = Some ty
    ∧ loc_facet_configs l' !! ty
      = Some (default [] (loc_facet_configs l !! ty) ++ (request_entry <$> cfgs))
    ∧ ∀ ty', ty' ≠ ty → loc_facet_configs l' !! ty' = loc_facet_configs l !! ty'.
Proof.
  intros Hkey Hne Hm.
  assert (Hbody : key_body l (key, values)
                  = for_each value_body (mkLocals (Some ty) (loc_facet_configs l)) values).
  { destruct Hkey as [[-> ->]| ->]; [reflexivity|].
    unfold key_body, assign_type.
    rewrite typed_key_prefix, decide_False, typed_key_prefix', typed_key_type;
      [reflexivity | apply typed_key_ne]. }
  rewrite Hbody, (values_loop_file _ _ _ _ Hm).
  eexists. split; [reflexivity|]. cbn [loc_type loc_facet_configs].
  split_and!; [reflexivity| |].
  - apply file_all_lookup. destruct values, cfgs; try done.
    apply mapM_result_length in Hm. discriminate.
  - intros ty' Hty. by apply file_all_lookup_ne.
Qed.

(** X3: bare column names in the metadata and "_facet" keys in the query
    string: "column" holds the metadata entries first, then one entry per
    value of "_facet" in the order of the query string. *)
Theorem load_facet_configs_column_order (request : Request) (names : list string)
    (cfgs : list config) :
  (∀ kv, kv ∈ req_pairs request → facet_key kv → kv.1 = "_facet") →
  mapM request_config (filter facet_key (req_pairs request)).*2 = Ok cfgs →
  names ++ (filter facet_key (req_pairs request)).*2 ≠ [] →
  load_facet_configs request (Some (MetaStr <$> names))
  = Ok {["column" := (metadata_column <$> names) ++ (request_entry <$> cfgs)]}.
Proof.
  intros Hkeys Hm Hne. rewrite load_facet_configs_filter.
  set (pairs := filter facet_key (req_pairs request)) in *.
  assert (Hpairs : pairs = (fun v => ("_facet", v)) <$> pairs.*2).
  { apply pairs_same_key. intros kv [Hf Hin]%list_elem_of_filter. by apply Hkeys. }
  unfold load_facet_configs. cbn [default from_option id req_pairs].
  rewrite metadata_names_loop, result_bind_ok, Hpairs.
  destruct (pairs.*2) as [|v vals] eqn:Hvals.
  - injection Hm as <-. rewrite app_nil_r in *. cbn [fmap list_fmap parse_qs foldl for_each].
    rewrite result_bind_ok. cbn [loc_facet_configs].
    destruct names as [|n names]; [done|]. by rewrite fmap_cons, file_all_empty.
  - rewrite parse_qs_same_key, for_each_cons.
    assert (Hbody : ∀ l, key_body l ("_facet", v :: vals)
              = for_each value_body (mkLocals (Some "column") (loc_facet_configs l))
                  (v :: vals)) by reflexivity.
    rewrite Hbody, (values_loop_file _ _ _ _ Hm). cbn [loc_facet_configs].
    cbn [for_each]. rewrite !result_bind_ok. cbn [loc_facet_configs]. f_equal.
    destruct names as [|n names].
    + destruct cfgs as [|cfg cfgs]; [apply mapM_result_length in Hm; discriminate|].
      by rewrite fmap_cons, file_all_empty.
    + by rewrite (fmap_cons _ n), file_all_empty, file_all_singleton.
Qed.
End ConfigOrder.

Section SuggestLoop.
Variable probe : string → result Results.
Variable test : Results → result bool.
Variable catches : exn → bool.
Variable mk : string → suggestion.
Variable enabled : list string.

Local Abbreviation body := (suggest_loop_body probe test catches mk enabled).
Local Abbreviation keep := (filter (fun c => proposed probe test enabled c = true)).

Lemma suggest_loop_exact cols : ∀ acc L,
  for_each body acc cols = Ok L → L = acc ++ (mk <$> keep cols).
Proof.
  induction cols as [|col cols IH]; intros acc L.
  - intros [= <-]. by rewrite app_nil_r.
  - rewrite for_each_cons.
    assert (Hstep : suggest_loop_body probe test catches mk enabled acc col
             = if proposed probe test enabled col then Ok (acc ++ [mk col])
               else match (r ← probe col; test r) with
                    | Raise e =>
                        if bool_decide (col ∈ enabled) then Ok acc
                        else if catches e then Ok acc else Raise e
                    | _ => Ok acc
                    end).
    { unfold suggest_loop_body, proposed.
      destruct (bool_decide (col ∈ enabled)); simpl.
      - by destruct (r ← probe col; test r) as [[]|e].
      - by destruct (r ← probe col; test r) as [[]|e]. }
    rewrite Hstep. destruct (proposed probe test enabled col) eqn:Hp.
    + rewrite result_bind_ok. intros HL%IH.
      rewrite filter_cons_True by done. by rewrite fmap_cons, HL, <- app_assoc.
    + rewrite filter_cons_False by congruence.
      destruct (r ← probe col; test r) as [b|e].
      * rewrite result_bind_ok. apply IH.
      * destruct (bool_decide (col ∈ enabled)); [rewrite result_bind_ok; apply IH|].
        destruct (catches e); [rewrite result_bind_ok; apply IH | discriminate].
Qed.
End SuggestLoop.

Section SuggestExact.
Context `{Utils}.

(** The [except] clause as [try_except] and as [class_catches] see it. *)
Ltac case_catch :=
  match goal with
  | |- context [decide ?P] =>
      destruct (decide P);
      [by rewrite bool_decide_eq_true_2 | by rewrite bool_decide_eq_false_2]
  end.

Lemma class_suggest_loop c self :
  class_suggest c self
  = (rc ← class_row_count c self;
     columns ← FacetBase.get_columns self (f_sql self) (f_params self);
     enabled ← FacetBase.already_enabled self (class_type c);
     for_each (suggest_loop_body (class_probe c self) (class_test c self rc)
                 (class_catches c) (class_suggestion c self) enabled) [] columns).
Proof.
  destruct c; simpl.
  - unfold ColumnFacet.suggest.
    destruct (FacetBase.get_row_count self) as [rc|e]; simpl; [|reflexivity].
    destruct (FacetBase.get_columns self _ _) as [cols|e]; simpl; [|reflexivity].
    destruct (FacetBase.already_enabled self _) as [enabled|e]; simpl; [|reflexivity].
    apply for_each_ext. intros acc col.
    unfold ColumnFacet.suggest_body, suggest_loop_body, column_probe, facet_size.
    destruct (bool_decide (col ∈ enabled)); [reflexivity|].
    destruct (ds_execute _ _ _ _ _) as [r|e]; simpl.
    + destruct (ColumnFacet.suggest_test _ _ _) as [[]|e]; simpl; try reflexivity.
      case_catch.
    + case_catch.
  - unfold ArrayFacet.suggest.
    destruct (FacetBase.get_columns self _ _) as [cols|e]; simpl; [|reflexivity].
    destruct (FacetBase.already_enabled self _) as [enabled|e]; simpl; [|reflexivity].
    apply for_each_ext. intros acc col.
    unfold ArrayFacet.suggest_body, suggest_loop_body, array_probe.
    destruct (bool_decide (col ∈ enabled)); [reflexivity|].
    destruct (ds_execute _ _ _ _ _) as [r|e]; simpl.
    + destruct (mapM row_first (res_rows r)) as [types|e]; simpl.
      * by destruct (ArrayFacet.types_test types).
      * case_catch.
    + case_catch.
  - unfold DateFacet.suggest.
    destruct (FacetBase.get_columns self _ _) as [cols|e]; simpl; [|reflexivity].
    destruct (FacetBase.already_enabled self _) as [enabled|e]; simpl; [|reflexivity].
    apply for_each_ext. intros acc col.
    unfold DateFacet.suggest_body, suggest_loop_body, date_probe.
    destruct (bool_decide (col ∈ enabled)); [reflexivity|].
    destruct (ds_execute _ _ _ _ _) as [r|e]; simpl.
    + destruct (mapM row_first (res_rows r)) as [values|e]; simpl.
      * by destruct (existsb truthy values).
      * case_catch.
    + case_catch.
Qed.

(** When [suggest] returns, its list is, in the order of the columns of the
    base query, one suggestion for each column that is not enabled and whose
    probe passes the test of the class; the toggle URL of a suggestion adds
    the column under the key of the class. *)
Lemma class_suggest_inv (c : facet_class) (self : Facet) (L : list suggestion) :
  class_suggest c self = Ok L →
  ∃ rc columns enabled,
    class_row_count c self = Ok rc
    ∧ FacetBase.get_columns self (f_sql self) (f_params self) = Ok columns
    ∧ FacetBase.already_enabled self (class_type c) = Ok enabled
    ∧ L = class_suggestion c self <$>
            filter (fun col => proposed (class_probe c self) (class_test c self rc)
                                 enabled col = true) columns.
Proof.
  rewrite class_suggest_loop.
  destruct (class_row_count c self) as [rc|e]; simpl; [|discriminate].
  destruct (FacetBase.get_columns self _ _) as [cols|e]; simpl; [|discriminate].
  destruct (FacetBase.already_enabled self _) as [enabled|e]; simpl; [|discriminate].
  intros HL%suggest_loop_exact. exists rc, cols, enabled. by rewrite HL.
Qed.
End SuggestExact.

Section SuggestProperties.
Context `{Utils}.

Lemma class_suggestion_name c self (cols : list string) :
  sug_name <$> (class_suggestion c self <$> cols) = cols.
Proof.
  rewrite <- list_fmap_compose. rewrite <- (list_fmap_id cols) at 2.
  apply list_fmap_ext. intros _ col _. by destruct c.
Qed.

Lemma class_suggest_names c self L rc columns enabled :
  class_suggest c self = Ok L →
  class_row_count c self = Ok rc →
  FacetBase.get_columns self (f_sql self) (f_params self) = Ok columns →
  FacetBase.already_enabled self (class_type c) = Ok enabled →
  sug_name <$> L
  = filter (fun col => proposed (class_probe c self) (class_test c self rc)
                         enabled col = true) columns.
Proof.
  intros (rc'&cols'&en'&Hrc&Hcols&Hen&->)%class_suggest_inv Hrc' Hcols' Hen'.
  rewrite Hrc in Hrc'. rewrite Hcols in Hcols'. rewrite Hen in Hen'.
  injection Hrc' as <-. injection Hcols' as <-. injection Hen' as <-.
  apply class_suggestion_name.
Qed.


(** X5: [DateFacet.suggest] proposes a column that is not enabled exactly when
    its probe returns and one of the sampled dates is neither null nor
    empty. *)
Theorem date_suggest_iff (self : Facet) (L : list suggestion)
    (columns enabled : list string) :
  DateFacet.suggest self = Ok L →
  FacetBase.get_columns self (f_sql self) (f_params self) = Ok columns →
  FacetBase.already_enabled self DateFacet.type = Ok enabled →
  ∀ column, column ∈ sug_name <$> L ↔
    column ∈ columns ∧ (column ∉ enabled)
    ∧ ∃ r values, date_probe self column = Ok r
        ∧ mapM row_first (res_rows r) = Ok values
        ∧ ∃ v, v ∈ values ∧ truthy v = true.
Proof.
  intros HL Hcols Hen column.
  rewrite (class_suggest_names Date _ _ VNull _ _ HL eq_refl Hcols Hen).
  rewrite list_elem_of_filter. unfold proposed. cbn [class_probe class_test].
  split.
  - intros [Hp Hin]. split; [done|].
    destruct (bool_decide (column ∈ enabled)) eqn:Hb; [discriminate|].
    apply bool_decide_eq_false in Hb. split; [done|].
    destruct (date_probe self column) as [r|e]; [|discriminate].
    rewrite result_bind_ok in Hp.
    destruct (mapM row_first (res_rows r)) as [values|e] eqn:Hm; [|discriminate].
    rewrite result_bind_ok in Hp. exists r, values. split_and!; try done.
    destruct (existsb truthy values) eqn:Hex; [|discriminate].
    apply existsb_exists in Hex as (v&Hv&Ht). exists v. split; [|done].
    by apply list_elem_of_In.
  - intros (Hin&Hne&r&values&Hr&Hv&v&Hvin&Ht). split; [|done].
    rewrite bool_decide_eq_false_2 by done. rewrite Hr, result_bind_ok, Hv, result_bind_ok.
    assert (Hex : existsb truthy values = true).
    { apply existsb_exists. exists v. split; [by apply list_elem_of_In | done]. }
    by rewrite Hex.
Qed.

(** X6: [ArrayFacet.suggest] proposes a column that is not enabled exactly when
    the rows of its probe are, in this order, "array" alone or "array"
    followed by a null. *)
Theorem array_suggest_iff (self : Facet) (L : list suggestion)
    (columns enabled : list string) :
  ArrayFacet.suggest self = Ok L →
  FacetBase.get_columns self (f_sql self) (f_params self) = Ok columns →
  FacetBase.already_enabled self ArrayFacet.type = Ok enabled →
  ∀ column, column ∈ sug_name <$> L ↔
    column ∈ columns ∧ (column ∉ enabled)
    ∧ ∃ r types, array_probe self column = Ok r
        ∧ observed_kinds r = Ok types
        ∧ (types = [VText "array"] ∨ types = [VText "array"; VNull]).
Proof.
  intros HL Hcols Hen column.
  rewrite (class_suggest_names Array _ _ VNull _ _ HL eq_refl Hcols Hen).
  rewrite list_elem_of_filter. unfold proposed, observed_kinds.
  cbn [class_probe class_test]. split.
  - intros [Hp Hin]. split; [done|].
    destruct (bool_decide (column ∈ enabled)) eqn:Hb; [discriminate|].
    apply bool_decide_eq_false in Hb. split; [done|].
    destruct (array_probe self column) as [r|e]; [|discriminate].
    rewrite result_bind_ok in Hp.
    destruct (mapM row_first (res_rows r)) as [types|e] eqn:Hm; [|discriminate].
    rewrite result_bind_ok in Hp. exists r, types. split_and!; try done.
    unfold ArrayFacet.types_test in Hp. by case_bool_decide.
  - intros (Hin&Hne&r&types&Hr&Hv&Ht). split; [|done].
    rewrite bool_decide_eq_false_2 by done. rewrite Hr, result_bind_ok, Hv, result_bind_ok.
    unfold ArrayFacet.types_test. by rewrite bool_decide_eq_true_2.
Qed.

(** X7: a config is read by [suggest] through its "simple" member only: a
    facet of the class configured as a structured object without it makes
    [suggest] raise [KeyError]. *)
Theorem suggest_structured_config_raises (c : facet_class) (self : Facet)
    (configs : list source_and_config) (sc : source_and_config)
    (rc : value) (columns : list string) :
  FacetBase.get_configs self (class_type c) = Ok configs →
  sc ∈ configs →
  sc_config sc !! "simple" = None →
  class_row_count c self = Ok rc →
  FacetBase.get_columns self (f_sql self) (f_params self) = Ok columns →
  class_suggest c self = Raise KeyError.
Proof.
  intros Hcfg Hin Hsimple Hrc Hcols.
  assert (Hen : FacetBase.already_enabled self (class_type c) = Raise KeyError).
  { unfold FacetBase.already_enabled. rewrite Hcfg, result_bind_ok.
    clear Hcfg. induction configs as [|sc' configs IH]; [by apply elem_of_nil in Hin|].
    cbn [mapM]. apply elem_of_cons in Hin as [->|Hin].
    - assert (Hget : dict_getitem (sc_config sc') "simple" = Raise KeyError)
        by (unfold dict_getitem; by rewrite Hsimple).
      by rewrite Hget.
    - destruct (dict_getitem (sc_config sc') "simple") as [s|e] eqn:Hget.
      + rewrite result_bind_ok, (IH Hin). reflexivity.
      + unfold dict_getitem in Hget. destruct (sc_config sc' !! "simple"); [discriminate|].
        by injection Hget as <-. }
  rewrite class_suggest_loop, Hrc, result_bind_ok, Hcols, result_bind_ok.
  by rewrite Hen.
Qed.
End SuggestProperties.

Lemma interrupted_true p : interrupted p = true ↔ p = Raise QueryInterrupted.
Proof. destruct p as [r|[]]; simpl; split; congruence. Qed.

Section FacetLoopDomain.
Variable exec : string → result Results.
Variable shape : string → string → Results → result facet_result.
Hypothesis shape_not_interrupted :
  ∀ source column r, shape source column r ≠ Raise QueryInterrupted.

Local Abbreviation body := (loop_body exec shape).

Lemma loop_dom cfgs : ∀ st st',
  for_each body st cfgs = Ok st' →
  ∀ column, is_Some (st'.1 !! column) →
    is_Some (st.1 !! column)
    ∨ ∃ sc r, sc ∈ cfgs ∧ config_column (sc_config sc) = Ok column ∧ exec column = Ok r.
Proof.
  induction cfgs as [|sc cfgs IH]; intros st st'.
  - intros [= <-] column Hc. by left.
  - rewrite for_each_cons.
    destruct (body st sc) as [st1|e] eqn:Hstep; [|discriminate].
    rewrite result_bind_ok. intros Hrest column Hc.
    apply (loop_body_inv _ _ shape_not_interrupted) in Hstep as (col&Hcol&Hcase).
    destruct (IH _ _ Hrest column Hc) as [H1|(sc'&r&Hin&?&?)].
    + destruct Hcase as [(r&fr&Hr&Hs&->)|(_&->)]; [|by left].
      simpl in H1. rewrite lookup_insert in H1. case_decide as Heq; [|by left].
      subst col. right. exists sc, r. split; [apply list_elem_of_here|done].
    + right. exists sc', r. split; [by apply list_elem_of_further|done].
Qed.

Lemma loop_timed_exact cfgs : ∀ st st',
  for_each body st cfgs = Ok st' →
  ∃ cols, mapM (fun sc => config_column (sc_config sc)) cfgs = Ok cols
    ∧ st'.2 = st.2 ++ filter (fun col => interrupted (exec col) = true) cols.
Proof.
  induction cfgs as [|sc cfgs IH]; intros st st'.
  - intros [= <-]. exists []. by rewrite app_nil_r.
  - rewrite for_each_cons.
    destruct (body st sc) as [st1|e] eqn:Hstep; [|discriminate].
    rewrite result_bind_ok. intros Hrest.
    apply (loop_body_inv _ _ shape_not_interrupted) in Hstep as (col&Hcol&Hcase).
    destruct (IH _ _ Hrest) as (cols&Hcols&Htimed).
    exists (col :: cols). cbn [mapM]. rewrite Hcol, result_bind_ok, Hcols. split; [done|].
    rewrite Htimed. destruct Hcase as [(r&fr&Hr&Hs&->)|(Hq&->)]; simpl.
    + rewrite filter_cons_False; [done|]. rewrite Hr. simpl. congruence.
    + rewrite filter_cons_True by (by rewrite Hq). by rewrite <- app_assoc.
Qed.

Lemma loop_lookup_other cfgs column : ∀ st st',
  (∀ sc, sc ∈ cfgs → config_column (sc_config sc) ≠ Ok column) →
  for_each body st cfgs = Ok st' →
  st'.1 !! column = st.1 !! column.
Proof.
  induction cfgs as [|sc cfgs IH]; intros st st' Hother.
  - by intros [= <-].
  - rewrite for_each_cons.
    destruct (body st sc) as [st1|e] eqn:Hstep; [|discriminate].
    rewrite result_bind_ok. intros Hrest.
    apply (loop_body_inv _ _ shape_not_interrupted) in Hstep as (col&Hcol&Hcase).
    rewrite (IH _ _ (fun sc' Hin => Hother sc' (list_elem_of_further _ _ _ Hin)) Hrest).
    destruct Hcase as [(r&fr&Hr&Hs&->)|(_&->)]; [|done].
    simpl. apply lookup_insert_ne. intros ->.
    by apply (Hother sc (list_elem_of_here _ _)).
Qed.

(** The last config of a column decides its entry. *)
Lemma loop_last_config cfgs1 sc cfgs2 column r st' :
  config_column (sc_config sc) = Ok column →
  (∀ sc', sc' ∈ cfgs2 → config_column (sc_config sc') ≠ Ok column) →
  exec column = Ok r →
  for_each body (∅, []) (cfgs1 ++ sc :: cfgs2) = Ok st' →
  ∃ fr, st'.1 !! column = Some fr ∧ shape (sc_source sc) column r = Ok fr.
Proof.
  intros Hcol Hother Hr. rewrite for_each_app.
  destruct (for_each body (∅, []) cfgs1) as [[res1 timed1]|e]; [|discriminate].
  rewrite result_bind_ok, for_each_cons, (loop_body_ok _ _ shape_not_interrupted _ _ _ _ _ Hcol Hr).
  destruct (shape (sc_source sc) column r) as [fr|e]; [|discriminate].
  rewrite !result_bind_ok. intros Hrest. exists fr. split; [|done].
  rewrite (loop_lookup_other _ _ _ _ Hother Hrest). simpl. apply lookup_insert_eq.
Qed.

Lemma loop_returns cfgs : ∀ st,
  (∀ sc, sc ∈ cfgs →
     ∃ column, config_column (sc_config sc) = Ok column
       ∧ (exec column = Raise QueryInterrupted
          ∨ ∃ r fr, exec column = Ok r ∧ shape (sc_source sc) column r = Ok fr)) →
  ∃ st', for_each body st cfgs = Ok st'.
Proof.
  induction cfgs as [|sc cfgs IH]; intros st Hall; [by eexists|].
  rewrite for_each_cons. destruct st as [res timed].
  destruct (Hall sc (list_elem_of_here _ _)) as (col&Hcol&[Hq|(r&fr&Hr&Hs)]).
  - rewrite (loop_body_interrupted _ _ _ _ _ _ Hcol Hq), result_bind_ok.
    apply IH. intros sc' Hin. by apply Hall, list_elem_of_further.
  - rewrite (loop_body_ok _ _ shape_not_interrupted _ _ _ _ _ Hcol Hr), Hs, !result_bind_ok.
    apply IH. intros sc' Hin. by apply Hall, list_elem_of_further.
Qed.
End FacetLoopDomain.

Section FacetResultsHeader.
Context `{Utils}.

(** X8: the keys of the mapping are the columns whose query returned, and the
    timed-out list names, in the order of the configs and with their
    repetitions, the columns whose query was interrupted; no column is in
    both. *)
Theorem facet_results_partition (c : facet_class) (self : Facet)
    (configs : list source_and_config)
    (res : gmap string facet_result) (timed : list string) :
  FacetBase.get_configs self (class_type c) = Ok configs →
  class_facet_results c self = Ok (res, timed) →
  (∀ column, is_Some (res !! column) ↔
     ∃ sc r, sc ∈ configs ∧ config_column (sc_config sc) = Ok column
             ∧ class_query c self column = Ok r)
  ∧ (∃ cols, mapM (fun sc => config_column (sc_config sc)) configs = Ok cols
       ∧ timed = filter (fun col => interrupted (class_query c self col) = true) cols)
  ∧ (∀ column, column ∈ timed → res !! column = None).
Proof.
  intros Hcfg Hres.
  pose proof (class_results_shaped _ _ _ _ Hres) as Hsh.
  apply class_results_inv in Hres as (configs'&Hcfg'&Hloop).
  rewrite Hcfg in Hcfg'. injection Hcfg' as <-.
  pose proof (class_shape_not_interrupted c self) as Hni.
  destruct (loop_spec _ _ Hni _ _ _ Hloop) as (_&_&Hdom&Htimed).
  destruct (loop_timed_exact _ _ Hni _ _ _ Hloop) as (cols&Hcols&Hexact).
  split_and!.
  - intros column. split.
    + intros Hc. destruct (loop_dom _ _ Hni _ _ _ Hloop column Hc) as [Hempty|?]; [|done].
      simpl in Hempty. rewrite lookup_empty in Hempty. by destruct Hempty.
    + intros (sc&r&Hin&Hcol&Hr). by apply (Hdom sc column r).
  - exists cols. by split.
  - intros column Hin. simpl in Hexact. rewrite Hexact in Hin.
    apply list_elem_of_filter in Hin as [Hq%interrupted_true _].
    destruct (res !! column) as [fr|] eqn:Hfr; [|done].
    destruct (Hsh _ _ Hfr) as (?&r&Hr&_). rewrite Hr in Hq. discriminate.
Qed.

Lemma class_shape_header c self source column r fr :
  class_shape c self source column r = Ok fr →
  fr_name fr = column
  ∧ fr_type fr = class_type c
  ∧ fr_hideable fr = negb (String.eqb source "metadata")
  ∧ fr_toggle_url fr = path_with_removed_args (f_request self) [(class_key c, column)].
Proof.
  destruct c; simpl.
  - unfold ColumnFacet.shape_result.
    destruct (if str_truthy (f_table self) then _ else _) as [expanded|e];
      simpl; [|discriminate].
    destruct (mapM _ _) as [k|e]; simpl; [|discriminate]. by intros [= <-].
  - unfold ArrayFacet.shape_result.
    destruct (mapM _ _) as [k|e]; simpl; [|discriminate]. by intros [= <-].
  - unfold DateFacet.shape_result.
    destruct (mapM _ _) as [k|e]; simpl; [|discriminate]. by intros [= <-].
Qed.

(** X9: the entry of a column carries the column as its name, the type of the
    class and the toggle URL that removes the facet; it is hideable unless
    the last config that names the column comes from the metadata. *)
Theorem facet_result_last_config (c : facet_class) (self : Facet)
    (cfgs1 cfgs2 : list source_and_config) (sc : source_and_config)
    (res : gmap string facet_result) (timed : list string)
    (column : string) (r : Results) :
  FacetBase.get_configs self (class_type c) = Ok (cfgs1 ++ sc :: cfgs2) →
  config_column (sc_config sc) = Ok column →
  (∀ sc', sc' ∈ cfgs2 → config_column (sc_config sc') ≠ Ok column) →
  class_query c self column = Ok r →
  class_facet_results c self = Ok (res, timed) →
  ∃ fr, res !! column = Some fr
    ∧ fr_name fr = column
    ∧ fr_type fr = class_type c
    ∧ fr_hideable fr = negb (String.eqb (sc_source sc) "metadata")
    ∧ fr_toggle_url fr = path_with_removed_args (f_request self) [(class_key c, column)].
Proof.
  intros Hcfg Hcol Hother Hr Hres.
  apply class_results_inv in Hres as (configs'&Hcfg'&Hloop).
  rewrite Hcfg in Hcfg'. injection Hcfg' as <-.
  destruct (loop_last_config _ _ (class_shape_not_interrupted c self)
              _ _ _ _ _ _ Hcol Hother Hr Hloop) as (fr&Hfr&Hshape).
  exists fr. split; [exact Hfr|]. by apply class_shape_header in Hshape.
Qed.
End FacetResultsHeader.

(** [dict(pairs)] keeps the last value of a key, and [str] of a missing key
    is "None". *)
Lemma str_args_get_last pairs key :
  DateFacet.str_args_get pairs key = default "None" (last_value pairs key).
Proof.
  unfold last_value. induction pairs as [|[k v] pairs IH]; [reflexivity|].
  cbn [DateFacet.str_args_get]. case_bool_decide as Hin.
  - rewrite IH. apply list_elem_of_fmap in Hin as ([k' v']&Hk&Hin). simpl in Hk. subst k'.
    assert (Hne : (filter (fun kv : string * string => kv.1 = key) pairs).*2 ≠ []).
    { intros Hnil. apply fmap_nil_inv in Hnil.
      assert (Hf : (key, v') ∈ filter (fun kv : string * string => kv.1 = key) pairs)
        by (by apply list_elem_of_filter).
      rewrite Hnil in Hf. by apply elem_of_nil in Hf. }
    destruct (decide (k = key)) as [->|Hk].
    + rewrite filter_cons_True by done. rewrite fmap_cons.
      destruct ((filter (fun kv : string * string => kv.1 = key) pairs).*2); done.
    + by rewrite filter_cons_False.
  - assert (Hnil : filter (fun kv : string * string => kv.1 = key) pairs = []).
    { destruct (filter _ pairs) as [|[k' v'] rest] eqn:Hf; [done|].
      assert (Hin' : (k', v') ∈ filter (fun kv : string * string => kv.1 = key) pairs)
        by (rewrite Hf; apply list_elem_of_here).
      apply list_elem_of_filter in Hin' as [Hk' Hin']. simpl in Hk'. subst k'.
      exfalso. apply Hin. apply list_elem_of_fmap. by exists (key, v'). }
    destruct (decide (k = key)) as [->|Hk].
    + rewrite filter_cons_True by done. by rewrite Hnil.
    + rewrite filter_cons_False by done. by rewrite Hnil.
Qed.

Lemma mapM_result_ok {A B : Type} (f : A → result B) (l : list A) :
  (∀ x, x ∈ l → ∃ y, f x = Ok y) → ∃ k, mapM f l = Ok k.
Proof.
  induction l as [|x l IH]; intros Hall; [by eexists|].
  cbn [mapM]. destruct (Hall x (list_elem_of_here _ _)) as [y ->].
  destruct IH as [k ->]; [intros x' Hin; by apply Hall, list_elem_of_further|].
  by eexists.
Qed.

Section FacetEntries.
Context `{Utils}.

(** X10: an entry of [ArrayFacet] has [str] of the value of its row as value and
    as label; it is selected exactly when the pair of
    ["<column>__arraycontains"] and that string is in the query string, and
    its toggle URL removes the pair when selected and adds it otherwise. *)
Theorem array_entry_selected (self : Facet)
    (res : gmap string facet_result) (timed : list string) :
  ArrayFacet.facet_results self = Ok (res, timed) →
  ∀ column fr,
    res !! column = Some fr →
    ∃ r, class_query Array self column = Ok r
      ∧ Forall2 (fun rw fv => ∃ v,
           row_get rw "value" = Ok v
           ∧ fv_value fv = VText (str v)
           ∧ fv_label fv = VText (str v)
           ∧ (fv_selected fv = true ↔
                (column +:+ "__arraycontains", str v) ∈ req_pairs (f_request self))
           ∧ fv_toggle_url fv
             = ds_absolute_url (f_ds self) (f_request self)
                 (if fv_selected fv
                  then path_with_removed_args (f_request self)
                         [(column +:+ "__arraycontains", str v)]
                  else path_with_added_args (f_request self)
                         [(column +:+ "__arraycontains", VText (str v))]))
          (take (facet_size self) (res_rows r)) (fr_results fr).
Proof.
  intros Hres column fr Hfr.
  pose proof (class_results_shaped Array _ _ _ Hres) as Hsh.
  destruct (Hsh _ _ Hfr) as (source&r&Hr&Hshape).
  exists r. split; [exact Hr|].
  simpl in Hshape. unfold ArrayFacet.shape_result in Hshape.
  destruct (mapM _ _) as [k|e] eqn:Hm; simpl in Hshape; [|discriminate].
  injection Hshape as <-. simpl.
  apply mapM_result_Forall2 in Hm.
  eapply Forall2_impl; [exact Hm|]. intros rw fv. unfold ArrayFacet.row_entry.
  destruct (row_get rw "value") as [v|e]; simpl; [|discriminate].
  destruct (row_get rw "count") as [n|e]; simpl; [|discriminate].
  intros [= <-]. exists v. simpl.
  split_and!; try reflexivity. apply bool_decide_eq_true.
Qed.

(** X11: an entry of [DateFacet] is labelled by its value; it is selected exactly
    when [str] of the value equals the last value of ["<column>__date"] in
    the query string, or "None" when the key is absent. *)
Theorem date_entry_selected (self : Facet)
    (res : gmap string facet_result) (timed : list string) :
  DateFacet.facet_results self = Ok (res, timed) →
  ∀ column fr,
    res !! column = Some fr →
    ∃ r, class_query Date self column = Ok r
      ∧ Forall2 (fun rw fv =>
           row_get rw "value" = Ok (fv_value fv)
           ∧ fv_label fv = fv_value fv
           ∧ (fv_selected fv = true ↔
                default "None"
                  (last_value (req_pairs (f_request self)) (column +:+ "__date"))
                = str (fv_value fv))
           ∧ fv_toggle_url fv
             = ds_absolute_url (f_ds self) (f_request self)
                 (if fv_selected fv
                  then path_with_removed_args (f_request self)
                         [(column +:+ "__date", str (fv_value fv))]
                  else path_with_added_args (f_request self)
                         [(column +:+ "__date", fv_value fv)]))
          (take (facet_size self) (res_rows r)) (fr_results fr).
Proof.
  intros Hres column fr Hfr.
  pose proof (class_results_shaped Date _ _ _ Hres) as Hsh.
  destruct (Hsh _ _ Hfr) as (source&r&Hr&Hshape).
  exists r. split; [exact Hr|].
  simpl in Hshape. unfold DateFacet.shape_result in Hshape.
  destruct (mapM _ _) as [k|e] eqn:Hm; simpl in Hshape; [|discriminate].
  injection Hshape as <-. simpl.
  apply mapM_result_Forall2 in Hm.
  eapply Forall2_impl; [exact Hm|]. intros rw fv. unfold DateFacet.row_entry.
  destruct (row_get rw "value") as [v|e]; simpl; [|discriminate].
  destruct (row_get rw "count") as [n|e]; simpl; [|discriminate].
  intros [= <-]. simpl. split_and!; try reflexivity.
  rewrite <- str_args_get_last. unfold FacetBase.get_querystring_pairs, DateFacet.date_key.
  apply String.eqb_eq.
Qed.

(** X12: the label of an entry of [ColumnFacet] is what the expansion of the
    foreign keys of the table gives for the pair of the column and the
    value, and the value itself when the expansion has no such pair; a
    facet without a table is not expanded, and every label is the value. *)
Theorem column_entry_label (self : Facet)
    (res : gmap string facet_result) (timed : list string) :
  ColumnFacet.facet_results self = Ok (res, timed) →
  ∀ column fr,
    res !! column = Some fr →
    ∃ r values,
      class_query Column self column = Ok r
      ∧ mapM (fun rw => row_get rw "value") (take (facet_size self) (res_rows r))
        = Ok values
      ∧ fv_value <$> fr_results fr = values
      ∧ (∀ table,
           f_table self = Some table → table ≠ "" →
           Forall (fun fv =>
              fv_label fv
              = dict_get (ds_expand_foreign_keys (f_ds self) (f_database self)
                            table column values)
                  (column, fv_value fv) (fv_value fv))
             (fr_results fr))
      ∧ (str_truthy (f_table self) = false →
         Forall (fun fv => fv_label fv = fv_value fv) (fr_results fr)).
Proof.
  intros Hres column fr Hfr.
  pose proof (class_results_shaped Column _ _ _ Hres) as Hsh.
  destruct (Hsh _ _ Hfr) as (source&r&Hr&Hshape).
  simpl in Hshape. unfold ColumnFacet.shape_result in Hshape.
  fold (facet_size self) in Hshape.
  destruct (if str_truthy (f_table self) then _ else _) as [expanded|e] eqn:Hex;
    simpl in Hshape; [|discriminate].
  destruct (mapM _ _) as [k|e] eqn:Hm in Hshape; simpl in Hshape; [|discriminate].
  injection Hshape as <-. cbn [fr_results].
  apply mapM_result_Forall2 in Hm.
  assert (Hentries : Forall2 (fun rw fv =>
            row_get rw "value" = Ok (fv_value fv)
            ∧ fv_label fv = dict_get expanded (column, fv_value fv) (fv_value fv))
            (take (facet_size self) (res_rows r)) k).
  { eapply Forall2_impl; [exact Hm|]. intros rw fv Hfv.
    apply column_row_entry_inv in Hfv as (v&cn&Hv&_&->). by simpl. }
  assert (Hvalues : mapM (fun rw => row_get rw "value")
                      (take (facet_size self) (res_rows r)) = Ok (fv_value <$> k)).
  { clear -Hentries. induction Hentries as [|rw fv rows k [Hv _] _ IH]; [reflexivity|].
    cbn [mapM]. by rewrite Hv, result_bind_ok, IH. }
  assert (Hlabels : Forall (fun fv =>
            fv_label fv = dict_get expanded (column, fv_value fv) (fv_value fv)) k).
  { clear -Hentries. induction Hentries as [|rw fv rows k [_ Hl] _ IH]; by constructor. }
  exists r, (fv_value <$> k). split_and!; try done.
  - intros table Htable Hne.
    assert (Ht : str_truthy (f_table self) = true).
    { rewrite Htable. simpl. by destruct (String.eqb_spec table ""). }
    rewrite Ht, Hvalues, result_bind_ok, Htable in Hex. cbn [default from_option id] in Hex.
    by injection Hex as <-.
  - intros Ht. rewrite Ht in Hex. injection Hex as <-.
    eapply Forall_impl; [exact Hlabels|]. by intros fv ->.
Qed.

Lemma class_shape_returns c self source column r :
  Forall facet_row (take (facet_size self) (res_rows r)) →
  ∃ fr, class_shape c self source column r = Ok fr.
Proof.
  intros Hrows. rewrite Forall_forall in Hrows.
  assert (Hvalues : ∃ values, mapM (fun rw => row_get rw "value")
                      (take (facet_size self) (res_rows r)) = Ok values).
  { apply mapM_result_ok. intros rw Hin. by destruct (Hrows rw Hin) as [? _]. }
  destruct c; simpl.
  - unfold ColumnFacet.shape_result. fold (facet_size self).
    destruct Hvalues as [values ->].
    assert (Hex : ∃ expanded,
              (if str_truthy (f_table self)
               then Ok values ≫= (fun values =>
                      Ok (ds_expand_foreign_keys (f_ds self) (f_database self)
                            (default "" (f_table self)) column values))
               else Ok []) = Ok expanded)
      by (destruct (str_truthy (f_table self)); by eexists).
    destruct Hex as [expanded ->]. rewrite result_bind_ok.
    destruct (mapM_result_ok
                (ColumnFacet.row_entry self (FacetBase.get_querystring_pairs self)
                   expanded column)
                (take (facet_size self) (res_rows r))) as [k ->]; [|by eexists].
    intros rw Hin. destruct (Hrows rw Hin) as [[v Hv] [n Hn]].
    unfold ColumnFacet.row_entry. rewrite Hv, result_bind_ok, Hn. by eexists.
  - unfold ArrayFacet.shape_result.
    destruct (mapM_result_ok
                (ArrayFacet.row_entry self (FacetBase.get_querystring_pairs self) column)
                (take (facet_size self) (res_rows r))) as [k ->]; [|by eexists].
    intros rw Hin. destruct (Hrows rw Hin) as [[v Hv] [n Hn]].
    unfold ArrayFacet.row_entry. rewrite Hv, result_bind_ok, Hn. by eexists.
  - unfold DateFacet.shape_result.
    destruct (mapM_result_ok
                (DateFacet.row_entry self (FacetBase.get_querystring_pairs self) column)
                (take (facet_size self) (res_rows r))) as [k ->]; [|by eexists].
    intros rw Hin. destruct (Hrows rw Hin) as [[v Hv] [n Hn]].
    unfold DateFacet.row_entry. rewrite Hv, result_bind_ok, Hn. by eexists.
Qed.

(** X13: [facet_results] returns whenever the configs resolve to columns and
    every query either is interrupted or returns rows that have a "value"
    and a "count" among the first [size]. *)
Theorem facet_results_returns (c : facet_class) (self : Facet)
    (configs : list source_and_config) :
  FacetBase.get_configs self (class_type c) = Ok configs →
  (∀ sc, sc ∈ configs →
     ∃ column, config_column (sc_config sc) = Ok column
       ∧ (class_query c self column = Raise QueryInterrupted
          ∨ ∃ r, class_query c self column = Ok r
                 ∧ Forall facet_row (take (facet_size self) (res_rows r)))) →
  ∃ res timed, class_facet_results c self = Ok (res, timed).
Proof.
  intros Hcfg Hall. rewrite class_facet_results_loop, Hcfg, result_bind_ok.
  destruct (loop_returns (class_query c self) (class_shape c self)
              (class_shape_not_interrupted c self) configs (∅, [])) as [[res timed] Hst].
  - intros sc Hin. destruct (Hall sc Hin) as (col&Hcol&[Hq|(r&Hr&Hrows)]).
    + exists col. split; [done|]. by left.
    + exists col. split; [done|]. right.
      destruct (class_shape_returns c self (sc_source sc) col r Hrows) as [fr Hfr].
      by exists r, fr.
  - by exists res, timed.
Qed.
End FacetEntries.

Section Junctions.
Context `{Utils}.

Lemma junction_test dest out :
  existsb (fun o => bool_decide (fk_other_table o = dest)) out && (length out =? 2)%nat
  = bool_decide (junction_of dest out).
Proof.
  unfold junction_of. destruct (existsb _ out) eqn:Hex; destruct (Nat.eqb_spec (length out) 2);
    simpl; symmetry.
  - apply bool_decide_eq_true. split; [done|].
    apply existsb_exists in Hex as (o&Hin&Ho). apply Exists_exists. exists o.
    split; [by apply list_elem_of_In | by apply bool_decide_eq_true in Ho].
  - apply bool_decide_eq_false. by intros [? _].
  - apply bool_decide_eq_false. intros [_ (o&Hin&Ho)%Exists_exists].
    assert (Hex' : existsb (fun o => bool_decide (fk_other_table o = dest)) out = true).
    { apply existsb_exists. exists o.
      split; [by apply list_elem_of_In | by apply bool_decide_eq_true]. }
    congruence.
  - apply bool_decide_eq_false. by intros [? _].
Qed.

(** X14: the middle table is the table of the first incoming edge whose table
    is a junction towards the destination; there is none exactly when no
    incoming edge comes from such a table. *)
Theorem find_middle_first (all : gmap string table_foreign_keys) (dest : string)
    (incoming : list foreign_key) (found : option (list foreign_key * string)) :
  ManyToManyFacet.find_middle all dest incoming = Ok found →
  match found with
  | Some (fks, middle) =>
      ∃ before fk after,
        incoming = before ++ fk :: after
        ∧ fk_other_table fk = middle
        ∧ ManyToManyFacet.outgoing_of all middle = Ok fks
        ∧ junction_of dest fks
        ∧ ∀ fk', fk' ∈ before →
            ∃ out, ManyToManyFacet.outgoing_of all (fk_other_table fk') = Ok out
                   ∧ ¬ junction_of dest out
  | None =>
      ∀ fk, fk ∈ incoming →
        ∃ out, ManyToManyFacet.outgoing_of all (fk_other_table fk) = Ok out
               ∧ ¬ junction_of dest out
  end.
Proof.
  revert found. induction incoming as [|fk incoming IH]; intros found.
  - intros [= <-]. intros fk Hin. by apply elem_of_nil in Hin.
  - cbn [ManyToManyFacet.find_middle].
    destruct (ManyToManyFacet.outgoing_of all (fk_other_table fk)) as [out|e] eqn:Hout;
      [|discriminate].
    rewrite result_bind_ok, junction_test. case_bool_decide as Hj.
    + intros [= <-]. exists [], fk, incoming. split_and!; try done.
      intros fk' Hin. by apply elem_of_nil in Hin.
    + intros Hrest. specialize (IH _ Hrest). destruct found as [[fks middle]|].
      * destruct IH as (before&fk0&after&->&Hmid&Hfks&Hjf&Hbefore).
        exists (fk :: before), fk0, after. split_and!; try done.
        intros fk' [->|Hin]%elem_of_cons; [by exists out | by apply Hbefore].
      * intros fk' [->|Hin]%elem_of_cons; [by exists out | by apply IH].
Qed.

(** X15: from the two edges of a junction between the base table and another
    destination, in either order, the loop over the edges reads the column
    towards the base table, the key it refers to and the column towards
    the destination. *)
Theorem junction_columns_read (self : Facet) (dest : string) (a b : foreign_key)
    (fks : list foreign_key) :
  fks = [a; b] ∨ fks = [b; a] →
  Some (fk_other_table a) = f_table self →
  fk_other_table b = dest →
  Some dest ≠ f_table self →
  foldl (ManyToManyFacet.columns_body self dest) (ManyToManyFacet.mkJC None None None) fks
  = ManyToManyFacet.mkJC (Some (fk_column a)) (Some (fk_other_column a))
      (Some (fk_column b)).
Proof.
  intros Hfks Ha Hb Hne.
  assert (Hb' : Some (fk_other_table b) ≠ f_table self) by (by rewrite Hb).
  destruct Hfks as [-> | ->]; cbn [foldl]; unfold ManyToManyFacet.columns_body;
    repeat first
      [ rewrite (bool_decide_eq_true_2 (Some (fk_other_table a) = f_table self)) by done
      | rewrite (bool_decide_eq_false_2 (Some (fk_other_table b) = f_table self)) by done
      | rewrite (bool_decide_eq_true_2 (fk_other_table b = dest)) by done ];
    reflexivity.
Qed.
End Junctions.

Section ManyToManyResults.
Context `{Utils}.

Lemma m2m_row_entry_inv self args expanded middle c_to_dest rw fv :
  ManyToManyFacet.row_entry self args expanded middle c_to_dest rw = Ok fv →
  ∃ v n, row_get rw "value" = Ok v ∧ row_get rw "count" = Ok n
    ∧ fv = mkFacetValue v (dict_get expanded (c_to_dest, v) v) n
             (ds_absolute_url (f_ds self) (f_request self)
                (if bool_decide
                      (("_through", ManyToManyFacet.through middle c_to_dest (str v)) ∈ args)
                 then path_with_removed_args (f_request self)
                        [("_through", ManyToManyFacet.through middle c_to_dest (str v))]
                 else path_with_added_args (f_request self)
                        [("_through",
                          VText (ManyToManyFacet.through middle c_to_dest (str v)))]))
             (bool_decide
                (("_through", ManyToManyFacet.through middle c_to_dest (str v)) ∈ args)).
Proof.
  unfold ManyToManyFacet.row_entry.
  destruct (row_get rw "value") as [v|e]; simpl; [|discriminate].
  destruct (row_get rw "count") as [n|e]; simpl; [|discriminate].
  intros [= <-]. eauto.
Qed.

Lemma m2m_row_entry_raise self args expanded middle c_to_dest rw e :
  ManyToManyFacet.row_entry self args expanded middle c_to_dest rw = Raise e →
  e = IndexError.
Proof.
  unfold ManyToManyFacet.row_entry.
  destruct (row_get rw "value") as [v|e'] eqn:Hv; simpl;
    [|intros [= <-]; by eapply row_get_raise].
  destruct (row_get rw "count") as [n|e'] eqn:Hn; simpl;
    [discriminate | intros [= <-]; by eapply row_get_raise].
Qed.

Lemma m2m_shape_not_interrupted self args size source dest middle c_to_dest r :
  ManyToManyFacet.shape_result self args size source dest middle c_to_dest r
  ≠ Raise QueryInterrupted.
Proof.
  unfold ManyToManyFacet.shape_result. intros Hs.
  destruct (mapM (fun rw => row_get rw "value") _) as [values|e] eqn:Hv; simpl in Hs.
  - destruct (mapM _ _) as [k|e] eqn:Hm in Hs; simpl in Hs; [discriminate|].
    injection Hs as ->. revert Hm. apply mapM_index_error.
    intros x e. apply m2m_row_entry_raise.
  - injection Hs as ->. revert Hv. apply mapM_index_error.
    intros x e. apply row_get_raise.
Qed.

(** The ways one iteration of the loop of [facet_results] can end without
    an exception. *)
Lemma m2m_body_inv self all incoming args res timed sc fl :
  ManyToManyFacet.facet_results_body self all incoming args (facet_size self)
    (res, timed) sc = Ok fl →
  ∃ dest, config_column (sc_config sc) = Ok dest ∧
    ((ManyToManyFacet.find_middle all dest incoming = Ok None ∧ fl = Return (∅, []))
     ∨ ∃ fks middle c_to_table pk c_to_dest,
         ManyToManyFacet.find_middle all dest incoming = Ok (Some (fks, middle))
         ∧ foldl (ManyToManyFacet.columns_body self dest)
             (ManyToManyFacet.mkJC None None None) fks
           = ManyToManyFacet.mkJC (Some c_to_table) (Some pk) (Some c_to_dest)
         ∧ ((m2m_query self middle c_to_dest c_to_table pk = Raise QueryInterrupted
             ∧ fl = Next (res, timed ++ [dest]))
            ∨ ∃ r fr,
                m2m_query self middle c_to_dest c_to_table pk = Ok r
                ∧ ManyToManyFacet.shape_result self args (facet_size self)
                    (sc_source sc) dest middle c_to_dest r = Ok fr
                ∧ fl = Next (<[dest := fr]> res, timed))).
Proof.
  unfold ManyToManyFacet.facet_results_body.
  destruct (config_column (sc_config sc)) as [dest|e]; [|discriminate].
  rewrite result_bind_ok. intros Hbody. exists dest. split; [reflexivity|].
  destruct (ManyToManyFacet.find_middle all dest incoming) as [[[fks middle]|]|e];
    [| |discriminate]; rewrite result_bind_ok in Hbody.
  2:{ left. split; [reflexivity|]. by injection Hbody as <-. }
  right.
  destruct (foldl _ _ fks) as [[c_to_table|] [pk|] [c_to_dest|]] eqn:Hjc;
    cbn [ManyToManyFacet.column_to_table ManyToManyFacet.table_pk
         ManyToManyFacet.column_to_destination] in Hbody;
    try (rewrite ?andb_false_r in Hbody; simpl in Hbody; discriminate);
    try (cbn [str_truthy andb negb] in Hbody; discriminate);
    try (destruct (str_truthy (Some c_to_table)); simpl in Hbody; discriminate);
    try (destruct (str_truthy (Some c_to_table)), (str_truthy (Some pk));
         simpl in Hbody; discriminate).
  destruct (negb _) in Hbody; [discriminate|].
  cbn [default from_option id] in Hbody.
  fold (m2m_query self middle c_to_dest c_to_table pk) in Hbody.
  exists fks, middle, c_to_table, pk, c_to_dest. split; [reflexivity|]. split; [exact Hjc|].
  destruct (m2m_query self middle c_to_dest c_to_table pk) as [r|e] eqn:Hq;
    simpl in Hbody.
  - destruct (ManyToManyFacet.shape_result _ _ _ _ _ _ _ r) as [fr|e] eqn:Hs;
      simpl in Hbody.
    + injection Hbody as <-. right. by exists r, fr.
    + destruct (decide (e = QueryInterrupted)) as [->|]; [|discriminate].
      by apply m2m_shape_not_interrupted in Hs.
  - destruct (decide (e = QueryInterrupted)) as [->|]; [|discriminate].
    injection Hbody as <-. by left.
Qed.

Lemma m2m_loop_app self all incoming args size
    (xs ys : list source_and_config) : ∀ s s',
  for_each_flow (ManyToManyFacet.facet_results_body self all incoming args size) s xs
  = Ok (Next s') →
  for_each_flow (ManyToManyFacet.facet_results_body self all incoming args size)
    s (xs ++ ys)
  = for_each_flow (ManyToManyFacet.facet_results_body self all incoming args size) s' ys.
Proof.
  induction xs as [|x xs IH]; intros s s'.
  - by intros [= <-].
  - cbn [for_each_flow app].
    destruct (ManyToManyFacet.facet_results_body _ _ _ _ _ s x) as [[s1|rr]|e];
      [|discriminate|discriminate].
    rewrite !result_bind_ok. apply IH.
Qed.

(** [facet_results] when the loop reaches the config [sc] and the body ends
    there with [Return] or an exception. *)
Lemma m2m_loop_ends self entry cfgs1 cfgs2 sc st1 :
  let all := ds_get_all_foreign_keys (f_ds self) (f_database self) in
  let body := ManyToManyFacet.facet_results_body self all (tfk_incoming entry)
                (FacetBase.get_querystring_pairs self) (facet_size self) in
  ManyToManyFacet.fk_get all (f_table self) = Some entry →
  FacetBase.get_configs self ManyToManyFacet.type = Ok (cfgs1 ++ sc :: cfgs2) →
  for_each_flow body (∅, []) cfgs1 = Ok (Next st1) →
  ManyToManyFacet.facet_results self
  = match body st1 sc with
    | Ok (Next s') =>
        fl ← for_each_flow body s' cfgs2;
        match fl with Next st => Ok st | Return r => Ok r end
    | Ok (Return r) => Ok r
    | Raise e => Raise e
    end.
Proof.
  intros all body Hget Hcfg H1.
  unfold ManyToManyFacet.facet_results. fold all. rewrite Hget, Hcfg, result_bind_ok.
  fold (facet_size self). fold body. unfold body at 1.
  rewrite (m2m_loop_app _ _ _ _ _ _ _ _ _ H1). cbn [for_each_flow]. fold body.
  by destruct (body st1 sc) as [[s'|r]|e].
Qed.

(** X18: a configured destination without a junction table ends [facet_results]
    at once with nothing in the mapping and nothing in the timed-out list
    (the source returns two empty lists): whatever the destinations before
    it produced is dropped, and the ones after it are not looked at. *)
Theorem m2m_missing_junction (self : Facet) (entry : table_foreign_keys)
    (cfgs1 cfgs2 : list source_and_config) (sc : source_and_config) (dest : string)
    (st1 : gmap string facet_result * list string) :
  let all := ds_get_all_foreign_keys (f_ds self) (f_database self) in
  ManyToManyFacet.fk_get all (f_table self) = Some entry →
  FacetBase.get_configs self ManyToManyFacet.type = Ok (cfgs1 ++ sc :: cfgs2) →
  for_each_flow
    (ManyToManyFacet.facet_results_body self all (tfk_incoming entry)
       (FacetBase.get_querystring_pairs self) (facet_size self))
    (∅, []) cfgs1 = Ok (Next st1) →
  config_column (sc_config sc) = Ok dest →
  ManyToManyFacet.find_middle all dest (tfk_incoming entry) = Ok None →
  ManyToManyFacet.facet_results self = Ok (∅, []).
Proof.
  intros all Hget Hcfg H1 Hdest Hmid.
  rewrite (m2m_loop_ends _ _ _ _ _ _ Hget Hcfg H1). fold all.
  destruct st1 as [res1 timed1]. unfold ManyToManyFacet.facet_results_body.
  by rewrite Hdest, result_bind_ok, Hmid, !result_bind_ok.
Qed.

Lemma columns_loop_self self dest fks : ∀ jc,
  f_table self = Some dest →
  ManyToManyFacet.column_to_destination
    (foldl (ManyToManyFacet.columns_body self dest) jc fks)
  = ManyToManyFacet.column_to_destination jc.
Proof.
  induction fks as [|fk fks IH]; intros jc Hself; [reflexivity|].
  cbn [foldl]. rewrite IH by done. unfold ManyToManyFacet.columns_body.
  case_bool_decide as Ht; [reflexivity|].
  case_bool_decide as Hd; [|reflexivity].
  destruct Ht. by rewrite Hd, Hself.
Qed.

(** X16: a facet from a table towards itself never gets its column towards the
    destination: the edges of the junction that target the table are all
    read as edges to the base table, and [facet_results] fails its
    assertion as soon as the loop finds a junction for it. *)
Theorem self_junction_assertion (self : Facet) (entry : table_foreign_keys)
    (cfgs1 cfgs2 : list source_and_config) (sc : source_and_config)
    (dest middle : string) (fks : list foreign_key)
    (st1 : gmap string facet_result * list string) :
  let all := ds_get_all_foreign_keys (f_ds self) (f_database self) in
  ManyToManyFacet.fk_get all (f_table self) = Some entry →
  FacetBase.get_configs self ManyToManyFacet.type = Ok (cfgs1 ++ sc :: cfgs2) →
  for_each_flow
    (ManyToManyFacet.facet_results_body self all (tfk_incoming entry)
       (FacetBase.get_querystring_pairs self) (facet_size self))
    (∅, []) cfgs1 = Ok (Next st1) →
  config_column (sc_config sc) = Ok dest →
  f_table self = Some dest →
  ManyToManyFacet.find_middle all dest (tfk_incoming entry) = Ok (Some (fks, middle)) →
  ManyToManyFacet.facet_results self = Raise AssertionError.
Proof.
  intros all Hget Hcfg H1 Hcol Hself Hmid.
  rewrite (m2m_loop_ends _ _ _ _ _ _ Hget Hcfg H1). fold all.
  destruct st1 as [res timed].
  unfold ManyToManyFacet.facet_results_body.
  rewrite Hcol, result_bind_ok, Hmid, result_bind_ok.
  rewrite (columns_loop_self _ _ _ _ Hself).
  cbn [ManyToManyFacet.column_to_destination str_truthy andb negb].
  by rewrite andb_false_r.
Qed.
End ManyToManyResults.

(** * The queries as SQL, and the loop of [ManyToManyFacet] *)

Section SqlText.
Context `{Utils} `{SqlFunctions}.

Lemma sql_append_assoc (a b c : string) : (a +:+ b) +:+ c = a +:+ (b +:+ c).
Proof.
  induction a as [|x a IH]; [reflexivity|].
  change (String x ((a +:+ b) +:+ c) = String x (a +:+ (b +:+ c))). by rewrite IH.
Qed.


(** [facet_results] of a class sends the text of [facet_query]. *)
Lemma class_query_text c self column :
  class_query c self column = facet_execute self (Sql.render (facet_query c self column)).
Proof.
  unfold class_query, facet_execute, facet_query, Sql.render, Sql.from_text.
  f_equal. destruct c; cbn [class_expr Sql.expr_text];
    unfold ColumnFacet.facet_sql, ArrayFacet.facet_sql, DateFacet.facet_sql;
    by rewrite !sql_append_assoc.
Qed.
End SqlText.

Section SqlAnswers.
Context `{Utils} `{SqlFunctions}.

Lemma groups_length e rows :
  length (Sql.groups e rows) = length (Sql.distinct_values e rows).
Proof. unfold Sql.groups. by rewrite length_fmap. Qed.


Lemma counts_answer_length e sql n rows r :
  Sql.answers (Sql.Counts e sql n) rows r →
  len_results r = n `min` length (Sql.distinct_values e rows).
Proof.
  intros (gs&Hperm&_&Hrows). unfold len_results.
  rewrite Hrows, length_fmap, length_take, (Permutation_length Hperm).
  by rewrite groups_length.
Qed.

Lemma group_rows_entries c (gs : list (value * nat)) (entries : list facet_value) :
  Forall2 (fun rw fv => ∃ v, row_get rw "value" = Ok v
                             ∧ row_get rw "count" = Ok (fv_count fv)
                             ∧ fv_value fv = class_value c v)
    (Sql.group_row <$> gs) entries →
  (fun fv => (fv_value fv, fv_count fv)) <$> entries
  = (fun g => (class_value c g.1, VInt (Z.of_nat g.2))) <$> gs.
Proof.
  revert entries. induction gs as [|g gs IH]; intros entries Hall.
  - by apply Forall2_nil_inv_l in Hall as ->.
  - rewrite fmap_cons in Hall.
    apply Forall2_cons_inv_l in Hall as (fv&entries'&(v&Hv&Hc&Hfv)&Hrest&->).
    rewrite !fmap_cons, (IH _ Hrest). f_equal.
    cbn in Hv, Hc. injection Hv as <-. injection Hc as Hc. by rewrite Hfv, <- Hc.
Qed.
End SqlAnswers.

Section ColumnSuggestSql.
Context `{Utils} `{SqlFunctions}.

End ColumnSuggestSql.

Section FacetResultsSql.
Context `{Utils} `{SqlFunctions}.

(** C2: for a configured facet whose query returns, the entries of the
    result are the first [size] groups of the query in its count-descending
    order, hence at most [size]; its "truncated" flag is set exactly when
    the query, limited to [size + 1] rows, returned [size + 1] of them,
    that is when the values it groups (for a column facet the non-null
    values of the column) are more than [size] distinct ones.  The facet
    query is the grouping query of the class, which the engine answers as
    SQL means it. *)
Theorem facet_results_truncated (c : facet_class) (self : Facet)
    (configs : list source_and_config)
    (res : gmap string facet_result) (timed : list string) (rows : list row) :
  FacetBase.get_configs self (class_type c) = Ok configs →
  class_facet_results c self = Ok (res, timed) →
  ∀ sc column r,
    sc ∈ configs →
    config_column (sc_config sc) = Ok column →
    class_query c self column = Ok r →
    Sql.implements (facet_execute self) rows (facet_query c self column) →
    ∃ fr gs, res !! column = Some fr
      ∧ gs ≡ₚ Sql.groups (class_expr c column) rows
      ∧ Sql.count_descending gs
      ∧ (fun fv => (fv_value fv, fv_count fv)) <$> fr_results fr
        = (fun g => (class_value c g.1, VInt (Z.of_nat g.2))) <$> take (facet_size self) gs
      ∧ length (fr_results fr) ≤ facet_size self
      ∧ (fr_truncated fr = true ↔ len_results r = facet_size self + 1)
      ∧ (fr_truncated fr = true ↔
           facet_size self < length (Sql.distinct_values (class_expr c column) rows)).
Proof.
  intros Hcfg Hres sc column r Hin Hcol Hr Hsql.
  pose proof (class_results_shaped _ _ _ _ Hres) as Hsh.
  apply class_results_inv in Hres as (configs'&Hcfg'&Hloop).
  rewrite Hcfg in Hcfg'. injection Hcfg' as <-.
  destruct (loop_spec _ _ (class_shape_not_interrupted c self) _ _ _ Hloop)
    as (_&_&Hdom&_).
  destruct (Hdom sc column r Hin Hcol Hr) as [fr Hfr]. simpl in Hfr.
  destruct (Hsh _ _ Hfr) as (source&r'&Hr'&Hshape).
  rewrite Hr in Hr'. injection Hr' as <-.
  apply class_shape_inv in Hshape as (_&Htr&Hrows).
  pose proof Hr as Hans. rewrite class_query_text in Hans. apply Hsql in Hans.
  pose proof (counts_answer_length _ _ _ _ _ Hans) as Hlen.
  destruct Hans as (gs&Hperm&Hsorted&Hgs).
  exists fr, gs. split_and!; try done.
  - rewrite Hgs, <- fmap_take, take_take in Hrows.
    replace (facet_size self `min` (facet_size self + 1)) with (facet_size self)
      in Hrows by lia.
    by apply group_rows_entries.
  - rewrite <- (Forall2_length _ _ _ Hrows), length_take. lia.
  - rewrite Htr, bool_decide_eq_true. lia.
  - rewrite Htr, bool_decide_eq_true. lia.
Qed.
End FacetResultsSql.

Section ManyToManyLoop.
Context `{Utils}.


(** The column towards the destination is the column of a foreign key of
    the junction whose target is the destination and not the base table. *)
Lemma columns_loop_destination self dest fks c_to_dest : ∀ jc,
  ManyToManyFacet.column_to_destination
    (foldl (ManyToManyFacet.columns_body self dest) jc fks) = Some c_to_dest →
  ManyToManyFacet.column_to_destination jc = Some c_to_dest
  ∨ ∃ fk, fk ∈ fks ∧ fk_other_table fk = dest ∧ fk_column fk = c_to_dest
          ∧ Some (fk_other_table fk) ≠ f_table self.
Proof.
  induction fks as [|fk fks IH]; intros jc; [by left|].
  cbn [foldl]. intros [Hjc|(fk'&Hin&?)]%IH.
  - unfold ManyToManyFacet.columns_body in Hjc.
    case_bool_decide as Ht; [by left|].
    case_bool_decide as Hd; [|by left].
    right. exists fk. injection Hjc as <-. split_and!; try done. apply list_elem_of_here.
  - right. exists fk'. split; [by apply list_elem_of_further | done].
Qed.

Lemma find_middle_outgoing all dest incoming fks middle :
  ManyToManyFacet.find_middle all dest incoming = Ok (Some (fks, middle)) →
  ManyToManyFacet.outgoing_of all middle = Ok fks.
Proof.
  induction incoming as [|fk incoming IH]; [discriminate|].
  cbn [ManyToManyFacet.find_middle].
  destruct (ManyToManyFacet.outgoing_of all (fk_other_table fk)) as [out|e] eqn:Hout;
    [|discriminate].
  rewrite result_bind_ok. destruct (_ && _); [|exact IH].
  by intros [= <- <-].
Qed.

Lemma junction_destination self all incoming dest middle c_to_table pk c_to_dest :
  junction self all incoming dest middle c_to_table pk c_to_dest →
  ∃ fks fk, ManyToManyFacet.outgoing_of all middle = Ok fks
    ∧ fk ∈ fks ∧ fk_other_table fk = dest ∧ fk_column fk = c_to_dest.
Proof.
  intros (fks&Hmid&Hjc).
  pose proof (find_middle_outgoing _ _ _ _ _ Hmid) as Hout.
  assert (Hcd : ManyToManyFacet.column_to_destination
                  (foldl (ManyToManyFacet.columns_body self dest)
                     (ManyToManyFacet.mkJC None None None) fks) = Some c_to_dest)
    by (by rewrite Hjc).
  apply columns_loop_destination in Hcd as [Hnone|(fk&Hin&Hd&Hc&_)]; [discriminate|].
  by exists fks, fk.
Qed.

Local Abbreviation m2m_body self all incoming :=
  (ManyToManyFacet.facet_results_body self all incoming
     (FacetBase.get_querystring_pairs self) (facet_size self)).


(** The loop returns early with nothing only. *)
Lemma m2m_loop_return self all incoming cfgs : ∀ st r,
  for_each_flow (m2m_body self all incoming) st cfgs = Ok (Return r) → r = (∅, []).
Proof.
  induction cfgs as [|sc cfgs IH]; intros [res timed] r; [discriminate|].
  cbn [for_each_flow].
  destruct (ManyToManyFacet.facet_results_body _ _ _ _ _ _ sc) as [fl1|e] eqn:Hstep;
    [|discriminate].
  rewrite result_bind_ok.
  apply m2m_body_inv in Hstep as (dest&_&[[_ ->]|Hcase]).
  - by intros [= <-].
  - destruct Hcase as (?&?&?&?&?&_&_&[[_ ->]|(?&?&_&_&->)]); apply IH.
Qed.

Lemma m2m_loop_shaped self all incoming cfgs : ∀ res timed res' timed',
  m2m_shaped self all incoming res →
  for_each_flow (m2m_body self all incoming) (res, timed) cfgs = Ok (Next (res', timed')) →
  m2m_shaped self all incoming res'.
Proof.
  induction cfgs as [|sc cfgs IH]; intros res timed res' timed' Hsh.
  - by intros [= <- <-].
  - cbn [for_each_flow].
    destruct (ManyToManyFacet.facet_results_body _ _ _ _ _ _ sc) as [fl1|e] eqn:Hstep;
      [|discriminate].
    rewrite result_bind_ok.
    apply m2m_body_inv in Hstep as (dest&Hdest&[[_ ->]|Hcase]); [discriminate|].
    destruct Hcase as (fks&middle&c_to_table&pk&c_to_dest&Hmid&Hjc&
                       [[_ ->]|(r&fr&Hq&Hs&->)]).
    + by apply IH.
    + apply IH. intros d fr'. rewrite lookup_insert. case_decide as Hd; [|apply Hsh].
      subst d. intros [= <-].
      exists (sc_source sc), middle, c_to_table, pk, c_to_dest, r.
      split; [by exists fks | done].
Qed.





Lemma m2m_facet_results_loop self entry :
  let all := ds_get_all_foreign_keys (f_ds self) (f_database self) in
  ManyToManyFacet.fk_get all (f_table self) = Some entry →
  ManyToManyFacet.facet_results self
  = (configs ← FacetBase.get_configs self ManyToManyFacet.type;
     fl ← for_each_flow (m2m_body self all (tfk_incoming entry)) (∅, []) configs;
     match fl with Next st => Ok st | Return r => Ok r end).
Proof. intros all Hget. unfold ManyToManyFacet.facet_results. fold all. by rewrite Hget. Qed.

Lemma m2m_results_shaped self entry res timed dest fr :
  let all := ds_get_all_foreign_keys (f_ds self) (f_database self) in
  ManyToManyFacet.fk_get all (f_table self) = Some entry →
  ManyToManyFacet.facet_results self = Ok (res, timed) →
  res !! dest = Some fr →
  ∃ source middle c_to_table pk c_to_dest r,
    junction self all (tfk_incoming entry) dest middle c_to_table pk c_to_dest
    ∧ m2m_query self middle c_to_dest c_to_table pk = Ok r
    ∧ ManyToManyFacet.shape_result self (FacetBase.get_querystring_pairs self)
        (facet_size self) source dest middle c_to_dest r = Ok fr.
Proof.
  intros all Hget. rewrite (m2m_facet_results_loop _ _ Hget). fold all.
  destruct (FacetBase.get_configs self ManyToManyFacet.type) as [configs|e];
    [|discriminate].
  rewrite result_bind_ok.
  destruct (for_each_flow _ _ configs) as [[[res' timed']|r]|e] eqn:Hloop;
    rewrite ?result_bind_ok; [| |discriminate].
  - intros [= -> ->] Hfr.
    assert (Hsh : m2m_shaped self all (tfk_incoming entry) res).
    { eapply m2m_loop_shaped; [|exact Hloop]. intros d fr'. by rewrite lookup_empty. }
    by apply Hsh.
  - rewrite (m2m_loop_return _ _ _ _ _ _ Hloop). intros [= <- <-].
    by rewrite lookup_empty.
Qed.
End ManyToManyLoop.

Section ManyToManyEntries.
Context `{Utils}.

(** X17: the entry of a destination in the result of [ManyToManyFacet] is
    shaped from the query of the junction of that destination: the middle
    table that the search picks and the column of one of its foreign keys
    to the destination.  Each of its values is selected exactly when the
    query string holds the pair of "_through" and the token of that middle
    table, that column and [str] of the value; its toggle URL removes the
    pair when selected and adds it otherwise.  The result keeps the first
    [size] rows and is truncated when the query returned more. *)
Theorem m2m_entry_selected (self : Facet) (entry : table_foreign_keys)
    (res : gmap string facet_result) (timed : list string) :
  let all := ds_get_all_foreign_keys (f_ds self) (f_database self) in
  ManyToManyFacet.fk_get all (f_table self) = Some entry →
  ManyToManyFacet.facet_results self = Ok (res, timed) →
  ∀ dest fr,
    res !! dest = Some fr →
    ∃ fks middle c_to_table pk c_to_dest fk r,
      ManyToManyFacet.find_middle all dest (tfk_incoming entry) = Ok (Some (fks, middle))
      ∧ ManyToManyFacet.outgoing_of all middle = Ok fks
      ∧ foldl (ManyToManyFacet.columns_body self dest)
          (ManyToManyFacet.mkJC None None None) fks
        = ManyToManyFacet.mkJC (Some c_to_table) (Some pk) (Some c_to_dest)
      ∧ fk ∈ fks ∧ fk_other_table fk = dest ∧ fk_column fk = c_to_dest
      ∧ m2m_query self middle c_to_dest c_to_table pk = Ok r
      ∧ fr_name fr = dest
      ∧ fr_truncated fr = bool_decide (facet_size self < len_results r)
      ∧ Forall2 (fun rw fv =>
           let token := ManyToManyFacet.through middle c_to_dest (str (fv_value fv)) in
           row_get rw "value" = Ok (fv_value fv)
           ∧ row_get rw "count" = Ok (fv_count fv)
           ∧ (fv_selected fv = true ↔ ("_through", token) ∈ req_pairs (f_request self))
           ∧ fv_toggle_url fv
             = ds_absolute_url (f_ds self) (f_request self)
                 (if fv_selected fv
                  then path_with_removed_args (f_request self) [("_through", token)]
                  else path_with_added_args (f_request self)
                         [("_through", VText token)]))
          (take (facet_size self) (res_rows r)) (fr_results fr).
Proof.
  intros all Hget Hres dest fr Hfr.
  destruct (m2m_results_shaped _ _ _ _ _ _ Hget Hres Hfr)
    as (source&middle&c_to_table&pk&c_to_dest&r&Hj&Hq&Hshape). fold all in Hj.
  destruct (junction_destination _ _ _ _ _ _ _ _ Hj) as (fks'&fk&Hout&Hin&Hd&Hc).
  destruct Hj as (fks&Hmid&Hjc).
  pose proof (find_middle_outgoing _ _ _ _ _ Hmid) as Hout'.
  rewrite Hout in Hout'. injection Hout' as ->.
  exists fks, middle, c_to_table, pk, c_to_dest, fk, r.
  split_and!; try done.
  all: unfold ManyToManyFacet.shape_result in Hshape;
    destruct (mapM (fun rw => row_get rw "value") _) as [values|e];
    simpl in Hshape; [|discriminate];
    destruct (mapM _ _) as [k|e] eqn:Hm in Hshape; simpl in Hshape; [|discriminate];
    injection Hshape as <-; cbn [fr_name fr_truncated fr_results]; try reflexivity.
  apply mapM_result_Forall2 in Hm.
  eapply Forall2_impl; [exact Hm|]. intros rw fv Hfv.
  apply m2m_row_entry_inv in Hfv as (v&n&Hv&Hn&->). cbn.
  split_and!; try done. apply bool_decide_eq_true.
Qed.
End ManyToManyEntries.

Section QueryFailure.
Context `{Utils}.

End QueryFailure.


(** * The functions on the example database *)

Local Existing Instance Example.utils.

(** ** ColumnFacet on [books] *)

(** The suggestions for [books]: [genre] has three values among ten rows. *)
Lemma books_suggest :
  ColumnFacet.suggest (Example.books_ok [])
  = Ok [mkSuggestion "genre" None "http://localhost/db/books?_facet=genre"].
Proof. vm_compute. reflexivity. Qed.

Lemma books_genre_entries :
  (fun fv => (fv_value fv, fv_count fv, fv_selected fv)) <$> fr_results Example.books_genre_result
  = [(VText "fiction", VInt 5, true); (VText "bio", VInt 3, false);
     (VText "poetry", VInt 2, false)]
  ∧ fr_truncated Example.books_genre_result = false.
Proof. vm_compute. split; reflexivity. Qed.

(** [column_entry_selected] on [books] with the filter [(genre, fiction)]:
    "fiction" is selected and its toggle URL drops the pair, the other
    entries are not and their toggle URLs add theirs. *)
Lemma column_entry_selected_books :
  ∃ r, class_query Column Example.books_filtered "genre" = Ok r
    ∧ Forall2 (fun rw fv =>
         row_get rw "value" = Ok (fv_value fv)
         ∧ (fv_selected fv = true ↔
              ("genre", str (fv_value fv)) ∈ req_pairs (f_request Example.books_filtered))
         ∧ fv_toggle_url fv
           = ds_absolute_url (f_ds Example.books_filtered) (f_request Example.books_filtered)
               (if fv_selected fv
                then path_with_removed_args (f_request Example.books_filtered)
                       [("genre", str (fv_value fv))]
                else path_with_added_args (f_request Example.books_filtered)
                       [("genre", fv_value fv)]))
        (take (facet_size Example.books_filtered) (res_rows r)) (fr_results Example.books_genre_result).
Proof.
  apply (column_entry_selected Example.books_filtered
           Example.books_genre_results.1 Example.books_genre_results.2).
  - vm_compute. reflexivity.
  - vm_compute. reflexivity.
Defined.

Lemma books_genre_toggle_urls :
  fv_toggle_url <$> fr_results Example.books_genre_result
  = ["http://localhost/db/books?_facet=genre";
     "http://localhost/db/books?_facet=genre&genre=fiction&genre=bio";
     "http://localhost/db/books?_facet=genre&genre=fiction&genre=poetry"].
Proof. vm_compute. reflexivity. Qed.

(** ** Queries that fail *)

Lemma books_timeout_results :
  ColumnFacet.facet_results (Example.books_facet_fails QueryInterrupted) = Ok (∅, ["genre"]).
Proof. vm_compute. reflexivity. Qed.


(** [suggest_probe_failure] on [books]: the probe of [ColumnFacet.suggest]
    fails with an SQL error, and the loop stops with it. *)
Lemma suggest_probe_failure_books :
  for_each (ColumnFacet.suggest_body (Example.books_probe_fails OperationalError) (VInt 10)
              (facet_size (Example.books_probe_fails OperationalError)) []) [] ["genre"]
  = Raise OperationalError.
Proof.
  refine (proj2 (proj2 (proj2 (suggest_probe_failure
            (Example.books_probe_fails OperationalError) [] [] [] "genre" _)))
            (VInt 10) OperationalError _ _).
  - apply not_elem_of_nil.
  - vm_compute. reflexivity.
  - discriminate.
Defined.

(** Against C5 as stated: a probe of [ColumnFacet.suggest] that fails with an
    SQL error is not swallowed as a timeout is; [suggest] raises. *)
Lemma column_probe_error_is_not_swallowed :
  column_probe (Example.books_probe_fails OperationalError) "genre" = Raise OperationalError
  ∧ ColumnFacet.suggest (Example.books_probe_fails OperationalError) = Raise OperationalError
  ∧ ColumnFacet.suggest (Example.books_probe_fails QueryInterrupted) = Ok [].
Proof. split_and!; vm_compute; reflexivity. Qed.

(** ** load_facet_configs *)

(** C6, where the code departs from it: a [{type: config}] entry of the
    metadata passes the assertion and then raises [TypeError] at
    [metadata_config.items()[0]], so that no config comes out of it. *)
Theorem metadata_dict_entry_raises :
  load_facet_configs (mkRequest "/db/posts" []) (Some [MetaDict [("array", inl "tags")]])
  = Raise TypeError.
Proof. vm_compute. reflexivity. Qed.

(** The two other kinds of entries behave as C6 says. *)
Lemma metadata_entries_checked :
  (∃ m, load_facet_configs (mkRequest "/db/books" []) (Some [MetaStr "genre"]) = Ok m
        ∧ m !! "column" = Some [mkSC "metadata" {["simple" := "genre"]}])
  ∧ load_facet_configs (mkRequest "/db/posts" [])
      (Some [MetaDict [("array", inl "tags"); ("date", inl "created")]])
    = Raise AssertionError.
Proof.
  split.
  - eexists. split; vm_compute; reflexivity.
  - vm_compute. reflexivity.
Qed.

(** [stray_facet_key] on the key "_facetx" with nothing assigned before. *)
Lemma stray_facet_key_unbound :
  key_body (mkLocals None ∅) ("_facetx", ["genre"]) = Raise UnboundLocalError.
Proof.
  refine (proj1 (proj2 (stray_facet_key (mkLocals None ∅) "_facetx" ["genre"] _ _ _))
            "genre" [] {["simple" := "genre"]} _ _ _).
  - reflexivity.
  - discriminate.
  - reflexivity.
  - reflexivity.
  - reflexivity.
  - reflexivity.
Defined.

(** Against C10 as stated: "_facetx" is the first key of the query string,
    and no error is raised: [type] is still bound to "column" by the facet
    entry of the metadata, and the config of the key is filed there. *)
Lemma stray_key_after_metadata :
  ∃ m, load_facet_configs (mkRequest "/db/books" [("_facetx", "id")]) (Some [MetaStr "genre"])
       = Ok m
    ∧ m !! "column" = Some [mkSC "metadata" {["simple" := "genre"]};
                            mkSC "request" {["simple" := "id"]}].
Proof. eexists. split; vm_compute; reflexivity. Qed.

(** ** ManyToManyFacet on [books] *)

Lemma books_m2m_suggest :
  ManyToManyFacet.suggest (Example.books_ok [])
  = Ok [mkSuggestion "tags" (Some "m2m") "http://localhost/db/books?_facet_m2m=tags"].
Proof. vm_compute. reflexivity. Qed.

(** C7, where the code departs from it: [sequels] has an incoming edge to
    [books] and exactly two outgoing edges, both towards [books]; the other
    edge's target table is [books], and [suggest] raises [IndexError] instead
    of proposing it. *)
Theorem m2m_suggest_self_junction_raises :
  ManyToManyFacet.suggest
    (Example.books (Ok Example.genre_probe) (Ok Example.genres)
       Example.foreign_keys_sequels [] None)
  = Raise IndexError.
Proof. vm_compute. reflexivity. Qed.

(** ** ArrayFacet on [posts] *)

Lemma posts_array_suggest :
  ArrayFacet.suggest (Example.posts [VText "array"])
  = Ok [mkSuggestion "tags" (Some "array") "http://localhost/db/posts?_facet_array=tags"]
  ∧ ArrayFacet.suggest (Example.posts [VText "array"; VNull])
    = Ok [mkSuggestion "tags" (Some "array") "http://localhost/db/posts?_facet_array=tags"]
  ∧ ArrayFacet.suggest (Example.posts [VText "array"; VText "object"]) = Ok [].
Proof. split_and!; vm_compute; reflexivity. Qed.

(** C9, where the code departs from it: the kinds observed for [tags] are
    a null and "array", the null first; the set of kinds is {array, null},
    and the column is not proposed. *)
Theorem array_suggest_null_first :
  observed_kinds (Example.returned (mkResults [] [])
                    (array_probe (Example.posts [VNull; VText "array"]) "tags"))
  = Ok [VNull; VText "array"]
  ∧ ArrayFacet.suggest (Example.posts [VNull; VText "array"]) = Ok [].
Proof. split; vm_compute; reflexivity. Qed.

(** ** The [_through] token of a value *)

(** [through_token_roundtrip] on the tag 3 of [book_tags]. *)
Lemma through_token_book_tags :
  ManyToManyFacet.through "book_tags" "tag_id" "3"
  = "{" +:+ Through.qstr "column" (":" +:+ Through.qstr "tag_id" ("," +:+
      Through.qstr "table" (":" +:+ Through.qstr "book_tags" ("," +:+
        Through.qstr "value" (":" +:+ Through.qstr "3" "}")))))
  ∧ Through.parse_through (ManyToManyFacet.through "book_tags" "tag_id" "3")
    = Some ("book_tags", "tag_id", "3").
Proof.
  split.
  - apply (proj1 (through_token_roundtrip "book_tags" "tag_id" "3")).
  - apply (proj1 (proj2 (through_token_roundtrip "book_tags" "tag_id" "3"))).
Defined.

(** ** The further properties on the example database *)

(** [load_facet_configs_other_keys]: a filter, a page size and another path
    change nothing. *)
Lemma load_facet_configs_other_keys_books :
  load_facet_configs
    (mkRequest "/db/books" [("_facet", "genre"); ("genre", "fiction"); ("_size", "10")]) None
  = load_facet_configs (mkRequest "/db/shelf" [("_facet", "genre")]) None.
Proof. apply load_facet_configs_other_keys. vm_compute. reflexivity. Defined.

(** [facet_key_files_values]: "_facet_date" with the value "day" twice, after
    an entry of the metadata. *)
Lemma facet_key_files_values_date :
  ∃ l', key_body (mkLocals None {["date" := [metadata_column "day"]]})
          ("_facet_date", ["day"; "day"]) = Ok l'
    ∧ loc_type l' = Some "date"
    ∧ loc_facet_configs l' !! "date"
      = Some (default []
                (loc_facet_configs (mkLocals None {["date" := [metadata_column "day"]]})
                 !! "date")
              ++ (request_entry <$> [{["simple" := "day"]}; {["simple" := "day"]}]))
    ∧ ∀ ty', ty' ≠ "date" →
        loc_facet_configs l' !! ty'
        = loc_facet_configs (mkLocals None {["date" := [metadata_column "day"]]}) !! ty'.
Proof.
  apply (facet_key_files_values (mkLocals None {["date" := [metadata_column "day"]]})
           "_facet_date" "date" ["day"; "day"]
           [{["simple" := "day"]}; {["simple" := "day"]}]).
  - right. reflexivity.
  - discriminate.
  - vm_compute. reflexivity.
Defined.

(** [load_facet_configs_column_order]: [id] from the metadata, then [genre]
    and [id] from the query string. *)
Lemma load_facet_configs_column_order_books :
  load_facet_configs
    (mkRequest "/db/books" [("_facet", "genre"); ("genre", "fiction"); ("_facet", "id")])
    (Some (MetaStr <$> ["id"]))
  = Ok {["column" := (metadata_column <$> ["id"])
                     ++ (request_entry <$> [{["simple" := "genre"]}; {["simple" := "id"]}])]}.
Proof.
  apply (load_facet_configs_column_order
           (mkRequest "/db/books" [("_facet", "genre"); ("genre", "fiction"); ("_facet", "id")])
           ["id"] [{["simple" := "genre"]}; {["simple" := "id"]}]).
  - intros kv Hin Hk. cbn [req_pairs] in Hin.
    repeat (apply elem_of_cons in Hin as [->|Hin]); try reflexivity.
    + vm_compute in Hk. discriminate.
    + by apply elem_of_nil in Hin.
  - vm_compute. reflexivity.
  - discriminate.
Defined.


(** [date_suggest_iff] on [events]: [day] is proposed. *)
Lemma date_suggest_iff_events :
  "day" ∈ sug_name <$>
    [mkSuggestion "day" (Some "date") "http://localhost/db/events?_facet_date=day"]
  ↔ "day" ∈ ["id"; "day"; "tags"] ∧ ("day" ∉ ([] : list string))
    ∧ ∃ r values, date_probe (Events.events []) "day" = Ok r
        ∧ mapM row_first (res_rows r) = Ok values
        ∧ ∃ v, v ∈ values ∧ truthy v = true.
Proof.
  apply (date_suggest_iff (Events.events [])).
  - vm_compute. reflexivity.
  - vm_compute. reflexivity.
  - vm_compute. reflexivity.
Defined.

(** [array_suggest_iff] on [events]: [tags] is proposed. *)
Lemma array_suggest_iff_events :
  "tags" ∈ sug_name <$>
    [mkSuggestion "tags" (Some "array") "http://localhost/db/events?_facet_array=tags"]
  ↔ "tags" ∈ ["id"; "day"; "tags"] ∧ ("tags" ∉ ([] : list string))
    ∧ ∃ r types, array_probe (Events.events []) "tags" = Ok r
        ∧ observed_kinds r = Ok types
        ∧ (types = [VText "array"] ∨ types = [VText "array"; VNull]).
Proof.
  apply (array_suggest_iff (Events.events [])).
  - vm_compute. reflexivity.
  - vm_compute. reflexivity.
  - vm_compute. reflexivity.
Defined.

(** [suggest_structured_config_raises] on [events] with the facet on [day]
    given as an object. *)
Lemma suggest_structured_config_raises_events :
  class_suggest Date Events.by_day_object = Raise KeyError.
Proof.
  apply (suggest_structured_config_raises Date Events.by_day_object
           [mkSC "request" {["column" := "day"]}] (mkSC "request" {["column" := "day"]})
           VNull ["id"; "day"; "tags"]).
  - vm_compute. reflexivity.
  - apply list_elem_of_here.
  - vm_compute. reflexivity.
  - reflexivity.
  - vm_compute. reflexivity.
Defined.

(** The facet on [genre] when its query is interrupted. *)
Lemma books_timeout_partition :
  (∀ column, is_Some ((∅ : gmap string facet_result) !! column) ↔
     ∃ sc r, sc ∈ [mkSC "request" {["simple" := "genre"]}]
             ∧ config_column (sc_config sc) = Ok column
             ∧ class_query Column (Example.books_facet_fails QueryInterrupted) column = Ok r)
  ∧ (∃ cols, mapM (fun sc => config_column (sc_config sc))
               [mkSC "request" {["simple" := "genre"]}] = Ok cols
       ∧ ["genre"]
         = filter (fun col =>
                     interrupted
                       (class_query Column (Example.books_facet_fails QueryInterrupted) col)
                     = true) cols)
  ∧ (∀ column, column ∈ ["genre"] → (∅ : gmap string facet_result) !! column = None).
Proof.
  apply (facet_results_partition Column (Example.books_facet_fails QueryInterrupted)
           [mkSC "request" {["simple" := "genre"]}] ∅ ["genre"]).
  - vm_compute. reflexivity.
  - vm_compute. reflexivity.
Defined.

(** [genre] enabled by the metadata and by the query string: the entry is
    the one of the query string, and can be hidden. *)
Lemma books_genre_twice_hideable :
  ∃ fr, books_genre_twice_results.1 !! "genre" = Some fr
    ∧ fr_name fr = "genre"
    ∧ fr_type fr = class_type Column
    ∧ fr_hideable fr = negb (String.eqb (sc_source (mkSC "request" {["simple" := "genre"]}))
                               "metadata")
    ∧ fr_toggle_url fr
      = path_with_removed_args (f_request books_genre_twice) [(class_key Column, "genre")].
Proof.
  apply (facet_result_last_config Column books_genre_twice
           [mkSC "metadata" {["simple" := "genre"]}] []
           (mkSC "request" {["simple" := "genre"]})
           books_genre_twice_results.1 books_genre_twice_results.2 "genre" Example.genres).
  - vm_compute. reflexivity.
  - vm_compute. reflexivity.
  - intros sc' Hin. by apply elem_of_nil in Hin.
  - vm_compute. reflexivity.
  - vm_compute. reflexivity.
Defined.

Lemma events_tag_entries :
  (fun fv => (fv_value fv, fv_label fv, fv_count fv, fv_selected fv))
    <$> fr_results Events.by_tag_result
  = [(VText "music", VText "music", VInt 3, false);
     (VText "art", VText "art", VInt 2, false);
     (VText "7", VText "7", VInt 1, true)].
Proof. vm_compute. reflexivity. Qed.

(** [array_entry_selected] on [events]: the element 7 is selected through the
    pair of "tags__arraycontains" and "7". *)
Lemma array_entry_selected_events :
  ∃ r, class_query Array Events.by_tag "tags" = Ok r
    ∧ Forall2 (fun rw fv => ∃ v,
         row_get rw "value" = Ok v
         ∧ fv_value fv = VText (str v)
         ∧ fv_label fv = VText (str v)
         ∧ (fv_selected fv = true ↔
              ("tags" +:+ "__arraycontains", str v) ∈ req_pairs (f_request Events.by_tag))
         ∧ fv_toggle_url fv
           = ds_absolute_url (f_ds Events.by_tag) (f_request Events.by_tag)
               (if fv_selected fv
                then path_with_removed_args (f_request Events.by_tag)
                       [("tags" +:+ "__arraycontains", str v)]
                else path_with_added_args (f_request Events.by_tag)
                       [("tags" +:+ "__arraycontains", VText (str v))]))
        (take (facet_size Events.by_tag) (res_rows r)) (fr_results Events.by_tag_result).
Proof.
  apply (array_entry_selected Events.by_tag Events.by_tag_results.1
           Events.by_tag_results.2).
  - vm_compute. reflexivity.
  - vm_compute. reflexivity.
Defined.

Lemma events_day_entries :
  (fun fv => (fv_value fv, fv_label fv, fv_count fv, fv_selected fv))
    <$> fr_results Events.by_day_result
  = [(VText "2019-05-01", VText "2019-05-01", VInt 4, true);
     (VText "2019-05-02", VText "2019-05-02", VInt 1, false)].
Proof. vm_compute. reflexivity. Qed.

(** [date_entry_selected] on [events] with the date 2019-05-01 selected. *)
Lemma date_entry_selected_events :
  ∃ r, class_query Date Events.by_day "day" = Ok r
    ∧ Forall2 (fun rw fv =>
         row_get rw "value" = Ok (fv_value fv)
         ∧ fv_label fv = fv_value fv
         ∧ (fv_selected fv = true ↔
              default "None"
                (last_value (req_pairs (f_request Events.by_day)) ("day" +:+ "__date"))
              = str (fv_value fv))
         ∧ fv_toggle_url fv
           = ds_absolute_url (f_ds Events.by_day) (f_request Events.by_day)
               (if fv_selected fv
                then path_with_removed_args (f_request Events.by_day)
                       [("day" +:+ "__date", str (fv_value fv))]
                else path_with_added_args (f_request Events.by_day)
                       [("day" +:+ "__date", fv_value fv)]))
        (take (facet_size Events.by_day) (res_rows r)) (fr_results Events.by_day_result).
Proof.
  apply (date_entry_selected Events.by_day Events.by_day_results.1
           Events.by_day_results.2).
  - vm_compute. reflexivity.
  - vm_compute. reflexivity.
Defined.

(** [column_entry_label] on [books]: nothing is expanded, and the labels are
    the values. *)
Lemma column_entry_label_books :
  ∃ r values,
    class_query Column Example.books_filtered "genre" = Ok r
    ∧ mapM (fun rw => row_get rw "value")
        (take (facet_size Example.books_filtered) (res_rows r)) = Ok values
    ∧ fv_value <$> fr_results Example.books_genre_result = values
    ∧ (∀ table,
         f_table Example.books_filtered = Some table → table ≠ "" →
         Forall (fun fv =>
            fv_label fv
            = dict_get (ds_expand_foreign_keys (f_ds Example.books_filtered)
                          (f_database Example.books_filtered) table "genre" values)
                ("genre", fv_value fv) (fv_value fv))
           (fr_results Example.books_genre_result))
    ∧ (str_truthy (f_table Example.books_filtered) = false →
       Forall (fun fv => fv_label fv = fv_value fv) (fr_results Example.books_genre_result)).
Proof.
  apply (column_entry_label Example.books_filtered Example.books_genre_results.1
           Example.books_genre_results.2).
  - vm_compute. reflexivity.
  - vm_compute. reflexivity.
Defined.

(** [facet_results_returns] on [events] faceted by [day]. *)
Lemma facet_results_returns_events :
  ∃ res timed, class_facet_results Date Events.by_day = Ok (res, timed).
Proof.
  apply (facet_results_returns Date Events.by_day [mkSC "request" {["simple" := "day"]}]).
  - vm_compute. reflexivity.
  - intros sc Hin. apply list_elem_of_singleton in Hin as ->.
    exists "day". split; [vm_compute; reflexivity|].
    right. exists Events.days. split; [vm_compute; reflexivity|].
    repeat constructor; eexists; vm_compute; reflexivity.
Defined.

(** ** ManyToManyFacet on [books] *)

(** [find_middle_first]: from [books] towards [tags] the middle table is
    [book_tags], the table of the first incoming edge. *)
Lemma find_middle_first_books :
  ∃ before fk after,
    [mkFK "book_tags" "id" "book_id"; mkFK "sequels" "id" "book_id";
     mkFK "sequels" "id" "sequel_id"] = before ++ fk :: after
    ∧ fk_other_table fk = "book_tags"
    ∧ ManyToManyFacet.outgoing_of Example.foreign_keys_sequels "book_tags"
      = Ok [mkFK "books" "book_id" "id"; mkFK "tags" "tag_id" "id"]
    ∧ junction_of "tags" [mkFK "books" "book_id" "id"; mkFK "tags" "tag_id" "id"]
    ∧ ∀ fk', fk' ∈ before →
        ∃ out, ManyToManyFacet.outgoing_of Example.foreign_keys_sequels (fk_other_table fk')
               = Ok out
               ∧ ¬ junction_of "tags" out.
Proof.
  apply (find_middle_first Example.foreign_keys_sequels "tags"
           [mkFK "book_tags" "id" "book_id"; mkFK "sequels" "id" "book_id";
            mkFK "sequels" "id" "sequel_id"]
           (Some ([mkFK "books" "book_id" "id"; mkFK "tags" "tag_id" "id"], "book_tags"))).
  vm_compute. reflexivity.
Defined.

(** [junction_columns_read] on [book_tags], with the edge to [tags] first. *)
Lemma junction_columns_read_book_tags :
  foldl (ManyToManyFacet.columns_body Tagging.by_tag "tags")
    (ManyToManyFacet.mkJC None None None)
    [mkFK "tags" "tag_id" "id"; mkFK "books" "book_id" "id"]
  = ManyToManyFacet.mkJC (Some (fk_column (mkFK "books" "book_id" "id")))
      (Some (fk_other_column (mkFK "books" "book_id" "id")))
      (Some (fk_column (mkFK "tags" "tag_id" "id"))).
Proof.
  apply (junction_columns_read Tagging.by_tag "tags"
           (mkFK "books" "book_id" "id") (mkFK "tags" "tag_id" "id")).
  - right. reflexivity.
  - reflexivity.
  - reflexivity.
  - discriminate.
Defined.

(** [self_junction_assertion] on [books] faceted by [books]. *)
Lemma self_junction_assertion_books :
  ManyToManyFacet.facet_results Tagging.by_sequel = Raise AssertionError.
Proof.
  apply (self_junction_assertion Tagging.by_sequel
           (mkTFK [mkFK "book_tags" "id" "book_id"; mkFK "sequels" "id" "book_id";
                   mkFK "sequels" "id" "sequel_id"] [])
           [] [] (mkSC "request" {["simple" := "books"]}) "books" "book_tags"
           [mkFK "books" "book_id" "id"; mkFK "tags" "tag_id" "id"] (∅, [])).
  - vm_compute. reflexivity.
  - vm_compute. reflexivity.
  - reflexivity.
  - vm_compute. reflexivity.
  - reflexivity.
  - vm_compute. reflexivity.
Defined.

Lemma books_tag_entries :
  (fun fv => (fv_value fv, fv_label fv, fv_count fv, fv_selected fv))
    <$> fr_results Tagging.by_tag_result
  = [(VInt 1, VInt 1, VInt 4, false); (VInt 2, VInt 2, VInt 2, true)].
Proof. vm_compute. reflexivity. Qed.

(** [m2m_missing_junction] on [books] faceted by [tags] and then by
    [authors]: the result of [tags] is dropped. *)
Lemma m2m_missing_junction_books :
  ManyToManyFacet.facet_results Tagging.by_tag_and_author = Ok (∅, []).
Proof.
  apply (m2m_missing_junction Tagging.by_tag_and_author
           (mkTFK [mkFK "book_tags" "id" "book_id"] [])
           [mkSC "request" {["simple" := "tags"]}] []
           (mkSC "request" {["simple" := "authors"]}) "authors"
           (<["tags" := Tagging.by_tag_and_author_first]> ∅, [])).
  - vm_compute. reflexivity.
  - vm_compute. reflexivity.
  - vm_compute. reflexivity.
  - vm_compute. reflexivity.
  - vm_compute. reflexivity.
Defined.

Lemma books_tag_and_author_first :
  fr_name Tagging.by_tag_and_author_first = "tags"
  ∧ fv_value <$> fr_results Tagging.by_tag_and_author_first = [VInt 1; VInt 2].
Proof. vm_compute. split; reflexivity. Qed.

(** [m2m_suggest_destinations] on [books]: [tags] is proposed. *)
Lemma m2m_suggest_destinations_books :
  "tags" ∈ sug_name <$>
    [mkSuggestion "tags" (Some "m2m") "http://localhost/db/books?_facet_m2m=tags"]
  ↔ Some "tags" ≠ f_table (Example.books_ok [])
    ∧ (("_facet_m2m", "tags") ∉ req_pairs (f_request (Example.books_ok [])))
    ∧ ∃ fk out, fk ∈ tfk_incoming (mkTFK [mkFK "book_tags" "id" "book_id"] [])
        ∧ ManyToManyFacet.outgoing_of
            (ds_get_all_foreign_keys (f_ds (Example.books_ok []))
               (f_database (Example.books_ok []))) (fk_other_table fk) = Ok out
        ∧ junction_towards (f_table (Example.books_ok [])) out "tags".
Proof.
  apply (m2m_suggest_destinations (Example.books_ok [])
           (mkTFK [mkFK "book_tags" "id" "book_id"] [])
           [mkSuggestion "tags" (Some "m2m") "http://localhost/db/books?_facet_m2m=tags"]).
  - vm_compute. reflexivity.
  - intros fk out Hin Hout. apply list_elem_of_singleton in Hin as ->.
    vm_compute in Hout. injection Hout as <-.
    exists (mkFK "books" "book_id" "id"). split; [apply list_elem_of_here | reflexivity].
  - vm_compute. reflexivity.
Defined.

Local Existing Instance Library.functions.

(** ** The answers of the engine against the rows of [books] *)

Lemma books_distinct_genres :
  Sql.distinct_values (Sql.Col "genre") Library.rows
  = [VText "fiction"; VText "bio"; VText "poetry"]
  ∧ Sql.groups (Sql.Col "genre") Library.rows
    = [(VText "fiction", 5); (VText "bio", 3); (VText "poetry", 2)].
Proof. vm_compute. split; reflexivity. Qed.



Lemma books_suggest_genre_not_id :
  length (Sql.distinct_values (Sql.Col "genre") Library.rows) = 3
  ∧ length (Sql.distinct_values (Sql.Col "id") Library.rows) = 10
  ∧ sug_name <$> Example.returned [] (ColumnFacet.suggest (Example.books_ok [])) = ["genre"].
Proof. vm_compute. split_and!; reflexivity. Qed.


Lemma books_by_id_entries :
  (fun fr => ((fun fv => (fv_value fv, fv_count fv)) <$> fr_results fr, fr_truncated fr))
    <$> Library.by_id_results.1 !! "id"
  = Some ([(VInt 1, VInt 1); (VInt 2, VInt 1); (VInt 3, VInt 1); (VInt 4, VInt 1);
           (VInt 5, VInt 1)], true).
Proof. vm_compute. reflexivity. Qed.

(** [facet_results_truncated] on [books] faceted by [id]: five of the ten
    groups are kept, and the result is truncated. *)
Lemma facet_results_truncated_books :
  ∃ fr gs, Library.by_id_results.1 !! "id" = Some fr
    ∧ gs ≡ₚ Sql.groups (class_expr Column "id") Library.rows
    ∧ Sql.count_descending gs
    ∧ (fun fv => (fv_value fv, fv_count fv)) <$> fr_results fr
      = (fun g => (class_value Column g.1, VInt (Z.of_nat g.2)))
          <$> take (facet_size Library.by_id) gs
    ∧ length (fr_results fr) ≤ facet_size Library.by_id
    ∧ (fr_truncated fr = true ↔ len_results Library.id_counts = facet_size Library.by_id + 1)
    ∧ (fr_truncated fr = true ↔
         facet_size Library.by_id
         < length (Sql.distinct_values (class_expr Column "id") Library.rows)).
Proof.
  apply (facet_results_truncated Column Library.by_id
           [mkSC "request" {["simple" := "id"]}]
           Library.by_id_results.1 Library.by_id_results.2 Library.rows)
    with (sc := mkSC "request" {["simple" := "id"]}) (r := Library.id_counts).
  - vm_compute. reflexivity.
  - vm_compute. reflexivity.
  - apply list_elem_of_here.
  - vm_compute. reflexivity.
  - vm_compute. reflexivity.
  - intros r Hr. vm_compute in Hr. injection Hr as <-.
    exists (Sql.groups (Sql.Col "id") Library.rows). split_and!; [done| |].
    + vm_compute. repeat constructor.
    + vm_compute. reflexivity.
Defined.



(** [m2m_entry_selected] on [books] faceted by its tags, with the tag 2
    selected through its token. *)
Lemma m2m_entry_selected_books :
  ∃ fks middle c_to_table pk c_to_dest fk r,
    ManyToManyFacet.find_middle
      (ds_get_all_foreign_keys (f_ds Tagging.by_tag) (f_database Tagging.by_tag)) "tags"
      (tfk_incoming (mkTFK [mkFK "book_tags" "id" "book_id"] []))
    = Ok (Some (fks, middle))
    ∧ ManyToManyFacet.outgoing_of
        (ds_get_all_foreign_keys (f_ds Tagging.by_tag) (f_database Tagging.by_tag)) middle
      = Ok fks
    ∧ foldl (ManyToManyFacet.columns_body Tagging.by_tag "tags")
        (ManyToManyFacet.mkJC None None None) fks
      = ManyToManyFacet.mkJC (Some c_to_table) (Some pk) (Some c_to_dest)
    ∧ fk ∈ fks ∧ fk_other_table fk = "tags" ∧ fk_column fk = c_to_dest
    ∧ m2m_query Tagging.by_tag middle c_to_dest c_to_table pk = Ok r
    ∧ fr_name Tagging.by_tag_result = "tags"
    ∧ fr_truncated Tagging.by_tag_result
      = bool_decide (facet_size Tagging.by_tag < len_results r)
    ∧ Forall2 (fun rw fv =>
         let token := ManyToManyFacet.through middle c_to_dest (str (fv_value fv)) in
         row_get rw "value" = Ok (fv_value fv)
         ∧ row_get rw "count" = Ok (fv_count fv)
         ∧ (fv_selected fv = true ↔
              ("_through", token) ∈ req_pairs (f_request Tagging.by_tag))
         ∧ fv_toggle_url fv
           = ds_absolute_url (f_ds Tagging.by_tag) (f_request Tagging.by_tag)
               (if fv_selected fv
                then path_with_removed_args (f_request Tagging.by_tag) [("_through", token)]
                else path_with_added_args (f_request Tagging.by_tag)
                       [("_through", VText token)]))
        (take (facet_size Tagging.by_tag) (res_rows r)) (fr_results Tagging.by_tag_result).
Proof.
  apply (m2m_entry_selected Tagging.by_tag (mkTFK [mkFK "book_tags" "id" "book_id"] [])
           Tagging.by_tag_results.1 Tagging.by_tag_results.2).
  - vm_compute. reflexivity.
  - vm_compute. reflexivity.
  - vm_compute. reflexivity.
Defined.
